(** * adk-go-openai: the OpenAI adapter of the ADK model interface

  A shallow embedding of [openai.go]: the schema mapper, the response
  converter and the streaming aggregator, with their properties.

  Conventions of the embedding.
  - A Go [string] is a [string]; a Go [int] that is only stored or compared
    is a [Z]; the conversion [int32(x)] is written out as [Go.int32].
  - A Go struct is a record, declared in a module of the struct's name that
    sits in a module of the Go package's name ([genai.Part.t],
    [openai.Usage.t], [model.LLMResponse.t]); fields keep their Go names.
  - A pointer that the code tests against [nil] is an [option]; a pointer
    the code dereferences without a test is the value itself.
  - A [map[K]V] is a [gmap K V]; a nil map reads as the empty map.
  - A two-valued Go return [(v, err)] is a pair whose second component is
    an [option Go.error], [None] standing for a nil error.
  - [iter.Seq2] is run against a consumer: the [yield] callback sees the
    elements pushed so far and answers whether to go on.
  - What the adapter calls in other packages and what is not data
    ([json.Unmarshal], [json.Marshal], base64, the order of [range] over a
    map) is a variable of the section that uses it. *)

From stdpp Require Import gmap strings list fin_maps sorting.
From Stdlib Require Import ZArith Lia.

Local Open Scope string_scope.
Local Open Scope list_scope.
Local Open Scope Z_scope.

(** ** Go runtime notions used by the adapter *)

Module Go.

(** [int32(z)] for a 64-bit [int] [z]: the low 32 bits, read as signed. *)
Definition int32 (z : Z) : Z := (z + 2 ^ 31) mod 2 ^ 32 - 2 ^ 31.

(** Error values. [ErrNoChoicesInResponse] and [ErrUnknownPartInResponse]
    are the two sentinels of the package; [EOF] is [io.EOF]; [Wrap] is
    [fmt.Errorf("...: %w", err)]; [Other] is any error of a collaborator. *)
Inductive error : Type :=
  | ErrNoChoicesInResponse
  | ErrUnknownPartInResponse
  | EOF
  | Other (msg : string)
  | Wrap (msg : string) (inner : error).

(** [errors.Is(err, io.EOF)]. *)
Fixpoint is_EOF (e : error) : bool :=
  match e with
  | EOF => true
  | Wrap _ inner => is_EOF inner
  | _ => false
  end.

(** A slice value that may be nil. [append] allocates on a nil slice. *)
Definition slice (A : Type) : Type := option (list A).

Definition len {A} (s : slice A) : nat :=
  match s with None => 0%nat | Some l => length l end.

Definition append {A} (s : slice A) (x : A) : slice A :=
  match s with None => Some [x] | Some l => Some (l ++ [x]) end.

Definition elems {A} (s : slice A) : list A :=
  match s with None => [] | Some l => l end.

(** The dynamically typed values that the adapter stores under [any]:
    what [encoding/json] decodes into, and what [convertSchema] builds. *)
#[warning="-register-all"]
Inductive any : Type :=
  | Nil
  | Bool (b : bool)
  | Number (mantissa exponent : Z)
  | Str (s : string)
  | Strs (l : list string)
  | Slice (l : list any)
  | Map (m : gmap string any).

End Go.

(** ** The generic model: package [genai] *)

Module genai.

(** Modelled from the spec: the enumeration [genai.FinishReason] is declared
    in the genai package, outside this repository. The adapter names four
    of its constants. *)
Inductive FinishReason : Type :=
  | FinishReasonUnspecified
  | FinishReasonStop
  | FinishReasonMaxTokens
  | FinishReasonSafety.

(** Modelled from the spec: the value of a [genai.FinishReason] variable
    that was declared and never assigned ([var finishReason
    genai.FinishReason]). The spec gives it as Unspecified. *)
Definition FinishReason_zero : FinishReason := FinishReasonUnspecified.

(** Modelled from the spec: the enumeration [genai.Type] of schema types is
    declared in the genai package. [TypeUnknown] stands for every value the
    adapter does not name. *)
Inductive Type_ : Type :=
  | TypeUnspecified
  | TypeString
  | TypeNumber
  | TypeInteger
  | TypeBoolean
  | TypeArray
  | TypeObject
  | TypeUnknown (tag : string).

Definition RoleModel : string := "model".

Module FunctionCall.
Record t : Type := mk { ID : string; Name : string; Args : gmap string Go.any }.
End FunctionCall.

Module FunctionResponse.
Record t : Type := mk { ID : string; Name : string; Response : gmap string Go.any }.
End FunctionResponse.

Module Blob.
Record t : Type := mk { MIMEType : string; Data : list Byte.byte }.
End Blob.

Module FileData.
Record t : Type := mk { FileURI : string; MIMEType : string }.
End FileData.

Module Part.
Record t : Type := mk {
    Text : string;
    FunctionCall : option FunctionCall.t;
    FunctionResponse : option FunctionResponse.t;
    InlineData : option Blob.t;
    FileData : option FileData.t }.
End Part.

Module Content.
Record t : Type := mk { Role : string; Parts : list Part.t }.
End Content.

Module GenerateContentResponseUsageMetadata.
Record t : Type := mk {
    PromptTokenCount : Z;
    CandidatesTokenCount : Z;
    TotalTokenCount : Z;
    CachedContentTokenCount : Z }.
End GenerateContentResponseUsageMetadata.

Module FunctionDeclaration.
Record t : Type := mk {
    Name : string;
    Description : string;
    ParametersJsonSchema : Go.any }.
End FunctionDeclaration.

Module Tool.
Record t : Type := mk {
    FunctionDeclarations : list (option FunctionDeclaration.t) }.
End Tool.

Module Schema.
#[warning="-register-all"]
Inductive t : Type := mk {
    Type_ : genai.Type_;
    Description : string;
    Properties : gmap string (option t);
    Required : list string;
    Items : option t;
    Enum : list string }.
End Schema.

End genai.

(** ** The agent framework's response: package [model] *)

Module model.

Module LLMResponse.
Record t : Type := mk {
    Content : genai.Content.t;
    UsageMetadata : option genai.GenerateContentResponseUsageMetadata.t;
    FinishReason : genai.FinishReason;
    Partial : bool;
    TurnComplete : bool }.
End LLMResponse.

End model.

(** ** The wire format: package [openai] (go-openai) *)

Module openai.

Definition ChatMessageRoleSystem : string := "system".
Definition ChatMessageRoleUser : string := "user".
Definition ChatMessageRoleAssistant : string := "assistant".
Definition ChatMessageRoleTool : string := "tool".
Definition ToolTypeFunction : string := "function".
Definition ChatMessagePartTypeText : string := "text".
Definition ChatMessagePartTypeImageURL : string := "image_url".
Definition ImageURLDetailAuto : string := "auto".

Module FunctionCall.
Record t : Type := mk { Name : string; Arguments : string }.
End FunctionCall.

Module ToolCall.
Record t : Type := mk {
    Index : option Z;
    ID : string;
    Type_ : string;
    Function : FunctionCall.t }.
End ToolCall.

Module ChatMessageImageURL.
Record t : Type := mk { URL : string; Detail : string }.
End ChatMessageImageURL.

Module ChatMessagePart.
Record t : Type := mk {
    Type_ : string;
    Text : string;
    ImageURL : option ChatMessageImageURL.t }.
End ChatMessagePart.

Module ChatCompletionMessage.
Record t : Type := mk {
    Role : string;
    Content : string;
    MultiContent : list ChatMessagePart.t;
    ToolCalls : list ToolCall.t;
    ToolCallID : string }.
(** The zero value [openai.ChatCompletionMessage{}]. *)
Definition zero : t := mk "" "" [] [] "".
End ChatCompletionMessage.

Module PromptTokensDetails.
Record t : Type := mk { AudioTokens : Z; CachedTokens : Z }.
End PromptTokensDetails.

Module Usage.
Record t : Type := mk {
    PromptTokens : Z;
    CompletionTokens : Z;
    TotalTokens : Z;
    PromptTokensDetails : option PromptTokensDetails.t }.
End Usage.

Module ChatCompletionChoice.
Record t : Type := mk {
    Index : Z;
    Message : ChatCompletionMessage.t;
    FinishReason : string }.
End ChatCompletionChoice.

Module ChatCompletionResponse.
Record t : Type := mk {
    Choices : list ChatCompletionChoice.t;
    Usage : Usage.t }.
End ChatCompletionResponse.

Module ChatCompletionStreamChoiceDelta.
Record t : Type := mk {
    Content : string;
    Role : string;
    ToolCalls : list ToolCall.t }.
End ChatCompletionStreamChoiceDelta.

Module ChatCompletionStreamChoice.
Record t : Type := mk {
    Index : Z;
    Delta : ChatCompletionStreamChoiceDelta.t;
    FinishReason : string }.
End ChatCompletionStreamChoice.

Module ChatCompletionStreamResponse.
Record t : Type := mk {
    Choices : list ChatCompletionStreamChoice.t;
    Usage : option Usage.t }.
End ChatCompletionStreamResponse.

Module FunctionDefinition.
Record t : Type := mk {
    Name : string;
    Description : string;
    Parameters : Go.any }.
End FunctionDefinition.

Module Tool.
Record t : Type := mk {
    Type_ : string;
    Function : option FunctionDefinition.t }.
End Tool.

End openai.

(** ** A small error monad for the conversions that can fail *)

Definition res (A : Type) : Type := A + Go.error.

Definition ret {A} (a : A) : res A := inl a.

Definition fail {A} (e : Go.error) : res A := inr e.

Definition bind {A B} (m : res A) (k : A → res B) : res B :=
  match m with inl a => k a | inr e => inr e end.

Notation "'do' x <- m 'in' k" := (bind m (fun x => k))
  (at level 10, x name, m at level 100, k at level 200).

(** The Go pair [(v, err)] of a computation, [zero] being the value returned
    next to a non-nil error. *)
Definition go_pair {A} (zero : A) (m : res A) : A * option Go.error :=
  match m with inl a => (a, None) | inr e => (zero, Some e) end.

(** ** The adapter *)

Section Adapter.

(** [json.Unmarshal([]byte(s), &args)] with [args] a [map[string]any]:
    [None] when it returns an error, otherwise the map left in [args]. *)
Variable json_Unmarshal : string → option (gmap string Go.any).

(** [json.Marshal(m)] for a [map[string]any], with its text as a string. *)
Variable json_Marshal : gmap string Go.any → res string.

(** [base64.StdEncoding.EncodeToString]. *)
Variable base64_EncodeToString : list Byte.byte → string.

Definition convertRoleToOpenAI (role : string) : string :=
  match role with
  | "user" => openai.ChatMessageRoleUser
  | "model" => openai.ChatMessageRoleAssistant
  | "system" => openai.ChatMessageRoleSystem
  | _ => openai.ChatMessageRoleUser
  end.

Definition convertFinishReason (reason : string) : genai.FinishReason :=
  match reason with
  | "stop" => genai.FinishReasonStop
  | "length" => genai.FinishReasonMaxTokens
  | "tool_calls" | "function_call" => genai.FinishReasonStop
  | "content_filter" => genai.FinishReasonSafety
  | _ => genai.FinishReasonUnspecified
  end.

Definition parseJSONArgs (argsJSON : string) : gmap string Go.any :=
  if decide (argsJSON = "") then ∅
  else match json_Unmarshal argsJSON with
       | None => ∅
       | Some args => args
       end.

(** [&genai.Part{Text: s}] and [&genai.Part{FunctionCall: fc}]. *)
Definition textPart (s : string) : genai.Part.t :=
  genai.Part.mk s None None None None.

Definition functionCallPart (fc : genai.FunctionCall.t) : genai.Part.t :=
  genai.Part.mk "" (Some fc) None None None.

(** *** Content to wire message *)

(** The locals of [toOpenAIChatCompletionMessage] that its loop updates. *)
Record messageBuilder : Type := mkMessageBuilder {
  openaiMsg : openai.ChatCompletionMessage.t;
  textContent : string;
  toolCalls : list openai.ToolCall.t;
  multiContent : list openai.ChatMessagePart.t }.

(** One iteration of [for _, part := range content.Parts], [n] being
    [len(content.Parts)]. *)
Definition messagePart (n : nat) (b : messageBuilder) (part : genai.Part.t)
  : res messageBuilder :=
  let b :=
    if decide (genai.Part.Text part ≠ "") then
      if decide (n = 1%nat) then
        mkMessageBuilder (openaiMsg b) (genai.Part.Text part) (toolCalls b) (multiContent b)
      else
        mkMessageBuilder (openaiMsg b) (textContent b) (toolCalls b)
          (multiContent b ++
           [openai.ChatMessagePart.mk openai.ChatMessagePartTypeText
              (genai.Part.Text part) None])
    else b in
  do b <- match genai.Part.FunctionCall part with
      | None => ret b
      | Some fc =>
        match json_Marshal (genai.FunctionCall.Args fc) with
        | inr err => fail (Go.Wrap "failed to marshal function args" err)
        | inl argsJSON =>
          let toolCall :=
            openai.ToolCall.mk None (genai.FunctionCall.ID fc) openai.ToolTypeFunction
              (openai.FunctionCall.mk (genai.FunctionCall.Name fc) argsJSON) in
          ret (mkMessageBuilder (openaiMsg b) (textContent b)
                 (toolCalls b ++ [toolCall]) (multiContent b))
        end
      end in
  do b <- match genai.Part.FunctionResponse part with
      | None => ret b
      | Some fr =>
        match json_Marshal (genai.FunctionResponse.Response fr) with
        | inr err => fail (Go.Wrap "failed to marshal function response" err)
        | inl responseJSON =>
          let m := openaiMsg b in
          ret (mkMessageBuilder
                 (openai.ChatCompletionMessage.mk openai.ChatMessageRoleTool
                    responseJSON
                    (openai.ChatCompletionMessage.MultiContent m)
                    (openai.ChatCompletionMessage.ToolCalls m)
                    (genai.FunctionResponse.ID fr))
                 (textContent b) (toolCalls b) (multiContent b))
        end
      end in
  let b :=
    match genai.Part.InlineData part with
    | None => b
    | Some blob =>
      let base64Data := base64_EncodeToString (genai.Blob.Data blob) in
      let imageURL :=
        openai.ChatMessageImageURL.mk
          ("data:" +:+ genai.Blob.MIMEType blob +:+ ";base64," +:+ base64Data)
          openai.ImageURLDetailAuto in
      mkMessageBuilder (openaiMsg b) (textContent b) (toolCalls b)
        (multiContent b ++
         [openai.ChatMessagePart.mk openai.ChatMessagePartTypeImageURL ""
            (Some imageURL)])
    end in
  (* part.FileData: nothing is done *)
  ret b.

Fixpoint messageParts (n : nat) (b : messageBuilder) (parts : list genai.Part.t)
  : res messageBuilder :=
  match parts with
  | [] => ret b
  | part :: rest => do b <- messagePart n b part in messageParts n b rest
  end.

(** [len(content.Parts) == 1 && content.Parts[0].Text != ""]; the second
    operand is evaluated only when the first holds. *)
Definition singleTextPart (parts : list genai.Part.t) : bool :=
  match parts with
  | p :: _ => bool_decide (length parts = 1%nat) && bool_decide (genai.Part.Text p ≠ "")
  | [] => false
  end.

(** [openaiMsg.F = v] for the fields the function assigns. *)
Definition setContent (m : openai.ChatCompletionMessage.t) (v : string) :=
  openai.ChatCompletionMessage.mk
    (openai.ChatCompletionMessage.Role m) v
    (openai.ChatCompletionMessage.MultiContent m)
    (openai.ChatCompletionMessage.ToolCalls m)
    (openai.ChatCompletionMessage.ToolCallID m).

Definition setMultiContent (m : openai.ChatCompletionMessage.t)
    (v : list openai.ChatMessagePart.t) :=
  openai.ChatCompletionMessage.mk
    (openai.ChatCompletionMessage.Role m)
    (openai.ChatCompletionMessage.Content m) v
    (openai.ChatCompletionMessage.ToolCalls m)
    (openai.ChatCompletionMessage.ToolCallID m).

Definition setToolCalls (m : openai.ChatCompletionMessage.t)
    (v : list openai.ToolCall.t) :=
  openai.ChatCompletionMessage.mk
    (openai.ChatCompletionMessage.Role m)
    (openai.ChatCompletionMessage.Content m)
    (openai.ChatCompletionMessage.MultiContent m) v
    (openai.ChatCompletionMessage.ToolCallID m).

Definition toOpenAIChatCompletionMessage_res (content : genai.Content.t)
  : res openai.ChatCompletionMessage.t :=
  let openaiMsg0 :=
    openai.ChatCompletionMessage.mk
      (convertRoleToOpenAI (genai.Content.Role content)) "" [] [] "" in
  let parts := genai.Content.Parts content in
  if singleTextPart parts then
    ret (setContent openaiMsg0 (genai.Part.Text (default (textPart "") (head parts))))
  else
    do b <- messageParts (length parts) (mkMessageBuilder openaiMsg0 "" [] []) parts in
    let m := openaiMsg b in
    let m :=
      if decide (0 < length (multiContent b))%nat then setMultiContent m (multiContent b)
      else if decide (textContent b ≠ "") then setContent m (textContent b)
      else m in
    let m :=
      if decide (0 < length (toolCalls b))%nat then setToolCalls m (toolCalls b)
      else m in
    ret m.

Definition toOpenAIChatCompletionMessage (content : genai.Content.t)
  : openai.ChatCompletionMessage.t * option Go.error :=
  go_pair openai.ChatCompletionMessage.zero (toOpenAIChatCompletionMessage_res content).

(** *** Wire response to generic response (non-streaming) *)

(** The usage metadata of [convertChatCompletionResponse]. *)
Definition convertUsage (usage : openai.Usage.t)
  : option genai.GenerateContentResponseUsageMetadata.t :=
  if decide (0 < openai.Usage.TotalTokens usage) then
    Some (genai.GenerateContentResponseUsageMetadata.mk
            (Go.int32 (openai.Usage.PromptTokens usage))
            (Go.int32 (openai.Usage.CompletionTokens usage))
            (Go.int32 (openai.Usage.TotalTokens usage))
            match openai.Usage.PromptTokensDetails usage with
            | Some details => Go.int32 (openai.PromptTokensDetails.CachedTokens details)
            | None => 0
            end)
  else None.

(** One iteration of [for _, toolCall := range choice.Message.ToolCalls]. *)
Definition appendToolCall (parts : list genai.Part.t) (toolCall : openai.ToolCall.t)
  : list genai.Part.t :=
  if decide (openai.ToolCall.Type_ toolCall = openai.ToolTypeFunction) then
    parts ++
    [functionCallPart
       (genai.FunctionCall.mk
          (openai.ToolCall.ID toolCall)
          (openai.FunctionCall.Name (openai.ToolCall.Function toolCall))
          (parseJSONArgs (openai.FunctionCall.Arguments (openai.ToolCall.Function toolCall))))]
  else parts.

Definition convertChatCompletionResponse (resp : openai.ChatCompletionResponse.t)
  : option model.LLMResponse.t * option Go.error :=
  match openai.ChatCompletionResponse.Choices resp with
  | [] => (None, Some Go.ErrNoChoicesInResponse)
  | choice :: _ =>
    let message := openai.ChatCompletionChoice.Message choice in
    let parts : list genai.Part.t := [] in
    let parts :=
      if decide (openai.ChatCompletionMessage.Content message ≠ "") then
        parts ++ [textPart (openai.ChatCompletionMessage.Content message)]
      else parts in
    let parts := foldl appendToolCall parts (openai.ChatCompletionMessage.ToolCalls message) in
    let usageMetadata := convertUsage (openai.ChatCompletionResponse.Usage resp) in
    (Some (model.LLMResponse.mk
             (genai.Content.mk genai.RoleModel parts)
             usageMetadata
             (convertFinishReason (openai.ChatCompletionChoice.FinishReason choice))
             false
             true),
     None)
  end.

End Adapter.

(** *** Tools *)

(** A call either returns or panics. *)
Inductive outcome (A : Type) : Type :=
  | Returns (a : A)
  | Panics (msg : string).

Arguments Returns {A} a.
Arguments Panics {A} msg.

(** [for _, funcDecl := range genaiTool.FunctionDeclarations], on the
    accumulated [openaiTools]. *)
Fixpoint convertDeclarations (openaiTools : Go.slice openai.Tool.t)
    (decls : list (option genai.FunctionDeclaration.t))
  : outcome (Go.slice openai.Tool.t) :=
  match decls with
  | [] => Returns openaiTools
  | None :: _ => Panics "funcDecl is nil"
  | Some funcDecl :: rest =>
    let openaiTool :=
      openai.Tool.mk openai.ToolTypeFunction
        (Some (openai.FunctionDefinition.mk
                 (genai.FunctionDeclaration.Name funcDecl)
                 (genai.FunctionDeclaration.Description funcDecl)
                 (genai.FunctionDeclaration.ParametersJsonSchema funcDecl))) in
    convertDeclarations (Go.append openaiTools openaiTool) rest
  end.

(** [for _, genaiTool := range genaiTools]. *)
Fixpoint convertToolsFrom (openaiTools : Go.slice openai.Tool.t)
    (genaiTools : list (option genai.Tool.t))
  : outcome (Go.slice openai.Tool.t) :=
  match genaiTools with
  | [] => Returns openaiTools
  | None :: rest => convertToolsFrom openaiTools rest
  | Some genaiTool :: rest =>
    match convertDeclarations openaiTools (genai.Tool.FunctionDeclarations genaiTool) with
    | Panics msg => Panics msg
    | Returns openaiTools => convertToolsFrom openaiTools rest
    end
  end.

Definition convertTools (genaiTools : Go.slice (option genai.Tool.t))
  : outcome (Go.slice openai.Tool.t * option Go.error) :=
  match convertToolsFrom None (Go.elems genaiTools) with
  | Panics msg => Panics msg
  | Returns openaiTools => Returns (openaiTools, None)
  end.

(** *** Schemas *)

Definition convertSchemaType (t : genai.Type_) : string :=
  match t with
  | genai.TypeString => "string"
  | genai.TypeNumber => "number"
  | genai.TypeInteger => "integer"
  | genai.TypeBoolean => "boolean"
  | genai.TypeArray => "array"
  | genai.TypeObject => "object"
  | _ => "string"
  end.

(** What [convertSchema] returns for a nil schema. *)
Definition nilSchemaResult : gmap string Go.any :=
  <["type" := Go.Str "object"]> (<["properties" := Go.Map ∅]> ∅).

(** [convertSchema] on a non-nil schema. The recursive calls on the
    properties and on the items receive pointers that may be nil. *)
Fixpoint convertSchemaNode (schema : genai.Schema.t) : res (gmap string Go.any) :=
  let convertSchema (p : option genai.Schema.t) : res (gmap string Go.any) :=
    match p with
    | None => ret nilSchemaResult
    | Some s => convertSchemaNode s
    end in
  let result : gmap string Go.any := ∅ in
  let result :=
    match genai.Schema.Type_ schema with
    | genai.TypeUnspecified => result
    | t => <["type" := Go.Str (convertSchemaType t)]> result
    end in
  let result :=
    if decide (genai.Schema.Description schema ≠ "") then
      <["description" := Go.Str (genai.Schema.Description schema)]> result
    else result in
  do result <-
    (if decide (0 < size (genai.Schema.Properties schema))%nat then
       do properties <-
         map_fold
           (fun propName propSchema (acc : res (gmap string Go.any)) =>
              do properties <- acc in
              do convertedProp <- convertSchema propSchema in
              ret (<[propName := Go.Map convertedProp]> properties))
           (ret ∅) (genai.Schema.Properties schema) in
       ret (<["properties" := Go.Map properties]> result)
     else ret result) in
  let result :=
    if decide (0 < length (genai.Schema.Required schema))%nat then
      <["required" := Go.Strs (genai.Schema.Required schema)]> result
    else result in
  do result <-
    match genai.Schema.Items schema with
    | Some s =>
      do items <- convertSchemaNode s in
      ret (<["items" := Go.Map items]> result)
    | None => ret result
    end in
  let result :=
    if decide (0 < length (genai.Schema.Enum schema))%nat then
      <["enum" := Go.Strs (genai.Schema.Enum schema)]> result
    else result in
  ret result.

Definition convertSchema_res (schema : option genai.Schema.t) : res (gmap string Go.any) :=
  match schema with
  | None => ret nilSchemaResult
  | Some s => convertSchemaNode s
  end.

Definition convertSchema (schema : option genai.Schema.t)
  : gmap string Go.any * option Go.error :=
  go_pair ∅ (convertSchema_res schema).

(** ** The streaming aggregator *)

(** [toolCallBuilder] helps aggregate tool call information across
    streaming chunks. *)
Module toolCallBuilder.
Record t : Type := mk { id : string; name : string; args : string }.
End toolCallBuilder.

(** The locals of [generateStream] that live across chunks. *)
Record streamState : Type := mkStreamState {
  aggregatedContent : genai.Content.t;
  finishReason : genai.FinishReason;
  usageMetadata : option genai.GenerateContentResponseUsageMetadata.t;
  toolCallsMap : gmap Z toolCallBuilder.t }.

Definition initialState : streamState :=
  mkStreamState (genai.Content.mk "model" []) genai.FinishReason_zero None ∅.

(** What the transport does for one call of [generateStream]: building the
    request fails, opening the stream fails, or the stream is opened and
    [stream.Recv()] hands out [chunks] one by one and then the error [last]
    ([io.EOF] at the end of the stream). *)
Inductive transport : Type :=
  | RequestFails (err : Go.error)
  | OpenFails (err : Go.error)
  | Opened (chunks : list openai.ChatCompletionStreamResponse.t) (last : Go.error).

(** One element of the [iter.Seq2]: the two arguments of [yield]. *)
Definition emission : Type := option model.LLMResponse.t * option Go.error.

(** [idx := 0; if toolCall.Index != nil { idx = *toolCall.Index }]. *)
Definition toolCallIndex (toolCall : openai.ToolCall.t) : Z :=
  match openai.ToolCall.Index toolCall with
  | Some idx => idx
  | None => 0
  end.

(** The builder that a fragment leaves behind, [found] being the lookup
    [toolCallsMap[idx]]. *)
Definition updateBuilder (found : option toolCallBuilder.t) (toolCall : openai.ToolCall.t)
  : toolCallBuilder.t :=
  let fn := openai.ToolCall.Function toolCall in
  let builder :=
    match found with
    | Some builder => builder
    | None => toolCallBuilder.mk (openai.ToolCall.ID toolCall) (openai.FunctionCall.Name fn) ""
    end in
  let builder :=
    if decide (openai.ToolCall.ID toolCall ≠ "") then
      toolCallBuilder.mk (openai.ToolCall.ID toolCall)
        (toolCallBuilder.name builder) (toolCallBuilder.args builder)
    else builder in
  let builder :=
    if decide (openai.FunctionCall.Name fn ≠ "") then
      toolCallBuilder.mk (toolCallBuilder.id builder)
        (openai.FunctionCall.Name fn) (toolCallBuilder.args builder)
    else builder in
  let builder :=
    if decide (openai.FunctionCall.Arguments fn ≠ "") then
      toolCallBuilder.mk (toolCallBuilder.id builder) (toolCallBuilder.name builder)
        (toolCallBuilder.args builder +:+ openai.FunctionCall.Arguments fn)
    else builder in
  builder.

(** One iteration of [for _, toolCall := range choice.Delta.ToolCalls]. The
    map holds pointers and the builder is updated in place; no other
    reference to a builder exists, so the update is an insertion. *)
Definition applyToolCall (toolCallsMap : gmap Z toolCallBuilder.t)
    (toolCall : openai.ToolCall.t) : gmap Z toolCallBuilder.t :=
  let idx := toolCallIndex toolCall in
  <[idx := updateBuilder (toolCallsMap !! idx) toolCall]> toolCallsMap.

(** The usage metadata captured from a chunk. *)
Definition streamUsage (usage : openai.Usage.t)
  : genai.GenerateContentResponseUsageMetadata.t :=
  genai.GenerateContentResponseUsageMetadata.mk
    (Go.int32 (openai.Usage.PromptTokens usage))
    (Go.int32 (openai.Usage.CompletionTokens usage))
    (Go.int32 (openai.Usage.TotalTokens usage))
    0.

(** "Handle delta content": the state after the append, and the partial
    response handed to [yield], if any. The aggregate and the partial
    response point to the same part; the adapter does not write to a part
    once it is built, so the part is a value here. *)
Definition handleDeltaContent (st : streamState)
    (choice : openai.ChatCompletionStreamChoice.t)
  : streamState * option model.LLMResponse.t :=
  let text := openai.ChatCompletionStreamChoiceDelta.Content
                (openai.ChatCompletionStreamChoice.Delta choice) in
  if decide (text ≠ "") then
    let part := textPart text in
    let content := aggregatedContent st in
    (mkStreamState
       (genai.Content.mk (genai.Content.Role content) (genai.Content.Parts content ++ [part]))
       (finishReason st) (usageMetadata st) (toolCallsMap st),
     Some (model.LLMResponse.mk (genai.Content.mk "model" [part]) None
             genai.FinishReason_zero true false))
  else (st, None).

(** The rest of the loop body: tool calls, finish reason, usage. *)
Definition handleRest (st : streamState)
    (chunk : openai.ChatCompletionStreamResponse.t)
    (choice : openai.ChatCompletionStreamChoice.t) : streamState :=
  let delta := openai.ChatCompletionStreamChoice.Delta choice in
  let toolCallsMap :=
    foldl applyToolCall (toolCallsMap st)
      (openai.ChatCompletionStreamChoiceDelta.ToolCalls delta) in
  let finishReason :=
    if decide (openai.ChatCompletionStreamChoice.FinishReason choice ≠ "") then
      convertFinishReason (openai.ChatCompletionStreamChoice.FinishReason choice)
    else finishReason st in
  let usageMetadata :=
    match openai.ChatCompletionStreamResponse.Usage chunk with
    | Some usage => Some (streamUsage usage)
    | None => usageMetadata st
    end in
  mkStreamState (aggregatedContent st) finishReason usageMetadata toolCallsMap.

(** The bubble sort of the indices, loop by loop. *)
Definition compareSwap (indices : list Z) (j : nat) : list Z :=
  match indices !! j, indices !! S j with
  | Some a, Some b =>
    if decide (a > b) then <[S j := a]> (<[j := b]> indices) else indices
  | _, _ => indices
  end.

Definition bubblePass (indices : list Z) (i : nat) : list Z :=
  foldl compareSwap indices (seq 0 (length indices - i - 1)).

Definition bubbleSort (indices : list Z) : list Z :=
  foldl bubblePass indices (seq 0 (length indices - 1)).

Section Stream.

Variable json_Unmarshal : string → option (gmap string Go.any).

(** The order in which [for idx := range toolCallsMap] visits the keys. Go
    leaves it unspecified: any enumeration of the keys. *)
Variable rangeKeys : gmap Z toolCallBuilder.t → list Z.

(** The consumer of the sequence: [yield out] is what the callback answers
    to the last element of [out], having received [out] so far. *)
Variable yield : list emission → bool.

(** One iteration of [for _, idx := range indices]; [idx] is a key of the
    map, so the lookup finds its builder. *)
Definition appendBuilder (m : gmap Z toolCallBuilder.t)
    (parts : list genai.Part.t) (idx : Z) : list genai.Part.t :=
  let builder := default (toolCallBuilder.mk "" "" "") (m !! idx) in
  parts ++
  [functionCallPart
     (genai.FunctionCall.mk (toolCallBuilder.id builder) (toolCallBuilder.name builder)
        (parseJSONArgs json_Unmarshal (toolCallBuilder.args builder)))].

(** "Convert aggregated tool calls to parts" and build the final response. *)
Definition finalResponse (st : streamState) : model.LLMResponse.t :=
  let content := aggregatedContent st in
  let parts :=
    if decide (0 < size (toolCallsMap st))%nat then
      let indices := bubbleSort (rangeKeys (toolCallsMap st)) in
      foldl (appendBuilder (toolCallsMap st)) (genai.Content.Parts content) indices
    else genai.Content.Parts content in
  model.LLMResponse.mk
    (genai.Content.mk (genai.Content.Role content) parts)
    (usageMetadata st) (finishReason st) false true.

(** The receive loop. [out] is what has been yielded so far. *)
Fixpoint recvLoop (chunks : list openai.ChatCompletionStreamResponse.t)
    (last : Go.error) (st : streamState) (out : list emission) : list emission :=
  match chunks with
  | [] =>
    if Go.is_EOF last then out ++ [(Some (finalResponse st), None)]
    else out ++ [(None, Some last)]
  | chunk :: rest =>
    match openai.ChatCompletionStreamResponse.Choices chunk with
    | [] => recvLoop rest last st out
    | choice :: _ =>
      match handleDeltaContent st choice with
      | (st, Some llmResp) =>
        let out := out ++ [(Some llmResp, None)] in
        if yield out then recvLoop rest last (handleRest st chunk choice) out
        else out
      | (st, None) => recvLoop rest last (handleRest st chunk choice) out
      end
    end
  end.

(** [generateStream], as the list of elements it yields. *)
Definition generateStream (t : transport) : list emission :=
  match t with
  | RequestFails err => [(None, Some err)]
  | OpenFails err => [(None, Some err)]
  | Opened chunks last => recvLoop chunks last initialState []
  end.

End Stream.

(** ** What a chunk sequence carries

    The observations on the input of the aggregator that its properties are
    stated with. A chunk without choices is skipped by the loop; of a chunk
    with choices only the first choice is read. *)

Definition firstChoice (chunk : openai.ChatCompletionStreamResponse.t)
  : option openai.ChatCompletionStreamChoice.t :=
  head (openai.ChatCompletionStreamResponse.Choices chunk).

(** The non-empty text of the first choice's delta. *)
Definition chunkText (chunk : openai.ChatCompletionStreamResponse.t) : option string :=
  match firstChoice chunk with
  | Some choice =>
    let text := openai.ChatCompletionStreamChoiceDelta.Content
                  (openai.ChatCompletionStreamChoice.Delta choice) in
    if decide (text ≠ "") then Some text else None
  | None => None
  end.

(** The tool-call fragments of the first choice's delta. *)
Definition chunkFragments (chunk : openai.ChatCompletionStreamResponse.t)
  : list openai.ToolCall.t :=
  match firstChoice chunk with
  | Some choice =>
    openai.ChatCompletionStreamChoiceDelta.ToolCalls
      (openai.ChatCompletionStreamChoice.Delta choice)
  | None => []
  end.

(** The non-empty finish reason of the first choice. *)
Definition chunkFinishReason (chunk : openai.ChatCompletionStreamResponse.t)
  : option string :=
  match firstChoice chunk with
  | Some choice =>
    let reason := openai.ChatCompletionStreamChoice.FinishReason choice in
    if decide (reason ≠ "") then Some reason else None
  | None => None
  end.

(** The usage of a chunk that has a choice. *)
Definition chunkUsage (chunk : openai.ChatCompletionStreamResponse.t)
  : option openai.Usage.t :=
  match firstChoice chunk with
  | Some _ => openai.ChatCompletionStreamResponse.Usage chunk
  | None => None
  end.

Definition streamTexts (chunks : list openai.ChatCompletionStreamResponse.t)
  : list string := omap chunkText chunks.

Definition streamFragments (chunks : list openai.ChatCompletionStreamResponse.t)
  : list openai.ToolCall.t := concat (map chunkFragments chunks).

Definition streamFinishReasons (chunks : list openai.ChatCompletionStreamResponse.t)
  : list string := omap chunkFinishReason chunks.

Definition streamUsages (chunks : list openai.ChatCompletionStreamResponse.t)
  : list openai.Usage.t := omap chunkUsage chunks.

(** The usage of every chunk that reports one, with or without choices. *)
Definition reportedUsages (chunks : list openai.ChatCompletionStreamResponse.t)
  : list openai.Usage.t := omap openai.ChatCompletionStreamResponse.Usage chunks.

(** The partial response that wraps one text fragment. *)
Definition partialResponse (text : string) : model.LLMResponse.t :=
  model.LLMResponse.mk (genai.Content.mk "model" [textPart text]) None
    genai.FinishReason_zero true false.

(** The partial responses of a chunk and of a chunk sequence, as yielded. *)
Definition chunkPartial (chunk : openai.ChatCompletionStreamResponse.t) : list emission :=
  match chunkText chunk with
  | Some text => [(Some (partialResponse text), None)]
  | None => []
  end.

Definition partials (chunks : list openai.ChatCompletionStreamResponse.t)
  : list emission :=
  map (λ text, (Some (partialResponse text), None)) (streamTexts chunks).

(** A final response: yielded without error, not partial, turn complete. *)
Definition isFinal (e : emission) : bool :=
  match e with
  | (Some resp, None) =>
    negb (model.LLMResponse.Partial resp) && model.LLMResponse.TurnComplete resp
  | _ => false
  end.

(** The loop body on one chunk, for a consumer that goes on. *)
Definition processChunk (st : streamState)
    (chunk : openai.ChatCompletionStreamResponse.t) : streamState :=
  match openai.ChatCompletionStreamResponse.Choices chunk with
  | [] => st
  | choice :: _ => handleRest (handleDeltaContent st choice).1 chunk choice
  end.

(** The accumulator after all the fragments of a chunk sequence. *)
Definition accumulate (chunks : list openai.ChatCompletionStreamResponse.t)
  : gmap Z toolCallBuilder.t :=
  foldl applyToolCall ∅ (streamFragments chunks).

(** The function-call part built from the builder of one index. *)
Definition builderPart (json_Unmarshal : string → option (gmap string Go.any))
    (m : gmap Z toolCallBuilder.t) (idx : Z) : genai.Part.t :=
  let builder := default (toolCallBuilder.mk "" "" "") (m !! idx) in
  functionCallPart
    (genai.FunctionCall.mk (toolCallBuilder.id builder) (toolCallBuilder.name builder)
       (parseJSONArgs json_Unmarshal (toolCallBuilder.args builder))).

(** [b'] continues [b]: a set id or name stays set, and the argument text
    is extended at its end. *)
Definition builderExtends (b b' : toolCallBuilder.t) : Prop :=
  (toolCallBuilder.id b ≠ "" → toolCallBuilder.id b' ≠ "") ∧
  (toolCallBuilder.name b ≠ "" → toolCallBuilder.name b' ≠ "") ∧
  ∃ suffix, toolCallBuilder.args b' = toolCallBuilder.args b +:+ suffix.

(** What the loop yields when [stream.Recv()] returns the error [last]. *)
Definition lastEmission (json_Unmarshal : string → option (gmap string Go.any))
    (rangeKeys : gmap Z toolCallBuilder.t → list Z)
    (last : Go.error) (st : streamState) : emission :=
  if Go.is_EOF last then (Some (finalResponse json_Unmarshal rangeKeys st), None)
  else (None, Some last).

(** ** What a tool list and a schema carry *)

(** The declarations of a tool list in order, nil tools skipped. *)
Definition toolDeclarations (genaiTools : list (option genai.Tool.t))
  : list (option genai.FunctionDeclaration.t) :=
  concat (map (λ genaiTool,
                 match genaiTool with
                 | Some tool => genai.Tool.FunctionDeclarations tool
                 | None => []
                 end) genaiTools).

(** The wire descriptor of one declaration. *)
Definition wireTool (funcDecl : genai.FunctionDeclaration.t) : openai.Tool.t :=
  openai.Tool.mk openai.ToolTypeFunction
    (Some (openai.FunctionDefinition.mk
             (genai.FunctionDeclaration.Name funcDecl)
             (genai.FunctionDeclaration.Description funcDecl)
             (genai.FunctionDeclaration.ParametersJsonSchema funcDecl))).

(** The mapping that [convertSchema] returns. *)
Definition schemaMap (schema : option genai.Schema.t) : gmap string Go.any :=
  (convertSchema schema).1.

(** The number of nodes of a schema, a measure for induction. *)
Fixpoint schemaSize (schema : genai.Schema.t) : nat :=
  S (map_fold
       (λ _ p acc, (match p with Some s => schemaSize s | None => 0 end + acc)%nat)
       0%nat (genai.Schema.Properties schema) +
     match genai.Schema.Items schema with Some s => schemaSize s | None => 0 end).

(** ** A JSON decoder

    [encoding/json] belongs to the Go standard library, and the adapter is
    verified for every decoder. The decoder below instantiates it in the
    examples. It follows the JSON grammar of RFC 8259 on a text taken as
    valid UTF-8, and keeps a number as its decimal literal, [Go.Number m e]
    standing for m * 10^e. *)

Module json.

Definition code (c : Ascii.ascii) : Z := Z.of_N (Ascii.N_of_ascii c).

Definition char (z : Z) : Ascii.ascii := Ascii.ascii_of_N (Z.to_N z).

Definition isChar (c : Ascii.ascii) (z : Z) : bool := code c =? z.

Definition isSpace (c : Ascii.ascii) : bool :=
  isChar c 32 || isChar c 9 || isChar c 10 || isChar c 13.

Fixpoint skipSpace (s : list Ascii.ascii) : list Ascii.ascii :=
  match s with
  | c :: rest => if isSpace c then skipSpace rest else s
  | [] => []
  end.

Definition digit (c : Ascii.ascii) : option Z :=
  let z := code c in
  if (48 <=? z) && (z <=? 57) then Some (z - 48) else None.

Definition hexDigit (c : Ascii.ascii) : option Z :=
  let z := code c in
  if (48 <=? z) && (z <=? 57) then Some (z - 48)
  else if (97 <=? z) && (z <=? 102) then Some (z - 87)
  else if (65 <=? z) && (z <=? 70) then Some (z - 55)
  else None.

(** The UTF-8 encoding of a code point. *)
Definition utf8 (cp : Z) : list Ascii.ascii :=
  if cp <? 128 then [char cp]
  else if cp <? 2048 then [char (192 + cp / 64); char (128 + cp mod 64)]
  else if cp <? 65536 then
    [char (224 + cp / 4096); char (128 + (cp / 64) mod 64); char (128 + cp mod 64)]
  else
    [char (240 + cp / 262144); char (128 + (cp / 4096) mod 64);
     char (128 + (cp / 64) mod 64); char (128 + cp mod 64)].

(** Four hexadecimal digits. *)
Definition hex4 (s : list Ascii.ascii) : option (Z * list Ascii.ascii) :=
  match s with
  | a :: b :: c :: d :: rest =>
    match hexDigit a, hexDigit b, hexDigit c, hexDigit d with
    | Some a, Some b, Some c, Some d => Some (((a * 16 + b) * 16 + c) * 16 + d, rest)
    | _, _, _, _ => None
    end
  | _ => None
  end.

(** The character of a one-letter escape. *)
Definition unescape (c : Ascii.ascii) : option Ascii.ascii :=
  let z := code c in
  if (z =? 34) || (z =? 92) || (z =? 47) then Some c
  else if z =? 98 then Some (char 8)
  else if z =? 102 then Some (char 12)
  else if z =? 110 then Some (char 10)
  else if z =? 114 then Some (char 13)
  else if z =? 116 then Some (char 9)
  else None.

Definition prepend (cs : list Ascii.ascii) (r : option (string * list Ascii.ascii))
  : option (string * list Ascii.ascii) :=
  match r with
  | Some (str, rest) => Some (foldr String str cs, rest)
  | None => None
  end.

(** A string literal from after its opening quote, [fuel] bounding the
    number of characters and escapes. A surrogate that has no partner
    decodes to U+FFFD. *)
Fixpoint stringBody (fuel : nat) (s : list Ascii.ascii)
  : option (string * list Ascii.ascii) :=
  match fuel with
  | O => None
  | S fuel =>
    match s with
    | [] => None
    | c :: rest =>
      if isChar c 34 then Some ("", rest)
      else if isChar c 92 then
        match rest with
        | [] => None
        | e :: rest =>
          if isChar e 117 then
            match hex4 rest with
            | None => None
            | Some (hi, rest) =>
              if (55296 <=? hi) && (hi <? 56320) then
                match rest with
                | b :: u :: rest' =>
                  if isChar b 92 && isChar u 117 then
                    match hex4 rest' with
                    | Some (lo, rest'') =>
                      if (56320 <=? lo) && (lo <? 57344) then
                        prepend (utf8 (65536 + (hi - 55296) * 1024 + (lo - 56320)))
                          (stringBody fuel rest'')
                      else prepend (utf8 65533) (stringBody fuel rest)
                    | None => prepend (utf8 65533) (stringBody fuel rest)
                    end
                  else prepend (utf8 65533) (stringBody fuel rest)
                | _ => prepend (utf8 65533) (stringBody fuel rest)
                end
              else if (56320 <=? hi) && (hi <? 57344) then
                prepend (utf8 65533) (stringBody fuel rest)
              else prepend (utf8 hi) (stringBody fuel rest)
            end
          else
            match unescape e with
            | Some c' => prepend [c'] (stringBody fuel rest)
            | None => None
            end
        end
      else if code c <? 32 then None
      else prepend [c] (stringBody fuel rest)
    end
  end.

Fixpoint digits (s : list Ascii.ascii) : list Z * list Ascii.ascii :=
  match s with
  | c :: rest =>
    match digit c with
    | Some d => let '(ds, rest') := digits rest in (d :: ds, rest')
    | None => ([], s)
    end
  | [] => ([], [])
  end.

Definition decimal (ds : list Z) : Z := foldl (λ acc d, acc * 10 + d) 0 ds.

(** A number: an optional minus, an integer part without leading zero, an
    optional fraction, an optional exponent. *)
Definition number (s : list Ascii.ascii) : option (Go.any * list Ascii.ascii) :=
  let '(negative, s) :=
    match s with
    | c :: rest => if isChar c 45 then (true, rest) else (false, s)
    | [] => (false, s)
    end in
  let '(int, s) := digits s in
  match int with
  | [] => None
  | d :: more =>
    if (d =? 0) && negb (bool_decide (more = [])) then None
    else
      let fraction :=
        match s with
        | c :: rest =>
          if isChar c 46 then
            let '(frac, rest') := digits rest in
            match frac with [] => None | _ => Some (frac, rest') end
          else Some ([], s)
        | [] => Some ([], s)
        end in
      match fraction with
      | None => None
      | Some (frac, s) =>
        let exponent :=
          match s with
          | c :: rest =>
            if isChar c 101 || isChar c 69 then
              let '(minus, rest) :=
                match rest with
                | c' :: rest' =>
                  if isChar c' 45 then (true, rest')
                  else if isChar c' 43 then (false, rest')
                  else (false, rest)
                | [] => (false, rest)
                end in
              let '(ds, rest') := digits rest in
              match ds with
              | [] => None
              | _ => Some (if minus then - decimal ds else decimal ds, rest')
              end
            else Some (0, s)
          | [] => Some (0, s)
          end in
        match exponent with
        | None => None
        | Some (e, s) =>
          let m := decimal (int ++ frac) in
          Some (Go.Number (if negative then - m else m) (e - Z.of_nat (length frac)), s)
        end
      end
  end.

(** Whether [s] starts with the characters of [word]; what follows them. *)
Fixpoint literal (word : list Ascii.ascii) (s : list Ascii.ascii)
  : option (list Ascii.ascii) :=
  match word, s with
  | [], _ => Some s
  | w :: word, c :: rest => if Ascii.eqb w c then literal word rest else None
  | _ :: _, [] => None
  end.

(** A value; the members of an object from after a brace or a comma; the
    elements of an array likewise. [fuel] bounds the number of calls. *)
Fixpoint value (fuel : nat) (s : list Ascii.ascii) {struct fuel}
  : option (Go.any * list Ascii.ascii) :=
  match fuel with
  | O => None
  | S fuel =>
    match skipSpace s with
    | [] => None
    | c :: rest =>
      if isChar c 123 then
        match skipSpace rest with
        | c' :: rest' =>
          if isChar c' 125 then Some (Go.Map ∅, rest')
          else
            match members fuel ∅ rest with
            | Some (m, rest) => Some (Go.Map m, rest)
            | None => None
            end
        | [] => None
        end
      else if isChar c 91 then
        match skipSpace rest with
        | c' :: rest' =>
          if isChar c' 93 then Some (Go.Slice [], rest')
          else
            match elements fuel [] rest with
            | Some (l, rest) => Some (Go.Slice l, rest)
            | None => None
            end
        | [] => None
        end
      else if isChar c 34 then
        match stringBody (S (length rest)) rest with
        | Some (str, rest) => Some (Go.Str str, rest)
        | None => None
        end
      else if isChar c 116 then
        match literal (String.list_ascii_of_string "rue") rest with
        | Some rest => Some (Go.Bool true, rest)
        | None => None
        end
      else if isChar c 102 then
        match literal (String.list_ascii_of_string "alse") rest with
        | Some rest => Some (Go.Bool false, rest)
        | None => None
        end
      else if isChar c 110 then
        match literal (String.list_ascii_of_string "ull") rest with
        | Some rest => Some (Go.Nil, rest)
        | None => None
        end
      else number (c :: rest)
    end
  end
with members (fuel : nat) (acc : gmap string Go.any) (s : list Ascii.ascii) {struct fuel}
  : option (gmap string Go.any * list Ascii.ascii) :=
  match fuel with
  | O => None
  | S fuel =>
    match skipSpace s with
    | c :: rest =>
      if isChar c 34 then
        match stringBody (S (length rest)) rest with
        | Some (key, rest) =>
          match skipSpace rest with
          | c' :: rest =>
            if isChar c' 58 then
              match value fuel rest with
              | Some (v, rest) =>
                let acc := <[key := v]> acc in
                match skipSpace rest with
                | c'' :: rest =>
                  if isChar c'' 44 then members fuel acc rest
                  else if isChar c'' 125 then Some (acc, rest)
                  else None
                | [] => None
                end
              | None => None
              end
            else None
          | [] => None
          end
        | None => None
        end
      else None
    | [] => None
    end
  end
with elements (fuel : nat) (acc : list Go.any) (s : list Ascii.ascii) {struct fuel}
  : option (list Go.any * list Ascii.ascii) :=
  match fuel with
  | O => None
  | S fuel =>
    match value fuel s with
    | Some (v, rest) =>
      let acc := acc ++ [v] in
      match skipSpace rest with
      | c :: rest =>
        if isChar c 44 then elements fuel acc rest
        else if isChar c 93 then Some (acc, rest)
        else None
      | [] => None
      end
    | None => None
    end
  end.

(** [json.Unmarshal] into a [map[string]any]: the text has to be one JSON
    value, an object or null; null leaves the map nil. *)
Definition Unmarshal (text : string) : option (gmap string Go.any) :=
  let s := String.list_ascii_of_string text in
  match value (S (length s)) s with
  | Some (v, rest) =>
    match skipSpace rest with
    | [] =>
      match v with
      | Go.Map m => Some m
      | Go.Nil => Some ∅
      | _ => None
      end
    | _ :: _ => None
    end
  | None => None
  end.

(** The text [s] between two quotation marks. *)
Definition quoted (s : string) : string :=
  String (char 34) (s +:+ String (char 34) "").

End json.

(** ** A sample stream *)

Module Examples.

(** The iteration order of a map taken as the order of [elements]. *)
Definition rangeKeys (m : gmap Z toolCallBuilder.t) : list Z := elements (dom m).

(** A consumer that ranges over the whole sequence. *)
Definition consumeAll (out : list emission) : bool := true.

Definition fragment (index : option Z) (id name arguments : string) : openai.ToolCall.t :=
  openai.ToolCall.mk index id "function" (openai.FunctionCall.mk name arguments).

Definition chunk (text : string) (toolCalls : list openai.ToolCall.t)
    (finishReason : string) (usage : option openai.Usage.t)
  : openai.ChatCompletionStreamResponse.t :=
  openai.ChatCompletionStreamResponse.mk
    [openai.ChatCompletionStreamChoice.mk 0
       (openai.ChatCompletionStreamChoiceDelta.mk text "assistant" toolCalls)
       finishReason]
    usage.

(** [{"location":] and ["Paris"}], the argument text in two fragments. *)
Definition argsHead : string := "{" +:+ json.quoted "location" +:+ ":".
Definition argsTail : string := json.quoted "Paris" +:+ "}".

(** A stream: index 1 arrives before index 0, the fragment of index 0
    comes without an index, a chunk without choices reports usage. *)
Definition chunks : list openai.ChatCompletionStreamResponse.t :=
  [ chunk "Hel" [fragment (Some 1) "call_456" "get_time" "{invalid}"] "" None;
    chunk "lo" [fragment None "call_123" "get_weather" argsHead] ""
      (Some (openai.Usage.mk 7 5 12 (Some (openai.PromptTokensDetails.mk 0 3))));
    chunk "" [fragment (Some 0) "" "" argsTail] "tool_calls" None;
    openai.ChatCompletionStreamResponse.mk [] (Some (openai.Usage.mk 10 20 30 None)) ].

(** The scenario of the specification: one call in four fragments. *)
Definition weatherChunks : list openai.ChatCompletionStreamResponse.t :=
  [ chunk "" [fragment (Some 0) "call_123" "get_weather" ""] "" None;
    chunk "" [fragment (Some 0) "" "" argsHead] "" None;
    chunk "" [fragment (Some 0) "" "" (json.quoted "Paris")] "" None;
    chunk "" [fragment (Some 0) "" "" "}"] "" None ].

Definition run : list emission :=
  generateStream json.Unmarshal rangeKeys consumeAll (Opened chunks Go.EOF).

Definition weatherCall : genai.FunctionCall.t :=
  genai.FunctionCall.mk "call_123" "get_weather" {[ "location" := Go.Str "Paris" ]}.

Definition timeCall : genai.FunctionCall.t :=
  genai.FunctionCall.mk "call_456" "get_time" ∅.

(** The schema of the weather tool, and a tool list with a nil tool. *)
Definition weatherSchema : genai.Schema.t :=
  genai.Schema.mk genai.TypeObject ""
    {[ "location" :=
         Some (genai.Schema.mk genai.TypeString "The city and state" ∅ [] None []);
       "unit" :=
         Some (genai.Schema.mk genai.TypeString "" ∅ [] None ["celsius"; "fahrenheit"]) ]}
    ["location"] None [].

Definition add : genai.FunctionDeclaration.t :=
  genai.FunctionDeclaration.mk "add" "Add two numbers" Go.Nil.

Definition multiply : genai.FunctionDeclaration.t :=
  genai.FunctionDeclaration.mk "multiply" "Multiply two numbers" Go.Nil.

Definition getWeather : genai.FunctionDeclaration.t :=
  genai.FunctionDeclaration.mk "get_weather" "Get the current weather" Go.Nil.

Definition tools : list (option genai.Tool.t) :=
  [ Some (genai.Tool.mk [Some add; Some multiply]);
    None;
    Some (genai.Tool.mk []);
    Some (genai.Tool.mk [Some getWeather]) ].

End Examples.

(** ** The request builder and the entry point

    The rest of [openai.go]: the text of a system instruction, the wire
    request, the non-streaming call, and [GenerateContent]. A [float32] is
    only copied by the adapter: it is the [Z] of its IEEE 754 bits, so the
    zero value is 0. *)

Definition newline : string := String (Ascii.ascii_of_N 10) "".

(** [for i, text := range texts] of [joinTexts]. *)
Fixpoint joinLoop (result : string) (i : nat) (texts : list string) : string :=
  match texts with
  | [] => result
  | text :: rest =>
    let result := if decide (0 < i)%nat then result +:+ newline else result in
    joinLoop (result +:+ text) (S i) rest
  end.

Definition joinTexts (texts : list string) : string :=
  if decide (length texts = 0%nat) then ""
  else if decide (length texts = 1%nat) then default "" (head texts)
  else joinLoop "" 0 texts.

(** [for _, part := range content.Parts] of [extractTextFromContent]. *)
Definition collectTexts (parts : list genai.Part.t) : list string :=
  foldl (λ texts part,
           if decide (genai.Part.Text part ≠ "") then texts ++ [genai.Part.Text part]
           else texts)
    [] parts.

Definition extractTextFromContent (content : option genai.Content.t) : string :=
  match content with
  | None => ""
  | Some content => joinTexts (collectTexts (genai.Content.Parts content))
  end.

Module GenerateContentConfig.
Record t : Type := mk {
  Temperature : option Z;
  TopP : option Z;
  MaxOutputTokens : Z;
  StopSequences : list string;
  SystemInstruction : option genai.Content.t;
  Tools : list (option genai.Tool.t);
  ResponseMIMEType : string }.
End GenerateContentConfig.

Module LLMRequest.
Record t : Type := mk {
  Contents : list genai.Content.t;
  Config : option GenerateContentConfig.t }.
End LLMRequest.

Module ChatCompletionResponseFormat.
Record t : Type := mk { Type_ : string }.
End ChatCompletionResponseFormat.

Definition ChatCompletionResponseFormatTypeJSONObject : string := "json_object".

Module ChatCompletionRequest.
Record t : Type := mk {
  Model : string;
  Messages : list openai.ChatCompletionMessage.t;
  Tools : Go.slice openai.Tool.t;
  Temperature : Z;
  MaxTokens : Z;
  TopP : Z;
  Stop : list string;
  ResponseFormat : option ChatCompletionResponseFormat.t;
  Stream : bool }.
(** The zero value [openai.ChatCompletionRequest{}]. *)
Definition zero : t := mk "" [] None 0 0 0 [] None false.
End ChatCompletionRequest.

(** The client of go-openai, as far as the adapter calls it: the two calls
    answer with a result or an error; an opened stream hands out its chunks
    and then the error [last]. *)
Module Client.
Record t : Type := mk {
  CreateChatCompletion :
    ChatCompletionRequest.t → res openai.ChatCompletionResponse.t;
  CreateChatCompletionStream :
    ChatCompletionRequest.t →
    res (list openai.ChatCompletionStreamResponse.t * Go.error) }.
End Client.

Module OpenAIModel.
Record t : Type := mk { Client : Client.t; ModelName : string }.
End OpenAIModel.

Section Request.

Variable json_Marshal : gmap string Go.any → res string.
Variable base64_EncodeToString : list Byte.byte → string.

(** [for _, content := range req.Contents] of the request builder. *)
Fixpoint convertContents (openaiMessages : list openai.ChatCompletionMessage.t)
    (contents : list genai.Content.t) : res (list openai.ChatCompletionMessage.t) :=
  match contents with
  | [] => ret openaiMessages
  | content :: rest =>
    match toOpenAIChatCompletionMessage json_Marshal base64_EncodeToString content with
    | (_, Some err) => fail err
    | (msg, None) => convertContents (openaiMessages ++ [msg]) rest
    end
  end.

(** "Apply config settings", on a request whose tools are set. *)
Definition applyConfig (config : GenerateContentConfig.t)
    (openaiReq : ChatCompletionRequest.t) : ChatCompletionRequest.t :=
  let temperature :=
    match GenerateContentConfig.Temperature config with
    | Some t => t
    | None => ChatCompletionRequest.Temperature openaiReq
    end in
  let maxTokens :=
    if decide (0 < GenerateContentConfig.MaxOutputTokens config)
    then GenerateContentConfig.MaxOutputTokens config
    else ChatCompletionRequest.MaxTokens openaiReq in
  let topP :=
    match GenerateContentConfig.TopP config with
    | Some p => p
    | None => ChatCompletionRequest.TopP openaiReq
    end in
  let stop :=
    if decide (0 < length (GenerateContentConfig.StopSequences config))%nat
    then GenerateContentConfig.StopSequences config
    else ChatCompletionRequest.Stop openaiReq in
  let messages :=
    match GenerateContentConfig.SystemInstruction config with
    | Some instruction =>
      let systemMsg :=
        openai.ChatCompletionMessage.mk openai.ChatMessageRoleSystem
          (extractTextFromContent (Some instruction)) [] [] "" in
      [systemMsg] ++ ChatCompletionRequest.Messages openaiReq
    | None => ChatCompletionRequest.Messages openaiReq
    end in
  let responseFormat :=
    if decide (GenerateContentConfig.ResponseMIMEType config = "application/json")
    then Some (ChatCompletionResponseFormat.mk ChatCompletionResponseFormatTypeJSONObject)
    else ChatCompletionRequest.ResponseFormat openaiReq in
  ChatCompletionRequest.mk
    (ChatCompletionRequest.Model openaiReq) messages
    (ChatCompletionRequest.Tools openaiReq)
    temperature maxTokens topP stop responseFormat
    (ChatCompletionRequest.Stream openaiReq).

Definition toOpenAIChatCompletionRequest (req : LLMRequest.t) (modelName : string)
  : outcome (ChatCompletionRequest.t * option Go.error) :=
  match convertContents [] (LLMRequest.Contents req) with
  | inr err => Returns (ChatCompletionRequest.zero, Some err)
  | inl openaiMessages =>
    let openaiReq :=
      ChatCompletionRequest.mk modelName openaiMessages None 0 0 0 [] None false in
    match LLMRequest.Config req with
    | None => Returns (openaiReq, None)
    | Some config =>
      let withTools : outcome (ChatCompletionRequest.t + Go.error) :=
        if decide (0 < length (GenerateContentConfig.Tools config))%nat then
          match convertTools (Some (GenerateContentConfig.Tools config)) with
          | Panics msg => Panics msg
          | Returns (_, Some err) => Returns (inr err)
          | Returns (tools, None) =>
            Returns (inl (ChatCompletionRequest.mk modelName openaiMessages tools
                            0 0 0 [] None false))
          end
        else Returns (inl openaiReq) in
      match withTools with
      | Panics msg => Panics msg
      | Returns (inr err) => Returns (ChatCompletionRequest.zero, Some err)
      | Returns (inl openaiReq) => Returns (applyConfig config openaiReq, None)
      end
    end
  end.

Variable json_Unmarshal : string → option (gmap string Go.any).

(** [openaiReq.Stream = true]. *)
Definition setStream (openaiReq : ChatCompletionRequest.t) : ChatCompletionRequest.t :=
  ChatCompletionRequest.mk
    (ChatCompletionRequest.Model openaiReq) (ChatCompletionRequest.Messages openaiReq)
    (ChatCompletionRequest.Tools openaiReq) (ChatCompletionRequest.Temperature openaiReq)
    (ChatCompletionRequest.MaxTokens openaiReq) (ChatCompletionRequest.TopP openaiReq)
    (ChatCompletionRequest.Stop openaiReq) (ChatCompletionRequest.ResponseFormat openaiReq)
    true.

(** [generate], as the list of elements it yields. Each path yields once
    and returns, whatever [yield] answers. *)
Definition generate (o : OpenAIModel.t) (req : LLMRequest.t) : outcome (list emission) :=
  match toOpenAIChatCompletionRequest req (OpenAIModel.ModelName o) with
  | Panics msg => Panics msg
  | Returns (_, Some err) => Returns [(None, Some err)]
  | Returns (openaiReq, None) =>
    match Client.CreateChatCompletion (OpenAIModel.Client o) openaiReq with
    | inr err => Returns [(None, Some err)]
    | inl resp =>
      match convertChatCompletionResponse json_Unmarshal resp with
      | (_, Some err) => Returns [(None, Some err)]
      | (llmResp, None) => Returns [(llmResp, None)]
      end
    end
  end.

(** The head of [generateStream]: the request is built, marked as a stream
    and handed to the client. *)
Definition openStream (o : OpenAIModel.t) (req : LLMRequest.t) : outcome transport :=
  match toOpenAIChatCompletionRequest req (OpenAIModel.ModelName o) with
  | Panics msg => Panics msg
  | Returns (_, Some err) => Returns (RequestFails err)
  | Returns (openaiReq, None) =>
    match Client.CreateChatCompletionStream (OpenAIModel.Client o) (setStream openaiReq) with
    | inr err => Returns (OpenFails err)
    | inl (chunks, last) => Returns (Opened chunks last)
    end
  end.

Variable rangeKeys : gmap Z toolCallBuilder.t → list Z.
Variable yield : list emission → bool.

Definition GenerateContent (o : OpenAIModel.t) (req : LLMRequest.t) (stream : bool)
  : outcome (list emission) :=
  if stream then
    match openStream o req with
    | Panics msg => Panics msg
    | Returns t => Returns (generateStream json_Unmarshal rangeKeys yield t)
    end
  else generate o req.

End Request.

(** ** Observations for the properties of the rest of the code *)

(** The last non-empty string of a list, or the empty string. *)
Definition lastNonEmpty (l : list string) : string :=
  default "" (last (filter (λ s, s ≠ "") l)).

(** The strings of a list one after the other. *)
Definition concatStrings (l : list string) : string := foldr String.append "" l.

(** The fragments of one index. *)
Definition fragmentsAt (idx : Z) (fragments : list openai.ToolCall.t)
  : list openai.ToolCall.t :=
  filter (λ toolCall, toolCallIndex toolCall = idx) fragments.

(** A chunk cut down to its first choice. *)
Definition firstChoiceOnly (chunk : openai.ChatCompletionStreamResponse.t)
  : openai.ChatCompletionStreamResponse.t :=
  openai.ChatCompletionStreamResponse.mk
    (take 1 (openai.ChatCompletionStreamResponse.Choices chunk))
    (openai.ChatCompletionStreamResponse.Usage chunk).

Definition hasChoice (chunk : openai.ChatCompletionStreamResponse.t) : Prop :=
  openai.ChatCompletionStreamResponse.Choices chunk ≠ [].

(** A part with its file reference removed. *)
Definition withoutFileData (part : genai.Part.t) : genai.Part.t :=
  genai.Part.mk (genai.Part.Text part) (genai.Part.FunctionCall part)
    (genai.Part.FunctionResponse part) (genai.Part.InlineData part) None.

(** The multi-content entries that one part contributes: its text, then
    its inline data as a data URL. *)
Definition partEntries (base64_EncodeToString : list Byte.byte → string)
    (part : genai.Part.t) : list openai.ChatMessagePart.t :=
  (if decide (genai.Part.Text part ≠ "") then
     [openai.ChatMessagePart.mk "text" (genai.Part.Text part) None]
   else []) ++
  match genai.Part.InlineData part with
  | Some blob =>
    [openai.ChatMessagePart.mk "image_url" ""
       (Some (openai.ChatMessageImageURL.mk
                ("data:" +:+ genai.Blob.MIMEType blob +:+ ";base64," +:+
                 base64_EncodeToString (genai.Blob.Data blob))
                "auto"))]
  | None => []
  end.

(** Both JSON encodings that a part asks for succeed. *)
Definition marshals (json_Marshal : gmap string Go.any → res string)
    (part : genai.Part.t) : Prop :=
  (∀ fc, genai.Part.FunctionCall part = Some fc →
         ∃ text, json_Marshal (genai.FunctionCall.Args fc) = inl text) ∧
  (∀ fr, genai.Part.FunctionResponse part = Some fr →
         ∃ text, json_Marshal (genai.FunctionResponse.Response fr) = inl text).

(** The text of an encoding that succeeds. *)
Definition marshalled (json_Marshal : gmap string Go.any → res string)
    (m : gmap string Go.any) : string :=
  match json_Marshal m with inl text => text | inr _ => "" end.

(** The wire tool call of a function-call part. *)
Definition partToolCall (json_Marshal : gmap string Go.any → res string)
    (part : genai.Part.t) : option openai.ToolCall.t :=
  match genai.Part.FunctionCall part with
  | Some fc =>
    Some (openai.ToolCall.mk None (genai.FunctionCall.ID fc) "function"
            (openai.FunctionCall.mk (genai.FunctionCall.Name fc)
               (marshalled json_Marshal (genai.FunctionCall.Args fc))))
  | None => None
  end.

(** The int32 range. *)
Definition inInt32 (z : Z) : Prop := - 2 ^ 31 ≤ z < 2 ^ 31.

(** The message after the function response of a part, if it has one:
    role tool, the encoded response as content, the id of the response. *)
Definition partResponse (json_Marshal : gmap string Go.any → res string)
    (m : openai.ChatCompletionMessage.t) (part : genai.Part.t)
  : openai.ChatCompletionMessage.t :=
  match genai.Part.FunctionResponse part with
  | Some fr =>
    openai.ChatCompletionMessage.mk "tool"
      (marshalled json_Marshal (genai.FunctionResponse.Response fr))
      (openai.ChatCompletionMessage.MultiContent m)
      (openai.ChatCompletionMessage.ToolCalls m)
      (genai.FunctionResponse.ID fr)
  | None => m
  end.

(** The message of a content, and whether its conversion succeeds. *)
Definition contentMessage (json_Marshal : gmap string Go.any → res string)
    (base64_EncodeToString : list Byte.byte → string) (content : genai.Content.t)
  : openai.ChatCompletionMessage.t :=
  (toOpenAIChatCompletionMessage json_Marshal base64_EncodeToString content).1.

Definition contentConverts (json_Marshal : gmap string Go.any → res string)
    (base64_EncodeToString : list Byte.byte → string) (content : genai.Content.t) : Prop :=
  (toOpenAIChatCompletionMessage json_Marshal base64_EncodeToString content).2 = None.

(** ** Sample data for the request builder and the entry point *)

Module Samples.

(** An encoder for the objects of the samples: the empty object and an
    object with one string member; it refuses everything else. *)
Definition marshal (m : gmap string Go.any) : res string :=
  match map_to_list m with
  | [] => inl "{}"
  | [(key, Go.Str value)] =>
    inl ("{" +:+ json.quoted key +:+ ":" +:+ json.quoted value +:+ "}")
  | _ => inr (Go.Other "json: unsupported type")
  end.

(** A stand-in for the base64 encoder. *)
Definition base64 (data : list Byte.byte) : string := "".

Definition weatherResponse : genai.FunctionResponse.t :=
  genai.FunctionResponse.mk "call_123" "get_weather" {[ "condition" := Go.Str "sunny" ]}.

Definition image : genai.Blob.t := genai.Blob.mk "image/jpeg" [].

(** A user turn with text and an image, a model turn that calls the
    weather tool, and the tool's answer. *)
Definition question : genai.Content.t :=
  genai.Content.mk "user"
    [ textPart "What is on the picture?";
      genai.Part.mk "" None None (Some image) None ].

Definition call : genai.Content.t :=
  genai.Content.mk "model" [functionCallPart Examples.weatherCall].

Definition answer : genai.Content.t :=
  genai.Content.mk "user" [genai.Part.mk "" None (Some weatherResponse) None None].

(** A content with a function call whose arguments the encoder refuses. *)
Definition unencodable : genai.Content.t :=
  genai.Content.mk "model"
    [functionCallPart (genai.FunctionCall.mk "call_9" "f" {[ "n" := Go.Nil ]})].

Definition instruction : genai.Content.t :=
  genai.Content.mk "system" [textPart "Be brief."; textPart ""; textPart "Use the tools."].

Definition config : GenerateContentConfig.t :=
  GenerateContentConfig.mk None None 256 ["END"] (Some instruction)
    Examples.tools "application/json".

Definition request : LLMRequest.t :=
  LLMRequest.mk [question; call; answer] (Some config).

Definition badRequest : LLMRequest.t :=
  LLMRequest.mk [question; unencodable; answer]
    (Some (GenerateContentConfig.mk None None 0 [] None
             [Some (genai.Tool.mk [None])] "")).

Definition response : openai.ChatCompletionResponse.t :=
  openai.ChatCompletionResponse.mk
    [openai.ChatCompletionChoice.mk 0
       (openai.ChatCompletionMessage.mk "assistant" "It is sunny." [] [] "") "stop"]
    (openai.Usage.mk 7 5 12 None).

(** A client that answers every call with the sample response or the
    sample stream. *)
Definition client : Client.t :=
  Client.mk (λ _, inl response) (λ _, inl (Examples.chunks, Go.EOF)).

Definition llm : OpenAIModel.t := OpenAIModel.mk client "gpt-4".

(** A client whose calls fail. *)
Definition offline : OpenAIModel.t :=
  OpenAIModel.mk
    (Client.mk (λ _, inr (Go.Other "connection refused"))
       (λ _, inr (Go.Other "connection refused")))
    "gpt-4".

End Samples.

(** A chunk whose tool-call fragments all claim the type [ty]. *)
Definition retypedToolCall (ty : string) (toolCall : openai.ToolCall.t) : openai.ToolCall.t :=
  openai.ToolCall.mk (openai.ToolCall.Index toolCall) (openai.ToolCall.ID toolCall) ty
    (openai.ToolCall.Function toolCall).

Definition retypedChoice (ty : string) (choice : openai.ChatCompletionStreamChoice.t)
  : openai.ChatCompletionStreamChoice.t :=
  let delta := openai.ChatCompletionStreamChoice.Delta choice in
  openai.ChatCompletionStreamChoice.mk
    (openai.ChatCompletionStreamChoice.Index choice)
    (openai.ChatCompletionStreamChoiceDelta.mk
       (openai.ChatCompletionStreamChoiceDelta.Content delta)
       (openai.ChatCompletionStreamChoiceDelta.Role delta)
       (map (retypedToolCall ty) (openai.ChatCompletionStreamChoiceDelta.ToolCalls delta)))
    (openai.ChatCompletionStreamChoice.FinishReason choice).

Definition retypedChunk (ty : string) (chunk : openai.ChatCompletionStreamResponse.t)
  : openai.ChatCompletionStreamResponse.t :=
  openai.ChatCompletionStreamResponse.mk
    (map (retypedChoice ty) (openai.ChatCompletionStreamResponse.Choices chunk))
    (openai.ChatCompletionStreamResponse.Usage chunk).

(** ** The request builder over pointers that may be nil

    The request builder dereferences its request, the contents, their
    parts and the parts of the system instruction without a test. In this
    second embedding of the same lines those pointers are [option]s, and
    dereferencing [None] is the panic of the Go runtime. One iteration on
    a part that is not nil, the tools and the settings are the ones of the
    embedding above. *)

Definition nilDereference : string :=
  "runtime error: invalid memory address or nil pointer dereference".

Module Ptr.

(** [genai.Content], with [Parts []*genai.Part]. *)
Module Content.
Record t : Type := mk {
  Role : string;
  Parts : list (option genai.Part.t) }.
End Content.

(** [genai.GenerateContentConfig], with [SystemInstruction *genai.Content]. *)
Module GenerateContentConfig.
Record t : Type := mk {
  Temperature : option Z;
  TopP : option Z;
  MaxOutputTokens : Z;
  StopSequences : list string;
  SystemInstruction : option Content.t;
  Tools : list (option genai.Tool.t);
  ResponseMIMEType : string }.
End GenerateContentConfig.

(** [model.LLMRequest], with [Contents []*genai.Content]. *)
Module LLMRequest.
Record t : Type := mk {
  Contents : list (option Content.t);
  Config : option GenerateContentConfig.t }.
End LLMRequest.

(** [for _, part := range content.Parts] of [extractTextFromContent]; the
    body starts with [part.Text]. *)
Fixpoint collectTexts (texts : list string) (parts : list (option genai.Part.t))
  : outcome (list string) :=
  match parts with
  | [] => Returns texts
  | None :: _ => Panics nilDereference
  | Some part :: rest =>
    collectTexts
      (if decide (genai.Part.Text part ≠ "") then texts ++ [genai.Part.Text part]
       else texts)
      rest
  end.

Definition extractTextFromContent (content : option Content.t) : outcome string :=
  match content with
  | None => Returns ""
  | Some content =>
    match collectTexts [] (Content.Parts content) with
    | Panics msg => Panics msg
    | Returns texts => Returns (joinTexts texts)
    end
  end.

Section Builder.

Variable json_Marshal : gmap string Go.any → res string.
Variable base64_EncodeToString : list Byte.byte → string.

(** [for _, part := range content.Parts] of the message converter; the
    body starts with [part.Text]. *)
Fixpoint messageParts (n : nat) (b : messageBuilder) (parts : list (option genai.Part.t))
  : outcome (res messageBuilder) :=
  match parts with
  | [] => Returns (ret b)
  | None :: _ => Panics nilDereference
  | Some part :: rest =>
    match messagePart json_Marshal base64_EncodeToString n b part with
    | inr err => Returns (fail err)
    | inl b => messageParts n b rest
    end
  end.

Definition toOpenAIChatCompletionMessage (content : option Content.t)
  : outcome (openai.ChatCompletionMessage.t * option Go.error) :=
  match content with
  | None => Panics nilDereference
  | Some content =>
    let openaiMsg0 :=
      openai.ChatCompletionMessage.mk
        (convertRoleToOpenAI (Content.Role content)) "" [] [] "" in
    let parts := Content.Parts content in
    let general :=
      match messageParts (length parts) (mkMessageBuilder openaiMsg0 "" [] []) parts with
      | Panics msg => Panics msg
      | Returns (inr err) => Returns (openai.ChatCompletionMessage.zero, Some err)
      | Returns (inl b) =>
        let m := openaiMsg b in
        let m :=
          if decide (0 < length (multiContent b))%nat then setMultiContent m (multiContent b)
          else if decide (textContent b ≠ "") then setContent m (textContent b)
          else m in
        let m :=
          if decide (0 < length (toolCalls b))%nat then setToolCalls m (toolCalls b)
          else m in
        Returns (m, None)
      end in
    (* len(content.Parts) == 1 && content.Parts[0].Text != "" *)
    match parts with
    | [None] => Panics nilDereference
    | [Some part] =>
      if decide (genai.Part.Text part ≠ "") then
        Returns (setContent openaiMsg0 (genai.Part.Text part), None)
      else general
    | _ => general
    end
  end.

(** [for _, content := range req.Contents] of the request builder. *)
Fixpoint convertContents (openaiMessages : list openai.ChatCompletionMessage.t)
    (contents : list (option Content.t))
  : outcome (res (list openai.ChatCompletionMessage.t)) :=
  match contents with
  | [] => Returns (ret openaiMessages)
  | content :: rest =>
    match toOpenAIChatCompletionMessage content with
    | Panics msg => Panics msg
    | Returns (_, Some err) => Returns (fail err)
    | Returns (msg, None) => convertContents (openaiMessages ++ [msg]) rest
    end
  end.

(** "Apply config settings", on a request whose tools are set. The text of
    the system instruction is the one step that can panic; the assignments
    around it are lost with it. *)
Definition applyConfig (config : GenerateContentConfig.t)
    (openaiReq : ChatCompletionRequest.t) : outcome ChatCompletionRequest.t :=
  let temperature :=
    match GenerateContentConfig.Temperature config with
    | Some t => t
    | None => ChatCompletionRequest.Temperature openaiReq
    end in
  let maxTokens :=
    if decide (0 < GenerateContentConfig.MaxOutputTokens config)
    then GenerateContentConfig.MaxOutputTokens config
    else ChatCompletionRequest.MaxTokens openaiReq in
  let topP :=
    match GenerateContentConfig.TopP config with
    | Some p => p
    | None => ChatCompletionRequest.TopP openaiReq
    end in
  let stop :=
    if decide (0 < length (GenerateContentConfig.StopSequences config))%nat
    then GenerateContentConfig.StopSequences config
    else ChatCompletionRequest.Stop openaiReq in
  let responseFormat :=
    if decide (GenerateContentConfig.ResponseMIMEType config = "application/json")
    then Some (ChatCompletionResponseFormat.mk ChatCompletionResponseFormatTypeJSONObject)
    else ChatCompletionRequest.ResponseFormat openaiReq in
  let withMessages messages :=
    ChatCompletionRequest.mk
      (ChatCompletionRequest.Model openaiReq) messages
      (ChatCompletionRequest.Tools openaiReq)
      temperature maxTokens topP stop responseFormat
      (ChatCompletionRequest.Stream openaiReq) in
  match GenerateContentConfig.SystemInstruction config with
  | Some instruction =>
    match extractTextFromContent (Some instruction) with
    | Panics msg => Panics msg
    | Returns text =>
      let systemMsg :=
        openai.ChatCompletionMessage.mk openai.ChatMessageRoleSystem text [] [] "" in
      Returns (withMessages ([systemMsg] ++ ChatCompletionRequest.Messages openaiReq))
    end
  | None => Returns (withMessages (ChatCompletionRequest.Messages openaiReq))
  end.

Definition toOpenAIChatCompletionRequest (req : option LLMRequest.t) (modelName : string)
  : outcome (ChatCompletionRequest.t * option Go.error) :=
  match req with
  | None => Panics nilDereference
  | Some req =>
    match convertContents [] (LLMRequest.Contents req) with
    | Panics msg => Panics msg
    | Returns (inr err) => Returns (ChatCompletionRequest.zero, Some err)
    | Returns (inl openaiMessages) =>
      let openaiReq :=
        ChatCompletionRequest.mk modelName openaiMessages None 0 0 0 [] None false in
      match LLMRequest.Config req with
      | None => Returns (openaiReq, None)
      | Some config =>
        let withTools : outcome (ChatCompletionRequest.t + Go.error) :=
          if decide (0 < length (GenerateContentConfig.Tools config))%nat then
            match convertTools (Some (GenerateContentConfig.Tools config)) with
            | Panics msg => Panics msg
            | Returns (_, Some err) => Returns (inr err)
            | Returns (tools, None) =>
              Returns (inl (ChatCompletionRequest.mk modelName openaiMessages tools
                              0 0 0 [] None false))
            end
          else Returns (inl openaiReq) in
        match withTools with
        | Panics msg => Panics msg
        | Returns (inr err) => Returns (ChatCompletionRequest.zero, Some err)
        | Returns (inl openaiReq) =>
          match applyConfig config openaiReq with
          | Panics msg => Panics msg
          | Returns openaiReq => Returns (openaiReq, None)
          end
        end
      end
    end
  end.

(** A content pointer converts: the converter returns a message and a nil
    error. *)
Definition converts (content : option Content.t) : Prop :=
  ∃ msg, toOpenAIChatCompletionMessage content = Returns (msg, None).

End Builder.

(** The declarations that the tools of a request list, and the parts of
    its system instruction. *)
Definition declarations (req : LLMRequest.t) : list (option genai.FunctionDeclaration.t) :=
  from_option (λ config, toolDeclarations (GenerateContentConfig.Tools config)) []
    (LLMRequest.Config req).

Definition instructionParts (req : LLMRequest.t) : list (option genai.Part.t) :=
  from_option Content.Parts [] (LLMRequest.Config req ≫= GenerateContentConfig.SystemInstruction).

End Ptr.

(** A request without nil pointers, as pointers. *)
Definition contentPointer (content : genai.Content.t) : Ptr.Content.t :=
  Ptr.Content.mk (genai.Content.Role content) (map Some (genai.Content.Parts content)).

Definition configPointer (config : GenerateContentConfig.t) : Ptr.GenerateContentConfig.t :=
  Ptr.GenerateContentConfig.mk
    (GenerateContentConfig.Temperature config) (GenerateContentConfig.TopP config)
    (GenerateContentConfig.MaxOutputTokens config)
    (GenerateContentConfig.StopSequences config)
    (contentPointer <$> GenerateContentConfig.SystemInstruction config)
    (GenerateContentConfig.Tools config) (GenerateContentConfig.ResponseMIMEType config).

Definition requestPointer (req : LLMRequest.t) : option Ptr.LLMRequest.t :=
  Some (Ptr.LLMRequest.mk
          (map (λ content, Some (contentPointer content)) (LLMRequest.Contents req))
          (configPointer <$> LLMRequest.Config req)).

(** Sample requests with nil pointers. *)
Module PtrSamples.

(** A content whose second part is nil. *)
Definition nilPart : Ptr.Content.t :=
  Ptr.Content.mk "user" [Some (textPart "hello"); None].

(** A content whose first part fails to encode and whose second is nil. *)
Definition failsBeforeNil : Ptr.Content.t :=
  Ptr.Content.mk "model"
    (map Some (genai.Content.Parts Samples.unencodable) ++ [None]).

(** A configuration with a nil declaration and a nil part in the system
    instruction. *)
Definition config : Ptr.GenerateContentConfig.t :=
  Ptr.GenerateContentConfig.mk None None 0 []
    (Some (Ptr.Content.mk "system" [None]))
    [Some (genai.Tool.mk [None])] "".

(** The same without tools. *)
Definition instructionOnly : Ptr.GenerateContentConfig.t :=
  Ptr.GenerateContentConfig.mk None None 0 []
    (Some (Ptr.Content.mk "system" [None])) [] "".

Definition request (contents : list (option Ptr.Content.t))
    (config : option Ptr.GenerateContentConfig.t) : option Ptr.LLMRequest.t :=
  Some (Ptr.LLMRequest.mk contents config).

End PtrSamples.

(** * Properties *)

(** ** The bubble sort sorts *)

Section BubbleSort.

Implicit Types (l A B : list Z) (i j k m : nat).

Lemma compareSwap_cons a l j :
  compareSwap (a :: l) (S j) = a :: compareSwap l j.
Proof.
  unfold compareSwap. simpl.
  destruct (l !! j) as [x|]; [|done].
  destruct (l !! S j) as [y|]; [|done].
  by destruct (decide (x > y)).
Qed.

Lemma foldl_compareSwap_cons a m : ∀ l k,
  foldl compareSwap (a :: l) (seq (S k) m) = a :: foldl compareSwap l (seq k m).
Proof.
  induction m as [|m IH]; intros l k; [done|].
  simpl. rewrite compareSwap_cons. apply (IH _ (S k)).
Qed.

Lemma foldl_compareSwap_step x y l m :
  foldl compareSwap (x :: y :: l) (seq 0 (S m)) =
  if decide (x > y) then y :: foldl compareSwap (x :: l) (seq 0 m)
  else x :: foldl compareSwap (y :: l) (seq 0 m).
Proof.
  simpl. unfold compareSwap at 2. simpl.
  destruct (decide (x > y)); simpl; apply foldl_compareSwap_cons.
Qed.

(** One inner loop over the first [S m] cells moves their maximum to cell
    [m] and leaves the other cells of the list in place. *)
Lemma bubble_inner m : ∀ A B,
  length A = S m →
  ∃ A' mx,
    foldl compareSwap (A ++ B) (seq 0 m) = A' ++ mx :: B ∧
    A ≡ₚ A' ++ [mx] ∧
    Forall (λ a, a ≤ mx) A'.
Proof.
  induction m as [|m IH]; intros A B HA.
  - destruct A as [|x [|? ?]]; simplify_eq/=.
    exists [], x. by repeat split.
  - destruct A as [|x [|y r]]; try (simpl in HA; lia).
    change ((x :: y :: r) ++ B) with (x :: y :: (r ++ B)).
    rewrite foldl_compareSwap_step. simpl in HA.
    assert (Hmax : ∀ z A' mx, z :: r ≡ₚ A' ++ [mx] → Forall (λ a, a ≤ mx) A' → z ≤ mx).
    { intros z A' mx Hp HF.
      assert (z ∈ A' ++ [mx]) as Hin by (rewrite <- Hp; left).
      apply elem_of_app in Hin as [Hin|Hin].
      - by eapply Forall_forall in HF.
      - apply list_elem_of_singleton in Hin. lia. }
    destruct (decide (x > y)) as [Hxy|Hxy].
    + destruct (IH (x :: r) B) as (A' & mx & Heq & Hp & HF); [simpl; lia|].
      exists (y :: A'), mx. simpl in Heq. rewrite Heq. split; [done|]. split.
      * rewrite Permutation_swap. simpl. by rewrite Hp.
      * constructor; [|done]. pose proof (Hmax x A' mx Hp HF). lia.
    + destruct (IH (y :: r) B) as (A' & mx & Heq & Hp & HF); [simpl; lia|].
      exists (x :: A'), mx. simpl in Heq. rewrite Heq. split; [done|]. split.
      * simpl. by rewrite Hp.
      * constructor; [|done]. pose proof (Hmax y A' mx Hp HF). lia.
Qed.

(** The outer loop from iteration [i] on: the last [i] cells are sorted and
    bound the others from above. *)
Lemma bubble_outer k : ∀ i A B,
  length A = S k → length B = i →
  StronglySorted Z.le B →
  (∀ a b, a ∈ A → b ∈ B → a ≤ b) →
  StronglySorted Z.le (foldl bubblePass (A ++ B) (seq i k)) ∧
  foldl bubblePass (A ++ B) (seq i k) ≡ₚ A ++ B.
Proof.
  induction k as [|k IH]; intros i A B HA HB Hs Hle.
  - destruct A as [|x [|? ?]]; try (simpl in HA; lia). simpl. split; [|done].
    constructor; [done|]. apply Forall_forall. intros b Hb. apply Hle; [left|done].
  - destruct (bubble_inner (S k) A B HA) as (A' & mx & Heq & Hp & HF).
    assert (bubblePass (A ++ B) i = A' ++ mx :: B) as Hpass.
    { unfold bubblePass.
      replace (length (A ++ B) - i - 1)%nat with (S k)
        by (rewrite length_app; lia).
      done. }
    simpl. rewrite Hpass.
    assert (length A' = S k) as HA'.
    { apply Permutation_length in Hp. rewrite length_app in Hp. simpl in Hp. lia. }
    assert (mx ∈ A) as Hmx.
    { rewrite Hp. apply elem_of_app. right. by apply list_elem_of_singleton. }
    destruct (IH (S i) A' (mx :: B)) as [Hsorted Hperm]; [exact HA'|simpl; lia| | |].
    + constructor; [done|]. apply Forall_forall. intros b Hb. by apply Hle.
    + intros a b Ha Hb. apply elem_of_cons in Hb as [->|Hb].
      * by eapply Forall_forall in HF.
      * apply Hle; [|done]. rewrite Hp. apply elem_of_app. by left.
    + split; [done|]. rewrite Hperm, Hp. by rewrite <- (assoc_L (++)).
Qed.

Lemma bubbleSort_sorted l : StronglySorted Z.le (bubbleSort l).
Proof.
  unfold bubbleSort. destruct l as [|x l]; [constructor|].
  destruct (bubble_outer (length l) 0 (x :: l) []) as [H _]; try done.
  - constructor.
  - intros a b _ Hb. by apply elem_of_nil in Hb.
  - rewrite (right_id_L [] (++)) in H. simpl in *.
    by replace (length l - 0)%nat with (length l) by lia.
Qed.

Lemma bubbleSort_perm l : bubbleSort l ≡ₚ l.
Proof.
  unfold bubbleSort. destruct l as [|x l]; [done|].
  destruct (bubble_outer (length l) 0 (x :: l) []) as [_ H]; try done.
  - constructor.
  - intros a b _ Hb. by apply elem_of_nil in Hb.
  - rewrite (right_id_L [] (++)) in H. simpl in *.
    by replace (length l - 0)%nat with (length l) by lia.
Qed.

Lemma sorted_le_NoDup_lt l :
  StronglySorted Z.le l → NoDup l → StronglySorted Z.lt l.
Proof.
  induction 1 as [|x l Hs IH HF]; intros Hnd; [constructor|].
  apply NoDup_cons in Hnd as [Hx Hnd].
  constructor; [by apply IH|].
  apply Forall_forall. intros y Hy.
  assert (x ≤ y) by (by eapply Forall_forall in HF).
  assert (x ≠ y) by (intros ->; done). lia.
Qed.

End BubbleSort.

(** ** The receive loop *)

Section StreamFacts.

Variable json_Unmarshal : string → option (gmap string Go.any).
Variable rangeKeys : gmap Z toolCallBuilder.t → list Z.
Variable yield : list emission → bool.

Implicit Types (st : streamState) (chunks : list openai.ChatCompletionStreamResponse.t).

Lemma recvLoop_nil last st out :
  recvLoop json_Unmarshal rangeKeys yield [] last st out = out ++ [lastEmission json_Unmarshal rangeKeys last st].
Proof. unfold lastEmission. simpl. by destruct (Go.is_EOF last). Qed.

Lemma partials_cons chunk chunks :
  partials (chunk :: chunks) = chunkPartial chunk ++ partials chunks.
Proof.
  unfold partials, streamTexts, chunkPartial. cbn [omap list_omap].
  by destruct (chunkText chunk).
Qed.

(** One iteration of the loop, the consumer going on. *)
Lemma recvLoop_cons chunk chunks last st out :
  (∀ o, yield o = true) →
  recvLoop json_Unmarshal rangeKeys yield (chunk :: chunks) last st out =
  recvLoop json_Unmarshal rangeKeys yield chunks last
    (processChunk st chunk) (out ++ chunkPartial chunk).
Proof.
  intros Hy. cbn [recvLoop].
  unfold processChunk, chunkPartial, chunkText, firstChoice.
  destruct (openai.ChatCompletionStreamResponse.Choices chunk) as [|choice ?]; simpl.
  - by rewrite (right_id_L [] (++)).
  - unfold handleDeltaContent, partialResponse.
    destruct (decide (_ ≠ "")) as [Ht|Ht]; simpl.
    + by rewrite Hy.
    + by rewrite (right_id_L [] (++)).
Qed.

(** A consumer that never stops receives every partial response and then
    the last element. *)
Lemma recvLoop_all chunks : ∀ last st out,
  (∀ o, yield o = true) →
  recvLoop json_Unmarshal rangeKeys yield chunks last st out =
  out ++ partials chunks ++ [lastEmission json_Unmarshal rangeKeys last (foldl processChunk st chunks)].
Proof.
  induction chunks as [|chunk rest IH]; intros last st out Hy.
  - apply recvLoop_nil.
  - rewrite recvLoop_cons, IH, partials_cons by done.
    by rewrite <- !(assoc_L (++)).
Qed.

(** One iteration with any consumer: the loop goes on as above, or it
    returns after the partial response of this chunk. *)
Lemma recvLoop_cons_any chunk chunks last st out :
  recvLoop json_Unmarshal rangeKeys yield (chunk :: chunks) last st out =
    recvLoop json_Unmarshal rangeKeys yield chunks last
      (processChunk st chunk) (out ++ chunkPartial chunk) ∨
  recvLoop json_Unmarshal rangeKeys yield (chunk :: chunks) last st out =
    out ++ chunkPartial chunk.
Proof.
  cbn [recvLoop].
  unfold processChunk, chunkPartial, chunkText, firstChoice.
  destruct (openai.ChatCompletionStreamResponse.Choices chunk) as [|choice ?]; simpl.
  - left. by rewrite (right_id_L [] (++)).
  - unfold handleDeltaContent, partialResponse.
    destruct (decide (_ ≠ "")) as [Ht|Ht]; simpl.
    + destruct (yield _); [by left|by right].
    + left. by rewrite (right_id_L [] (++)).
Qed.

(** Whatever the consumer does, it receives a prefix of that sequence. *)
Lemma recvLoop_prefix chunks : ∀ last st out,
  recvLoop json_Unmarshal rangeKeys yield chunks last st out `prefix_of`
  out ++ partials chunks ++ [lastEmission json_Unmarshal rangeKeys last (foldl processChunk st chunks)].
Proof.
  induction chunks as [|chunk rest IH]; intros last st out.
  - by rewrite recvLoop_nil.
  - rewrite partials_cons, <- !(assoc_L (++)).
    destruct (recvLoop_cons_any chunk rest last st out) as [-> | ->].
    + rewrite (assoc_L (++) out). apply IH.
    + rewrite (assoc_L (++) out). by apply prefix_app_r.
Qed.

End StreamFacts.

(** ** The state after a chunk sequence *)

Section StateFacts.

Implicit Types (st : streamState) (chunk : openai.ChatCompletionStreamResponse.t)
  (chunks : list openai.ChatCompletionStreamResponse.t).

Lemma processChunk_parts st chunk :
  genai.Content.Parts (aggregatedContent (processChunk st chunk)) =
  genai.Content.Parts (aggregatedContent st) ++
  map textPart (option_list (chunkText chunk)).
Proof.
  unfold processChunk, chunkText, firstChoice.
  destruct (openai.ChatCompletionStreamResponse.Choices chunk) as [|choice ?]; simpl.
  - by rewrite (right_id_L [] (++)).
  - unfold handleDeltaContent.
    destruct (decide (_ ≠ "")); simpl; [done|by rewrite (right_id_L [] (++))].
Qed.

Lemma processChunk_role st chunk :
  genai.Content.Role (aggregatedContent (processChunk st chunk)) =
  genai.Content.Role (aggregatedContent st).
Proof.
  unfold processChunk.
  destruct (openai.ChatCompletionStreamResponse.Choices chunk) as [|choice ?]; [done|].
  unfold handleDeltaContent. by destruct (decide (_ ≠ "")).
Qed.

Lemma processChunk_toolCallsMap st chunk :
  toolCallsMap (processChunk st chunk) =
  foldl applyToolCall (toolCallsMap st) (chunkFragments chunk).
Proof.
  unfold processChunk, chunkFragments, firstChoice.
  destruct (openai.ChatCompletionStreamResponse.Choices chunk) as [|choice ?]; [done|].
  unfold handleDeltaContent. by destruct (decide (_ ≠ "")).
Qed.

Lemma processChunk_finishReason st chunk :
  finishReason (processChunk st chunk) =
  match chunkFinishReason chunk with
  | Some reason => convertFinishReason reason
  | None => finishReason st
  end.
Proof.
  unfold processChunk, chunkFinishReason, firstChoice.
  destruct (openai.ChatCompletionStreamResponse.Choices chunk) as [|choice ?]; [done|].
  simpl. unfold handleDeltaContent.
  destruct (decide (openai.ChatCompletionStreamChoiceDelta.Content _ ≠ ""));
    simpl; by destruct (decide (_ ≠ "")).
Qed.

Lemma processChunk_usageMetadata st chunk :
  usageMetadata (processChunk st chunk) =
  match chunkUsage chunk with
  | Some usage => Some (streamUsage usage)
  | None => usageMetadata st
  end.
Proof.
  unfold processChunk, chunkUsage, firstChoice.
  destruct (openai.ChatCompletionStreamResponse.Choices chunk) as [|choice ?]; [done|].
  simpl. unfold handleDeltaContent.
  destruct (decide (_ ≠ "")); simpl;
    by destruct (openai.ChatCompletionStreamResponse.Usage chunk).
Qed.

Lemma foldl_processChunk_parts chunks : ∀ st,
  genai.Content.Parts (aggregatedContent (foldl processChunk st chunks)) =
  genai.Content.Parts (aggregatedContent st) ++ map textPart (streamTexts chunks).
Proof.
  induction chunks as [|chunk rest IH]; intros st; simpl.
  - by rewrite (right_id_L [] (++)).
  - rewrite IH, processChunk_parts, <- (assoc_L (++)). f_equal.
    unfold streamTexts. cbn [omap list_omap]. by destruct (chunkText chunk).
Qed.

Lemma foldl_processChunk_role chunks : ∀ st,
  genai.Content.Role (aggregatedContent (foldl processChunk st chunks)) =
  genai.Content.Role (aggregatedContent st).
Proof.
  induction chunks as [|chunk rest IH]; intros st; simpl; [done|].
  by rewrite IH, processChunk_role.
Qed.

Lemma foldl_processChunk_toolCallsMap chunks : ∀ st,
  toolCallsMap (foldl processChunk st chunks) =
  foldl applyToolCall (toolCallsMap st) (streamFragments chunks).
Proof.
  induction chunks as [|chunk rest IH]; intros st; simpl; [done|].
  rewrite IH, processChunk_toolCallsMap. unfold streamFragments. simpl.
  by rewrite foldl_app.
Qed.

Lemma foldl_processChunk_finishReason chunks : ∀ st,
  finishReason (foldl processChunk st chunks) =
  match last (streamFinishReasons chunks) with
  | Some reason => convertFinishReason reason
  | None => finishReason st
  end.
Proof.
  induction chunks as [|chunk rest IH]; intros st; simpl; [done|].
  rewrite IH, processChunk_finishReason. unfold streamFinishReasons.
  cbn [omap list_omap]. destruct (chunkFinishReason chunk) as [r|]; [|done].
  rewrite last_cons. by destruct (last _).
Qed.

Lemma foldl_processChunk_usageMetadata chunks : ∀ st,
  usageMetadata (foldl processChunk st chunks) =
  match last (streamUsages chunks) with
  | Some usage => Some (streamUsage usage)
  | None => usageMetadata st
  end.
Proof.
  induction chunks as [|chunk rest IH]; intros st; simpl; [done|].
  rewrite IH, processChunk_usageMetadata. unfold streamUsages.
  cbn [omap list_omap]. destruct (chunkUsage chunk) as [u|]; [|done].
  rewrite last_cons. by destruct (last _).
Qed.

End StateFacts.

(** ** The tool-call accumulator *)

Section Accumulator.

Implicit Types (m : gmap Z toolCallBuilder.t) (b : toolCallBuilder.t)
  (toolCall : openai.ToolCall.t) (fragments : list openai.ToolCall.t).

Lemma string_app_nil_r (s : string) : s +:+ "" = s.
Proof.
  induction s as [|a s IH]; [done|].
  change (String a (s +:+ "") = String a s). by f_equal.
Qed.

Lemma string_app_assoc (s1 s2 s3 : string) :
  (s1 +:+ s2) +:+ s3 = s1 +:+ s2 +:+ s3.
Proof.
  induction s1 as [|a s1 IH]; [done|].
  change (String a ((s1 +:+ s2) +:+ s3) = String a (s1 +:+ s2 +:+ s3)). by f_equal.
Qed.

Lemma applyToolCall_lookup m toolCall idx :
  applyToolCall m toolCall !! idx =
  if decide (idx = toolCallIndex toolCall)
  then Some (updateBuilder (m !! idx) toolCall)
  else m !! idx.
Proof.
  unfold applyToolCall. destruct (decide (idx = _)) as [->|Hne].
  - by rewrite lookup_insert_eq.
  - by rewrite lookup_insert_ne.
Qed.

Lemma updateBuilder_id found toolCall :
  toolCallBuilder.id (updateBuilder found toolCall) =
  if decide (openai.ToolCall.ID toolCall ≠ "") then openai.ToolCall.ID toolCall
  else from_option toolCallBuilder.id "" found.
Proof.
  unfold updateBuilder.
  destruct found as [b|]; repeat (destruct (decide _); simpl); try done;
    by apply dec_stable.
Qed.

Lemma updateBuilder_name found toolCall :
  toolCallBuilder.name (updateBuilder found toolCall) =
  if decide (openai.FunctionCall.Name (openai.ToolCall.Function toolCall) ≠ "")
  then openai.FunctionCall.Name (openai.ToolCall.Function toolCall)
  else from_option toolCallBuilder.name "" found.
Proof.
  unfold updateBuilder.
  destruct found as [b|]; repeat (destruct (decide _); simpl); try done;
    by apply dec_stable.
Qed.

Lemma updateBuilder_args found toolCall :
  toolCallBuilder.args (updateBuilder found toolCall) =
  from_option toolCallBuilder.args "" found +:+
  openai.FunctionCall.Arguments (openai.ToolCall.Function toolCall).
Proof.
  unfold updateBuilder.
  destruct (decide (openai.FunctionCall.Arguments
                      (openai.ToolCall.Function toolCall) ≠ "")) as [Ha|Ha].
  - destruct found as [b|]; by repeat (destruct (decide _); simpl).
  - apply dec_stable in Ha. rewrite Ha, string_app_nil_r.
    destruct found as [b|]; by repeat (destruct (decide _); simpl).
Qed.

Lemma builderExtends_refl b : builderExtends b b.
Proof. repeat split; try done. exists "". by rewrite string_app_nil_r. Qed.

Lemma builderExtends_trans b1 b2 b3 :
  builderExtends b1 b2 → builderExtends b2 b3 → builderExtends b1 b3.
Proof.
  intros (Hi1 & Hn1 & s1 & Ha1) (Hi2 & Hn2 & s2 & Ha2).
  repeat split; [auto..|].
  exists (s1 +:+ s2). by rewrite Ha2, Ha1, string_app_assoc.
Qed.

Lemma updateBuilder_extends b toolCall :
  builderExtends b (updateBuilder (Some b) toolCall).
Proof.
  unfold builderExtends.
  rewrite updateBuilder_id, updateBuilder_name, updateBuilder_args. simpl.
  repeat split.
  - by destruct (decide _).
  - by destruct (decide _).
  - by eexists.
Qed.

Lemma applyToolCall_extends m toolCall idx b :
  m !! idx = Some b →
  ∃ b', applyToolCall m toolCall !! idx = Some b' ∧ builderExtends b b'.
Proof.
  intros Hb. rewrite applyToolCall_lookup. destruct (decide _).
  - rewrite Hb. eexists. split; [done|]. apply updateBuilder_extends.
  - exists b. split; [done|]. apply builderExtends_refl.
Qed.

Lemma foldl_applyToolCall_extends fragments : ∀ m idx b,
  m !! idx = Some b →
  ∃ b', foldl applyToolCall m fragments !! idx = Some b' ∧ builderExtends b b'.
Proof.
  induction fragments as [|toolCall rest IH]; intros m idx b Hb; simpl.
  - exists b. split; [done|]. apply builderExtends_refl.
  - destruct (applyToolCall_extends m toolCall idx b Hb) as (b1 & Hb1 & He1).
    destruct (IH _ _ _ Hb1) as (b2 & Hb2 & He2).
    exists b2. split; [done|]. by eapply builderExtends_trans.
Qed.

Lemma dom_applyToolCall m toolCall :
  dom (applyToolCall m toolCall) = {[toolCallIndex toolCall]} ∪ dom m.
Proof. unfold applyToolCall. by rewrite dom_insert_L. Qed.

Lemma dom_foldl_applyToolCall fragments : ∀ m idx,
  idx ∈ dom (foldl applyToolCall m fragments) ↔
  idx ∈ dom m ∨ idx ∈ map toolCallIndex fragments.
Proof.
  induction fragments as [|toolCall rest IH]; intros m idx; simpl.
  - rewrite elem_of_nil. tauto.
  - rewrite IH, dom_applyToolCall, elem_of_union, elem_of_singleton, elem_of_cons. tauto.
Qed.

Lemma elem_of_dom_accumulate chunks idx :
  idx ∈ dom (accumulate chunks) ↔ idx ∈ map toolCallIndex (streamFragments chunks).
Proof.
  unfold accumulate. rewrite dom_foldl_applyToolCall, dom_empty_L, elem_of_empty. tauto.
Qed.

End Accumulator.

(** ** The final response *)

Section FinalResponse.

Variable json_Unmarshal : string → option (gmap string Go.any).
Variable rangeKeys : gmap Z toolCallBuilder.t → list Z.
Hypothesis rangeKeys_keys : ∀ m, rangeKeys m ≡ₚ elements (dom m).

Lemma foldl_appendBuilder m indices : ∀ parts,
  foldl (appendBuilder json_Unmarshal m) parts indices =
  parts ++ map (builderPart json_Unmarshal m) indices.
Proof.
  induction indices as [|idx rest IH]; intros parts; simpl.
  - by rewrite (right_id_L [] (++)).
  - rewrite IH. unfold appendBuilder. by rewrite <- (assoc_L (++)).
Qed.

(** The sorted indices are the keys of the map, each once, ascending. *)
Lemma sorted_rangeKeys m :
  StronglySorted Z.lt (bubbleSort (rangeKeys m)) ∧
  ∀ idx, idx ∈ bubbleSort (rangeKeys m) ↔ idx ∈ dom m.
Proof.
  split.
  - apply sorted_le_NoDup_lt; [apply bubbleSort_sorted|].
    rewrite bubbleSort_perm, rangeKeys_keys. apply NoDup_elements.
  - intros idx. by rewrite bubbleSort_perm, rangeKeys_keys, elem_of_elements.
Qed.

Lemma finalResponse_parts st :
  genai.Content.Parts (model.LLMResponse.Content (finalResponse json_Unmarshal rangeKeys st)) =
  genai.Content.Parts (aggregatedContent st) ++
  map (builderPart json_Unmarshal (toolCallsMap st)) (bubbleSort (rangeKeys (toolCallsMap st))).
Proof.
  unfold finalResponse. simpl. destruct (decide _) as [Hsize|Hsize].
  - apply foldl_appendBuilder.
  - assert (toolCallsMap st = ∅) as Hempty by (apply map_size_empty_inv; lia).
    assert (rangeKeys (toolCallsMap st) = []) as ->.
    { apply Permutation_nil_r. rewrite rangeKeys_keys, Hempty.
      by rewrite dom_empty_L, elements_empty. }
    change (bubbleSort []) with (@nil Z). simpl.
    by rewrite (right_id_L [] (++)).
Qed.

End FinalResponse.

(** ** The iteration order of the map does not show *)

Section OrderIndependence.

Variable json_Unmarshal : string → option (gmap string Go.any).
Variables rangeKeys rangeKeys' : gmap Z toolCallBuilder.t → list Z.
Hypothesis rangeKeys_keys : ∀ m, rangeKeys m ≡ₚ elements (dom m).
Hypothesis rangeKeys'_keys : ∀ m, rangeKeys' m ≡ₚ elements (dom m).

Lemma bubbleSort_rangeKeys m :
  bubbleSort (rangeKeys m) = bubbleSort (rangeKeys' m).
Proof.
  apply (StronglySorted_unique Z.le); [apply bubbleSort_sorted..|].
  by rewrite !bubbleSort_perm, rangeKeys_keys, rangeKeys'_keys.
Qed.

Lemma finalResponse_order_independent st :
  finalResponse json_Unmarshal rangeKeys st = finalResponse json_Unmarshal rangeKeys' st.
Proof. unfold finalResponse. by rewrite bubbleSort_rangeKeys. Qed.

Lemma generateStream_order_independent yield t :
  generateStream json_Unmarshal rangeKeys yield t =
  generateStream json_Unmarshal rangeKeys' yield t.
Proof.
  destruct t as [err|err|chunks last]; [done..|]. simpl.
  generalize initialState, (@nil emission).
  induction chunks as [|chunk rest IH]; intros st out; simpl.
  - by rewrite finalResponse_order_independent.
  - destruct (openai.ChatCompletionStreamResponse.Choices chunk) as [|choice ?]; [done|].
    destruct (handleDeltaContent st choice) as [st' [llmResp|]]; [|done].
    by destruct (yield _).
Qed.

End OrderIndependence.

(** ** The aggregator end to end *)

Section Aggregator.

Variable json_Unmarshal : string → option (gmap string Go.any).
Variable rangeKeys : gmap Z toolCallBuilder.t → list Z.
Variable yield : list emission → bool.

(** [range] over the map visits every key once, in some order. *)
Hypothesis rangeKeys_keys : ∀ m, rangeKeys m ≡ₚ elements (dom m).

(** The consumer ranges over the whole sequence. *)
Hypothesis yield_all : ∀ out, yield out = true.

Implicit Types (chunks : list openai.ChatCompletionStreamResponse.t) (last : Go.error).

Lemma filter_none {A} (P : A → Prop) `{∀ x, Decision (P x)} (l : list A) :
  Forall (λ x, ¬ P x) l → filter P l = [].
Proof.
  induction 1 as [|x l Hx _ IH]; [done|]. by rewrite filter_cons_False.
Qed.

Lemma filter_every {A} (P : A → Prop) `{∀ x, Decision (P x)} (l : list A) :
  Forall P l → filter P l = l.
Proof.
  induction 1 as [|x l Hx _ IH]; [done|]. by rewrite filter_cons_True, IH.
Qed.

Lemma generateStream_trace chunks last :
  Go.is_EOF last = true →
  generateStream json_Unmarshal rangeKeys yield (Opened chunks last) =
  partials chunks ++
  [(Some (finalResponse json_Unmarshal rangeKeys (foldl processChunk initialState chunks)),
    None)].
Proof.
  intros HEOF. unfold generateStream.
  rewrite recvLoop_all by done. unfold lastEmission. by rewrite HEOF.
Qed.

Lemma isFinal_partials chunks : filter isFinal (partials chunks) = [].
Proof.
  apply filter_none, Forall_forall. intros e Hin.
  apply list_elem_of_fmap in Hin as (text & -> & _). by intros ?.
Qed.

Lemma streamTexts_nonempty chunks : Forall (λ text, text ≠ "") (streamTexts chunks).
Proof.
  apply Forall_forall. intros text Hin.
  apply list_elem_of_omap in Hin as (chunk & _ & Htext).
  unfold chunkText in Htext. destruct (firstChoice chunk); [|done].
  destruct (decide _); by simplify_eq.
Qed.

Lemma finalParts chunks :
  genai.Content.Parts
    (model.LLMResponse.Content
       (finalResponse json_Unmarshal rangeKeys (foldl processChunk initialState chunks))) =
  map textPart (streamTexts chunks) ++
  map (builderPart json_Unmarshal (accumulate chunks))
    (bubbleSort (rangeKeys (accumulate chunks))).
Proof.
  rewrite finalResponse_parts by done.
  by rewrite foldl_processChunk_parts, foldl_processChunk_toolCallsMap.
Qed.

(** C1. For a stream of chunks that ends in end-of-stream, the aggregator
    yields exactly one final response, after the partial ones. It is not
    partial and completes the turn. Its parts are the aggregated text parts
    followed by one function-call part per accumulated tool-call index, the
    indices strictly ascending whatever order they arrived in. *)
Theorem generateStream_final_tool_calls_ascending chunks last :
  Go.is_EOF last = true →
  ∃ final indices,
    generateStream json_Unmarshal rangeKeys yield (Opened chunks last) =
      partials chunks ++ [(Some final, None)] ∧
    length (filter isFinal
              (generateStream json_Unmarshal rangeKeys yield (Opened chunks last))) = 1%nat ∧
    model.LLMResponse.Partial final = false ∧
    model.LLMResponse.TurnComplete final = true ∧
    StronglySorted Z.lt indices ∧
    (∀ idx, idx ∈ indices ↔ idx ∈ map toolCallIndex (streamFragments chunks)) ∧
    genai.Content.Parts (model.LLMResponse.Content final) =
      map textPart (streamTexts chunks) ++
      map (builderPart json_Unmarshal (accumulate chunks)) indices.
Proof.
  intros HEOF. eexists _, (bubbleSort (rangeKeys (accumulate chunks))).
  destruct (sorted_rangeKeys rangeKeys rangeKeys_keys (accumulate chunks)) as [Hsorted Hkeys].
  split; [by apply generateStream_trace|].
  split; [|split; [done|split; [done|split; [done|split]]]].
  - rewrite generateStream_trace by done.
    rewrite filter_app, isFinal_partials. done.
  - intros idx. by rewrite Hkeys, elem_of_dom_accumulate.
  - apply finalParts.
Qed.

(** C3. Every chunk whose first choice's delta has non-empty text makes the
    aggregator yield, at that point of the sequence, a partial response
    (partial, turn not complete) whose content is the single text part of
    that fragment; the one final response, which comes last, has all the
    fragments as its text parts, in arrival order. *)
Theorem generateStream_partial_text_then_full chunks last :
  Go.is_EOF last = true →
  ∃ final,
    generateStream json_Unmarshal rangeKeys yield (Opened chunks last) =
      map (λ text,
             (Some (model.LLMResponse.mk (genai.Content.mk "model" [textPart text])
                      None genai.FinishReason_zero true false), None))
          (streamTexts chunks) ++
      [(Some final, None)] ∧
    (∀ before chunk after text,
       chunks = before ++ chunk :: after →
       chunkText chunk = Some text →
       generateStream json_Unmarshal rangeKeys yield (Opened chunks last) =
         partials before ++ [(Some (partialResponse text), None)] ++
         partials after ++ [(Some final, None)]) ∧
    model.LLMResponse.Partial final = false ∧
    filter (λ part, genai.Part.Text part ≠ "")
      (genai.Content.Parts (model.LLMResponse.Content final)) =
      map textPart (streamTexts chunks).
Proof.
  intros HEOF. eexists. split; [by apply generateStream_trace|].
  split; [|split; [done|]].
  - intros before chunk after text -> Htext.
    rewrite generateStream_trace by done.
    unfold partials, streamTexts. rewrite omap_app. cbn [omap list_omap].
    rewrite Htext, map_app. simpl. by rewrite <- !(assoc_L (++)).
  - rewrite finalParts, filter_app.
    rewrite (filter_none _ (map (builderPart _ _) _)), (right_id_L [] (++)).
    + apply filter_every, Forall_forall. intros part Hin.
      apply list_elem_of_fmap in Hin as (text & -> & Hin).
      by eapply Forall_forall in Hin; [|apply streamTexts_nonempty].
    + apply Forall_forall. intros part Hin.
      apply list_elem_of_fmap in Hin as (idx & -> & _). by intros ?.
Qed.

(** C7. When no chunk's first choice carries a finish reason, the finish
    reason of the final response is Unspecified; otherwise it is the mapped
    value of the last one received. *)
Theorem generateStream_finish_reason_last_wins chunks last :
  Go.is_EOF last = true →
  ∃ final,
    list.last (generateStream json_Unmarshal rangeKeys yield (Opened chunks last)) =
      Some (Some final, None) ∧
    (streamFinishReasons chunks = [] →
     model.LLMResponse.FinishReason final = genai.FinishReasonUnspecified) ∧
    (∀ reason,
       list.last (streamFinishReasons chunks) = Some reason →
       model.LLMResponse.FinishReason final = convertFinishReason reason).
Proof.
  intros HEOF. eexists. rewrite generateStream_trace by done.
  split; [by rewrite last_snoc|].
  unfold finalResponse. cbn [model.LLMResponse.FinishReason].
  rewrite foldl_processChunk_finishReason.
  split.
  - by intros ->.
  - by intros reason ->.
Qed.

(** C10, as amended. The usage metadata of the final response comes from
    the last chunk that has at least one choice and reports usage: its
    prompt, completion and total counts converted to int32, and a cached
    count of zero; it is nil when no such chunk exists. The non-streaming
    converter is the one that reads the cached-token detail. *)
Theorem generateStream_usage_without_cached_tokens chunks last :
  Go.is_EOF last = true →
  ∃ final,
    list.last (generateStream json_Unmarshal rangeKeys yield (Opened chunks last)) =
      Some (Some final, None) ∧
    model.LLMResponse.UsageMetadata final =
      match list.last (streamUsages chunks) with
      | Some usage =>
        Some (genai.GenerateContentResponseUsageMetadata.mk
                (Go.int32 (openai.Usage.PromptTokens usage))
                (Go.int32 (openai.Usage.CompletionTokens usage))
                (Go.int32 (openai.Usage.TotalTokens usage))
                0)
      | None => None
      end ∧
    (∀ usageMetadata,
       model.LLMResponse.UsageMetadata final = Some usageMetadata →
       genai.GenerateContentResponseUsageMetadata.CachedContentTokenCount usageMetadata = 0) ∧
    (∀ usage details,
       0 < openai.Usage.TotalTokens usage →
       openai.Usage.PromptTokensDetails usage = Some details →
       genai.GenerateContentResponseUsageMetadata.CachedContentTokenCount <$>
         convertUsage usage =
       Some (Go.int32 (openai.PromptTokensDetails.CachedTokens details))).
Proof.
  intros HEOF. eexists. rewrite generateStream_trace by done.
  split; [by rewrite last_snoc|].
  unfold finalResponse. cbn [model.LLMResponse.UsageMetadata].
  rewrite foldl_processChunk_usageMetadata.
  split; [done|split].
  - intros um. destruct (list.last (streamUsages chunks)); by intros [= <-].
  - intros usage details Htotal Hdetails. unfold convertUsage.
    rewrite decide_True by done. simpl. by rewrite Hdetails.
Qed.

End Aggregator.

(** ** Claims on the accumulator and on the converters *)

(** C2. The update rule of the accumulator. A fragment touches only the
    entry of its index, index 0 when it has none. On that entry the id
    (the name) becomes the fragment's when that is non-empty and is kept
    otherwise, and the fragment's argument text is appended to the
    argument text. So, across any chunks, an entry stays, a non-empty id
    or name stays non-empty, and the earlier argument text is a prefix of
    the later one. *)
Theorem accumulator_invariant :
  (∀ m toolCall idx,
     applyToolCall m toolCall !! idx =
     if decide (idx = default 0 (openai.ToolCall.Index toolCall))
     then Some (updateBuilder (m !! idx) toolCall)
     else m !! idx) ∧
  (∀ builder toolCall,
     let fn := openai.ToolCall.Function toolCall in
     let builder' := updateBuilder (Some builder) toolCall in
     toolCallBuilder.id builder' =
       (if decide (openai.ToolCall.ID toolCall = "") then toolCallBuilder.id builder
        else openai.ToolCall.ID toolCall) ∧
     toolCallBuilder.name builder' =
       (if decide (openai.FunctionCall.Name fn = "") then toolCallBuilder.name builder
        else openai.FunctionCall.Name fn) ∧
     toolCallBuilder.args builder' =
       toolCallBuilder.args builder +:+ openai.FunctionCall.Arguments fn) ∧
  (∀ toolCall,
     let fn := openai.ToolCall.Function toolCall in
     updateBuilder None toolCall =
     toolCallBuilder.mk (openai.ToolCall.ID toolCall) (openai.FunctionCall.Name fn)
       (openai.FunctionCall.Arguments fn)) ∧
  (∀ st chunks idx builder,
     toolCallsMap st !! idx = Some builder →
     ∃ builder',
       toolCallsMap (foldl processChunk st chunks) !! idx = Some builder' ∧
       builderExtends builder builder').
Proof.
  split; [|split; [|split]].
  - intros m toolCall idx. rewrite applyToolCall_lookup. unfold toolCallIndex.
    by destruct (openai.ToolCall.Index toolCall).
  - intros builder toolCall fn builder'. subst fn builder'.
    rewrite updateBuilder_id, updateBuilder_name, updateBuilder_args. simpl.
    repeat split; repeat (destruct (decide _)); done.
  - intros toolCall fn. subst fn.
    assert (∀ b1 b2, toolCallBuilder.id b1 = toolCallBuilder.id b2 →
                     toolCallBuilder.name b1 = toolCallBuilder.name b2 →
                     toolCallBuilder.args b1 = toolCallBuilder.args b2 → b1 = b2) as Hext.
    { intros [] []; simpl; congruence. }
    apply Hext; simpl.
    + rewrite updateBuilder_id. simpl. destruct (decide _); [done|]. by apply dec_stable in n.
    + rewrite updateBuilder_name. simpl. destruct (decide _); [done|]. by apply dec_stable in n.
    + by rewrite updateBuilder_args.
  - intros st chunks idx builder Hb.
    rewrite foldl_processChunk_toolCallsMap.
    by apply foldl_applyToolCall_extends.
Qed.

Section Converters.

Variable json_Unmarshal : string → option (gmap string Go.any).
Variable json_Marshal : gmap string Go.any → res string.
Variable base64_EncodeToString : list Byte.byte → string.

Lemma foldl_appendToolCall toolCalls : ∀ parts,
  foldl (appendToolCall json_Unmarshal) parts toolCalls =
  parts ++ foldl (appendToolCall json_Unmarshal) [] toolCalls.
Proof.
  induction toolCalls as [|toolCall rest IH]; intros parts; simpl.
  - by rewrite (right_id_L [] (++)).
  - rewrite IH, (IH (appendToolCall _ [] _)). unfold appendToolCall.
    destruct (decide _); simpl; by rewrite ?(right_id_L [] (++)), <- ?(assoc_L (++)).
Qed.

Lemma foldl_appendToolCall_no_text toolCalls :
  Forall (λ part, genai.Part.Text part = "")
    (foldl (appendToolCall json_Unmarshal) [] toolCalls).
Proof.
  induction toolCalls as [|toolCall rest IH]; simpl; [done|].
  rewrite foldl_appendToolCall. apply Forall_app. split; [|done].
  unfold appendToolCall. destruct (decide _); simpl; by repeat constructor.
Qed.

(** C4. A content with exactly one part, of non-empty text, becomes a wire
    message whose scalar content is that text, with no multi-content and no
    tool calls; a wire response whose first choice's message has that
    content converts back to a content of role model with exactly one text
    part, of the same string. *)
Theorem single_text_round_trip role part :
  genai.Part.Text part ≠ "" →
  let content := genai.Content.mk role [part] in
  let message :=
    openai.ChatCompletionMessage.mk (convertRoleToOpenAI role) (genai.Part.Text part) [] [] "" in
  toOpenAIChatCompletionMessage json_Marshal base64_EncodeToString content =
    (message, None) ∧
  (∀ idx reason choices usage,
     ∃ resp,
       convertChatCompletionResponse json_Unmarshal
         (openai.ChatCompletionResponse.mk
            (openai.ChatCompletionChoice.mk idx message reason :: choices) usage) =
         (Some resp, None) ∧
       model.LLMResponse.Content resp =
         genai.Content.mk "model" [textPart (genai.Part.Text part)]) ∧
  (∀ idx message' reason choices usage,
     openai.ChatCompletionMessage.Content message' = genai.Part.Text part →
     ∃ resp,
       convertChatCompletionResponse json_Unmarshal
         (openai.ChatCompletionResponse.mk
            (openai.ChatCompletionChoice.mk idx message' reason :: choices) usage) =
         (Some resp, None) ∧
       genai.Content.Role (model.LLMResponse.Content resp) = "model" ∧
       filter (λ p, genai.Part.Text p ≠ "")
         (genai.Content.Parts (model.LLMResponse.Content resp)) =
         [textPart (genai.Part.Text part)]).
Proof.
  intros Htext content message. split; [|split].
  - unfold toOpenAIChatCompletionMessage, toOpenAIChatCompletionMessage_res.
    simpl. by rewrite bool_decide_eq_true_2.
  - intros idx reason choices usage. eexists. split; [done|].
    simpl. by rewrite decide_True.
  - intros idx message' reason choices usage Hcontent.
    eexists. split; [done|]. split; [done|]. simpl.
    rewrite Hcontent, decide_True by done. simpl.
    rewrite foldl_appendToolCall, filter_app.
    rewrite (filter_none _ (foldl _ [] _)).
    + simpl. by rewrite filter_cons_True.
    + eapply Forall_impl; [apply foldl_appendToolCall_no_text|].
      intros p Hp Hne. by apply Hne.
Qed.

Lemma foldl_appendToolCall_filter toolCalls :
  foldl (appendToolCall json_Unmarshal) [] toolCalls =
  map (λ toolCall,
         functionCallPart
           (genai.FunctionCall.mk
              (openai.ToolCall.ID toolCall)
              (openai.FunctionCall.Name (openai.ToolCall.Function toolCall))
              (parseJSONArgs json_Unmarshal
                 (openai.FunctionCall.Arguments (openai.ToolCall.Function toolCall)))))
      (filter (λ toolCall, openai.ToolCall.Type_ toolCall = openai.ToolTypeFunction)
         toolCalls).
Proof.
  induction toolCalls as [|toolCall rest IH]; [done|].
  simpl. rewrite foldl_appendToolCall, IH. unfold appendToolCall.
  destruct (decide _) as [Hfn|Hfn].
  - by rewrite filter_cons_True.
  - by rewrite filter_cons_False.
Qed.

(** C5. A response without choices converts to the no-choices error and
    a nil response. A response with a first choice converts without
    error, to a response that completes the turn and is built from the
    first choice: its content has role model and holds the text of that
    choice's message, when not empty, followed by one function-call part
    per tool call of type function of that message, in order; its finish
    reason is the converted finish reason of that choice. The choices
    after the first are not read: replacing them changes nothing. *)
Theorem convertChatCompletionResponse_choices :
  (∀ usage,
     convertChatCompletionResponse json_Unmarshal
       (openai.ChatCompletionResponse.mk [] usage) =
     (None, Some Go.ErrNoChoicesInResponse)) ∧
  (∀ choice choices usage,
     let message := openai.ChatCompletionChoice.Message choice in
     ∃ resp,
       convertChatCompletionResponse json_Unmarshal
         (openai.ChatCompletionResponse.mk (choice :: choices) usage) =
         (Some resp, None) ∧
       model.LLMResponse.TurnComplete resp = true ∧
       model.LLMResponse.Partial resp = false ∧
       model.LLMResponse.Content resp =
         genai.Content.mk "model"
           ((if decide (openai.ChatCompletionMessage.Content message = "") then []
             else [textPart (openai.ChatCompletionMessage.Content message)]) ++
            map (λ toolCall,
                   functionCallPart
                     (genai.FunctionCall.mk
                        (openai.ToolCall.ID toolCall)
                        (openai.FunctionCall.Name (openai.ToolCall.Function toolCall))
                        (parseJSONArgs json_Unmarshal
                           (openai.FunctionCall.Arguments
                              (openai.ToolCall.Function toolCall)))))
              (filter (λ toolCall, openai.ToolCall.Type_ toolCall = openai.ToolTypeFunction)
                 (openai.ChatCompletionMessage.ToolCalls message))) ∧
       model.LLMResponse.FinishReason resp =
         convertFinishReason (openai.ChatCompletionChoice.FinishReason choice) ∧
       model.LLMResponse.UsageMetadata resp = convertUsage usage ∧
       convertChatCompletionResponse json_Unmarshal
         (openai.ChatCompletionResponse.mk [choice] usage) =
         (Some resp, None)) ∧
  (∀ choice choices choices' usage,
     convertChatCompletionResponse json_Unmarshal
       (openai.ChatCompletionResponse.mk (choice :: choices) usage) =
     convertChatCompletionResponse json_Unmarshal
       (openai.ChatCompletionResponse.mk (choice :: choices') usage)).
Proof.
  split; [done|]. split; [|done].
  intros choice choices usage message. eexists. split; [reflexivity|].
  split; [done|]. split; [done|]. split; [|done].
  cbn [model.LLMResponse.Content]. f_equal.
  rewrite foldl_appendToolCall, foldl_appendToolCall_filter. fold message.
  f_equal. by destruct (decide (_ ≠ "")), (decide (_ = "")).
Qed.

End Converters.

(** ** Parsing arguments is best effort *)

Section BestEffort.

Variable json_Unmarshal : string → option (gmap string Go.any).

Lemma Forall_prefix {A} (P : A → Prop) (l1 l2 : list A) :
  l1 `prefix_of` l2 → Forall P l2 → Forall P l1.
Proof. intros [k ->] H. by apply Forall_app in H as [? _]. Qed.

(** C6. Parsing tool-call arguments gives the empty mapping for the empty
    string and for every string the JSON decoder rejects, and the decoded
    mapping for every string it accepts. The enclosing conversions go
    through whatever the argument strings are: a response with a first
    choice converts without error, each function tool call giving a part
    with the parsed arguments, and a stream that ends in end-of-stream
    yields no error and ends, for a consumer that goes on, in its final
    response. *)
Theorem parseJSONArgs_best_effort :
  parseJSONArgs json_Unmarshal "" = ∅ ∧
  (∀ argsJSON,
     json_Unmarshal argsJSON = None → parseJSONArgs json_Unmarshal argsJSON = ∅) ∧
  (∀ argsJSON args,
     argsJSON ≠ "" → json_Unmarshal argsJSON = Some args →
     parseJSONArgs json_Unmarshal argsJSON = args) ∧
  (∀ choice choices usage,
     let message := openai.ChatCompletionChoice.Message choice in
     ∃ resp,
       convertChatCompletionResponse json_Unmarshal
         (openai.ChatCompletionResponse.mk (choice :: choices) usage) =
         (Some resp, None) ∧
       filter (λ part, genai.Part.Text part = "")
         (genai.Content.Parts (model.LLMResponse.Content resp)) =
         map (λ toolCall,
                functionCallPart
                  (genai.FunctionCall.mk
                     (openai.ToolCall.ID toolCall)
                     (openai.FunctionCall.Name (openai.ToolCall.Function toolCall))
                     (parseJSONArgs json_Unmarshal
                        (openai.FunctionCall.Arguments
                           (openai.ToolCall.Function toolCall)))))
           (filter (λ toolCall, openai.ToolCall.Type_ toolCall = openai.ToolTypeFunction)
              (openai.ChatCompletionMessage.ToolCalls message))) ∧
  (∀ rangeKeys yield chunks last,
     Go.is_EOF last = true →
     Forall (λ e : emission, e.2 = None)
       (generateStream json_Unmarshal rangeKeys yield (Opened chunks last))) ∧
  (∀ rangeKeys yield chunks last,
     (∀ out, yield out = true) →
     Go.is_EOF last = true →
     ∃ final,
       list.last (generateStream json_Unmarshal rangeKeys yield (Opened chunks last)) =
       Some (Some final, None)).
Proof.
  split; [done|]. split; [|split; [|split; [|split]]].
  - intros argsJSON Herr. unfold parseJSONArgs. rewrite Herr. by destruct (decide _).
  - intros argsJSON args Hne Hok. unfold parseJSONArgs.
    by rewrite decide_False, Hok.
  - intros choice choices usage message. eexists. split; [done|]. simpl.
    rewrite foldl_appendToolCall, filter_app, foldl_appendToolCall_filter.
    rewrite (filter_none _ (if decide _ then _ else _)).
    + apply filter_every, Forall_forall. intros part Hin.
      by apply list_elem_of_fmap in Hin as (toolCall & -> & _).
    + destruct (decide _) as [Hc|Hc]; simpl; by repeat constructor.
  - intros rangeKeys yield chunks last HEOF. unfold generateStream.
    eapply Forall_prefix; [apply recvLoop_prefix|].
    simpl. apply Forall_app. split.
    + apply Forall_forall. intros e Hin.
      by apply list_elem_of_fmap in Hin as (text & -> & _).
    + unfold lastEmission. rewrite HEOF. by repeat constructor.
  - intros rangeKeys yield chunks last Hy HEOF. unfold generateStream.
    rewrite recvLoop_all by done. unfold lastEmission. rewrite HEOF.
    eexists. simpl. by rewrite last_snoc.
Qed.

End BestEffort.

(** ** Tools *)

Section Tools.

Lemma convertDeclarations_Some decls : ∀ openaiTools,
  convertDeclarations openaiTools (map Some decls) =
  Returns (match decls with
           | [] => openaiTools
           | _ => Some (Go.elems openaiTools ++ map wireTool decls)
           end).
Proof.
  induction decls as [|funcDecl rest IH]; intros openaiTools; [done|].
  cbn [map convertDeclarations]. rewrite IH. fold (wireTool funcDecl).
  destruct rest as [|? ?]; destruct openaiTools as [l|]; simpl;
    by rewrite <- ?(assoc_L (++)).
Qed.

Lemma convertToolsFrom_Some genaiTools : ∀ openaiTools decls,
  toolDeclarations genaiTools = map Some decls →
  convertToolsFrom openaiTools genaiTools =
  Returns (match decls with
           | [] => openaiTools
           | _ => Some (Go.elems openaiTools ++ map wireTool decls)
           end).
Proof.
  induction genaiTools as [|[tool|] rest IH]; intros openaiTools decls Hdecls.
  - by destruct decls.
  - unfold toolDeclarations in Hdecls. cbn [map concat] in Hdecls.
    symmetry in Hdecls. apply fmap_app_inv in Hdecls as (d1 & d2 & H1 & H2 & ->).
    cbn [convertToolsFrom]. rewrite H1, convertDeclarations_Some.
    rewrite (IH _ d2) by done.
    destruct d1 as [|? ?], d2 as [|? ?]; simpl; try done.
    + by rewrite (right_id_L [] (++)).
    + by rewrite map_app, <- !(assoc_L (++)).
  - cbn [convertToolsFrom]. by apply IH.
Qed.


End Tools.

(** ** Schemas *)

Section Schemas.

Implicit Types (schema : genai.Schema.t) (p : option genai.Schema.t)
  (props : gmap string (option genai.Schema.t)).

(** The body of [convertSchema] on a non-nil schema. *)
Lemma convertSchemaNode_unfold schema :
  convertSchemaNode schema =
  let result : gmap string Go.any := ∅ in
  let result :=
    match genai.Schema.Type_ schema with
    | genai.TypeUnspecified => result
    | t => <["type" := Go.Str (convertSchemaType t)]> result
    end in
  let result :=
    if decide (genai.Schema.Description schema ≠ "") then
      <["description" := Go.Str (genai.Schema.Description schema)]> result
    else result in
  do result <-
    (if decide (0 < size (genai.Schema.Properties schema))%nat then
       do properties <-
         map_fold
           (fun propName propSchema (acc : res (gmap string Go.any)) =>
              do properties <- acc in
              do convertedProp <- convertSchema_res propSchema in
              ret (<[propName := Go.Map convertedProp]> properties))
           (ret ∅) (genai.Schema.Properties schema) in
       ret (<["properties" := Go.Map properties]> result)
     else ret result) in
  let result :=
    if decide (0 < length (genai.Schema.Required schema))%nat then
      <["required" := Go.Strs (genai.Schema.Required schema)]> result
    else result in
  do result <-
    match genai.Schema.Items schema with
    | Some s =>
      do items <- convertSchemaNode s in
      ret (<["items" := Go.Map items]> result)
    | None => ret result
    end in
  let result :=
    if decide (0 < length (genai.Schema.Enum schema))%nat then
      <["enum" := Go.Strs (genai.Schema.Enum schema)]> result
    else result in
  ret result.
Proof. by destruct schema. Qed.

Lemma schemaSize_unfold schema :
  schemaSize schema =
  S (map_fold
       (λ _ p acc, (match p with Some s => schemaSize s | None => 0 end + acc)%nat)
       0%nat (genai.Schema.Properties schema) +
     match genai.Schema.Items schema with Some s => schemaSize s | None => 0 end).
Proof. by destruct schema. Qed.

Lemma schemaSize_property schema k s :
  genai.Schema.Properties schema !! k = Some (Some s) →
  (schemaSize s < schemaSize schema)%nat.
Proof.
  rewrite (schemaSize_unfold schema).
  generalize (genai.Schema.Properties schema). intros props Hk.
  enough (schemaSize s ≤
          map_fold (λ _ p acc,
                      (match p with Some s => schemaSize s | None => 0 end + acc)%nat)
            0%nat props)%nat by lia.
  revert Hk. apply (map_fold_weak_ind (λ r m, m !! k = Some (Some s) → schemaSize s ≤ r)%nat).
  - by rewrite lookup_empty.
  - intros i x m r Hi IH. rewrite lookup_insert. destruct (decide (i = k)).
    + intros [= ->]. lia.
    + intros H. specialize (IH H). lia.
Qed.

Lemma schemaSize_items schema s :
  genai.Schema.Items schema = Some s → (schemaSize s < schemaSize schema)%nat.
Proof. rewrite (schemaSize_unfold schema). intros ->. lia. Qed.

(** The loop over the properties, when every recursive call returns. *)
Lemma convertProperties props :
  (∀ k p, props !! k = Some p → ∃ r, convertSchema_res p = inl r) →
  map_fold
    (fun propName propSchema (acc : res (gmap string Go.any)) =>
       do properties <- acc in
       do convertedProp <- convertSchema_res propSchema in
       ret (<[propName := Go.Map convertedProp]> properties))
    (ret ∅) props =
  ret ((λ p, Go.Map (schemaMap p)) <$> props).
Proof.
  apply (map_fold_weak_ind
           (λ r m, (∀ k p, m !! k = Some p → ∃ r, convertSchema_res p = inl r) →
                   r = ret ((λ p, Go.Map (schemaMap p)) <$> m))).
  - intros _. by rewrite fmap_empty.
  - intros i x m r Hi IH Hall. rewrite IH.
    + destruct (Hall i x) as [rx Hx]; [by rewrite lookup_insert_eq|].
      simpl. rewrite Hx. simpl. rewrite fmap_insert.
      unfold schemaMap, convertSchema. by rewrite Hx.
    + intros k p Hk. apply (Hall k). rewrite lookup_insert_ne; [done|].
      intros ->. congruence.
Qed.

(** [convertSchema] returns a mapping and a nil error. *)
Lemma convertSchemaNode_returns n : ∀ schema,
  (schemaSize schema < n)%nat → ∃ r, convertSchemaNode schema = inl r.
Proof.
  induction n as [|n IH]; intros schema Hn; [lia|].
  assert (∀ p, (∀ s, p = Some s → (schemaSize s < n)%nat) →
               ∃ r, convertSchema_res p = inl r) as IHp.
  { intros [s|] Hs; [apply IH; by apply Hs|by eexists]. }
  rewrite convertSchemaNode_unfold. cbv zeta.
  rewrite convertProperties.
  - destruct (genai.Schema.Items schema) as [s|] eqn:Hitems.
    + destruct (IH s) as [r ->].
      { apply schemaSize_items in Hitems. lia. }
      destruct (decide (0 < size _)%nat); simpl; by eexists.
    + destruct (decide (0 < size _)%nat); simpl; by eexists.
  - intros k p Hk. apply IHp. intros s ->.
    apply schemaSize_property in Hk. lia.
Qed.

Lemma convertSchema_res_returns p : convertSchema_res p = inl (schemaMap p).
Proof.
  unfold schemaMap, convertSchema.
  destruct p as [s|]; [|done]. simpl.
  by destruct (convertSchemaNode_returns (S (schemaSize s)) s) as [r ->]; [lia|].
Qed.

Lemma convertSchemaNode_value schema :
  convertSchemaNode schema = inl (schemaMap (Some schema)).
Proof. apply (convertSchema_res_returns (Some schema)). Qed.

(** The mapping of a non-nil schema, key by key. *)
Lemma schemaMap_Some schema :
  schemaMap (Some schema) =
  let result : gmap string Go.any := ∅ in
  let result :=
    match genai.Schema.Type_ schema with
    | genai.TypeUnspecified => result
    | t => <["type" := Go.Str (convertSchemaType t)]> result
    end in
  let result :=
    if decide (genai.Schema.Description schema ≠ "") then
      <["description" := Go.Str (genai.Schema.Description schema)]> result
    else result in
  let result :=
    if decide (0 < size (genai.Schema.Properties schema))%nat then
      <["properties" :=
          Go.Map ((λ p, Go.Map (schemaMap p)) <$> genai.Schema.Properties schema)]> result
    else result in
  let result :=
    if decide (0 < length (genai.Schema.Required schema))%nat then
      <["required" := Go.Strs (genai.Schema.Required schema)]> result
    else result in
  let result :=
    match genai.Schema.Items schema with
    | Some s => <["items" := Go.Map (schemaMap (Some s))]> result
    | None => result
    end in
  let result :=
    if decide (0 < length (genai.Schema.Enum schema))%nat then
      <["enum" := Go.Strs (genai.Schema.Enum schema)]> result
    else result in
  result.
Proof.
  pose proof (convertSchemaNode_value schema) as Hres.
  rewrite convertSchemaNode_unfold in Hres. cbv zeta in Hres.
  rewrite convertProperties in Hres
    by (intros; eexists; apply convertSchema_res_returns).
  cbv zeta.
  destruct (genai.Schema.Items schema) as [items|];
    [rewrite (convertSchemaNode_value items) in Hres|];
    destruct (decide (0 < size (genai.Schema.Properties schema))%nat);
    simpl in Hres; by injection Hres as <-.
Qed.

Lemma lookup_if_insert_ne {P : Prop} `{!Decision P}
    (key key' : string) (v : Go.any) (m : gmap string Go.any) :
  key' ≠ key →
  (if decide P then <[key' := v]> m else m) !! key = m !! key.
Proof. intros Hne. destruct (decide P); [by rewrite lookup_insert_ne|done]. Qed.

Lemma lookup_if_insert_eq {P : Prop} `{!Decision P}
    (key : string) (v : Go.any) (m : gmap string Go.any) :
  (if decide P then <[key := v]> m else m) !! key =
  if decide P then Some v else m !! key.
Proof. destruct (decide P); [by rewrite lookup_insert_eq|done]. Qed.

Lemma lookup_if_insert_is_Some {P : Prop} `{!Decision P}
    (key key' : string) (v : Go.any) (m : gmap string Go.any) :
  is_Some ((if decide P then <[key' := v]> m else m) !! key) →
  key = key' ∨ is_Some (m !! key).
Proof.
  destruct (decide P); [|by right].
  rewrite lookup_insert. destruct (decide (key' = key)); [by left|by right].
Qed.

Lemma lookup_type_ne schema (key : string) (m : gmap string Go.any) :
  "type" ≠ key →
  match genai.Schema.Type_ schema with
  | genai.TypeUnspecified => m
  | t => <["type" := Go.Str (convertSchemaType t)]> m
  end !! key = m !! key.
Proof.
  intros Hne. destruct (genai.Schema.Type_ schema); by rewrite ?lookup_insert_ne.
Qed.

Lemma lookup_type_is_Some schema (key : string) (m : gmap string Go.any) :
  is_Some (match genai.Schema.Type_ schema with
           | genai.TypeUnspecified => m
           | t => <["type" := Go.Str (convertSchemaType t)]> m
           end !! key) →
  key = "type" ∨ is_Some (m !! key).
Proof.
  destruct (genai.Schema.Type_ schema); try (by right);
    (rewrite lookup_insert; destruct (decide ("type" = key)); [by left|by right]).
Qed.

Lemma lookup_items_ne (items : option genai.Schema.t) (key : string)
    (m : gmap string Go.any) :
  "items" ≠ key →
  match items with
  | Some s => <["items" := Go.Map (schemaMap (Some s))]> m
  | None => m
  end !! key = m !! key.
Proof. intros Hne. destruct items; by rewrite ?lookup_insert_ne. Qed.

Lemma lookup_items_is_Some (items : option genai.Schema.t) (key : string)
    (m : gmap string Go.any) :
  is_Some (match items with
           | Some s => <["items" := Go.Map (schemaMap (Some s))]> m
           | None => m
           end !! key) →
  key = "items" ∨ is_Some (m !! key).
Proof.
  destruct items; [|by right].
  rewrite lookup_insert. destruct (decide ("items" = key)); [by left|by right].
Qed.

(** C9, as amended. A nil schema maps to [{"type": "object", "properties":
    {}}]. A non-nil schema maps, without error, to a mapping with at most
    the six keys below: "type", absent when the type is Unspecified and
    otherwise the lowercase name of the type with "string" for a type that
    is not known; "description", "required" and "enum", copied when they
    are not empty; "properties", each property converted, when there is
    one; "items", converted, when present. *)
Theorem convertSchema_mapping :
  convertSchema None =
    (<["type" := Go.Str "object"]> (<["properties" := Go.Map ∅]> ∅), None) ∧
  (∀ schema,
     let result := schemaMap (Some schema) in
     convertSchema (Some schema) = (result, None) ∧
     result !! "type" =
       match genai.Schema.Type_ schema with
       | genai.TypeUnspecified => None
       | genai.TypeString => Some (Go.Str "string")
       | genai.TypeNumber => Some (Go.Str "number")
       | genai.TypeInteger => Some (Go.Str "integer")
       | genai.TypeBoolean => Some (Go.Str "boolean")
       | genai.TypeArray => Some (Go.Str "array")
       | genai.TypeObject => Some (Go.Str "object")
       | genai.TypeUnknown _ => Some (Go.Str "string")
       end ∧
     result !! "description" =
       (if decide (genai.Schema.Description schema = "") then None
        else Some (Go.Str (genai.Schema.Description schema))) ∧
     result !! "properties" =
       (if decide (genai.Schema.Properties schema = ∅) then None
        else Some (Go.Map ((λ p, Go.Map (schemaMap p)) <$> genai.Schema.Properties schema))) ∧
     result !! "required" =
       (if decide (genai.Schema.Required schema = []) then None
        else Some (Go.Strs (genai.Schema.Required schema))) ∧
     result !! "items" =
       (λ s, Go.Map (schemaMap (Some s))) <$> genai.Schema.Items schema ∧
     result !! "enum" =
       (if decide (genai.Schema.Enum schema = []) then None
        else Some (Go.Strs (genai.Schema.Enum schema))) ∧
     (∀ key, is_Some (result !! key) →
             key ∈ ["type"; "description"; "properties"; "required"; "items"; "enum"])) ∧
  convertSchemaType genai.TypeUnspecified = "string" ∧
  (∀ tag, convertSchemaType (genai.TypeUnknown tag) = "string").
Proof.
  split; [done|]. split; [|done].
  intros schema result.
  assert (∀ l : list string, (0 < length l)%nat ↔ l ≠ []) as Hlen.
  { intros [|? ?]; simpl; split; try done; lia. }
  assert ((0 < size (genai.Schema.Properties schema))%nat ↔
          genai.Schema.Properties schema ≠ ∅) as Hsize.
  { rewrite <- map_size_non_empty_iff. lia. }
  split.
  { unfold convertSchema. by rewrite convertSchema_res_returns. }
  subst result. rewrite schemaMap_Some. cbv zeta.
  repeat split.
  - rewrite !lookup_if_insert_ne, lookup_items_ne, !lookup_if_insert_ne by done.
    by destruct (genai.Schema.Type_ schema).
  - rewrite !lookup_if_insert_ne, lookup_items_ne, !lookup_if_insert_ne by done.
    rewrite lookup_if_insert_eq, lookup_type_ne, lookup_empty by done.
    destruct (decide (_ ≠ "")) as [Hd|Hd].
    + by rewrite decide_False.
    + apply dec_stable in Hd. by rewrite decide_True.
  - rewrite !lookup_if_insert_ne, lookup_items_ne, !lookup_if_insert_ne by done.
    rewrite lookup_if_insert_eq, lookup_if_insert_ne, lookup_type_ne, lookup_empty by done.
    destruct (decide (0 < _)%nat) as [Hp|Hp]; rewrite Hsize in Hp.
    + by rewrite decide_False.
    + apply dec_stable in Hp. by rewrite decide_True.
  - rewrite !lookup_if_insert_ne, lookup_items_ne by done.
    rewrite lookup_if_insert_eq, !lookup_if_insert_ne, lookup_type_ne, lookup_empty by done.
    destruct (decide (0 < _)%nat) as [Hr|Hr]; rewrite Hlen in Hr.
    + by rewrite decide_False.
    + apply dec_stable in Hr. by rewrite decide_True.
  - rewrite !lookup_if_insert_ne by done.
    destruct (genai.Schema.Items schema) as [items|]; simpl.
    + by rewrite lookup_insert_eq.
    + by rewrite !lookup_if_insert_ne, lookup_type_ne, lookup_empty.
  - rewrite lookup_if_insert_eq, lookup_items_ne, !lookup_if_insert_ne,
      lookup_type_ne, lookup_empty by done.
    destruct (decide (0 < _)%nat) as [He|He]; rewrite Hlen in He.
    + by rewrite decide_False.
    + apply dec_stable in He. by rewrite decide_True.
  - intros key Hkey.
    apply lookup_if_insert_is_Some in Hkey as [->|Hkey]; [rewrite !elem_of_cons; auto 10|].
    apply lookup_items_is_Some in Hkey as [->|Hkey]; [rewrite !elem_of_cons; auto 10|].
    apply lookup_if_insert_is_Some in Hkey as [->|Hkey]; [rewrite !elem_of_cons; auto 10|].
    apply lookup_if_insert_is_Some in Hkey as [->|Hkey]; [rewrite !elem_of_cons; auto 10|].
    apply lookup_if_insert_is_Some in Hkey as [->|Hkey]; [rewrite !elem_of_cons; auto 10|].
    apply lookup_type_is_Some in Hkey as [->|Hkey]; [rewrite !elem_of_cons; auto 10|].
    rewrite lookup_empty in Hkey. by destruct Hkey.
Qed.

End Schemas.

(** * Examples, witnesses and counterexamples *)

Example parseJSONArgs_invalid : parseJSONArgs json.Unmarshal "{invalid}" = ∅.
Proof. by vm_compute. Qed.

Example parseJSONArgs_object :
  parseJSONArgs json.Unmarshal (Examples.argsHead +:+ Examples.argsTail) =
  {[ "location" := Go.Str "Paris" ]}.
Proof. by vm_compute. Qed.

Example convertRoleToOpenAI_table :
  map convertRoleToOpenAI ["user"; "model"; "system"; "tool"; ""] =
  ["user"; "assistant"; "system"; "user"; "user"].
Proof. reflexivity. Qed.

Example convertFinishReason_table :
  map convertFinishReason
    ["stop"; "length"; "tool_calls"; "function_call"; "content_filter"; "null"; ""] =
  [genai.FinishReasonStop; genai.FinishReasonMaxTokens; genai.FinishReasonStop;
   genai.FinishReasonStop; genai.FinishReasonSafety; genai.FinishReasonUnspecified;
   genai.FinishReasonUnspecified].
Proof. reflexivity. Qed.

Example bubbleSort_example : bubbleSort [3; 1; 2; 0; 5; 4] = [0; 1; 2; 3; 4; 5].
Proof. reflexivity. Qed.

Example int32_wraps : Go.int32 (2 ^ 31) = - 2 ^ 31 ∧ Go.int32 12 = 12.
Proof. by vm_compute. Qed.

(** The stream of [Examples.chunks] yields two partial responses and the
    final one: both texts, then the call of index 0, then that of index 1,
    whose malformed arguments became the empty mapping. *)
Example generateStream_example :
  Examples.run =
  [ (Some (partialResponse "Hel"), None);
    (Some (partialResponse "lo"), None);
    (Some (model.LLMResponse.mk
             (genai.Content.mk "model"
                [textPart "Hel"; textPart "lo";
                 functionCallPart Examples.weatherCall;
                 functionCallPart Examples.timeCall])
             (Some (genai.GenerateContentResponseUsageMetadata.mk 7 5 12 0))
             genai.FinishReasonStop false true), None) ].
Proof. by vm_compute. Qed.

(** The scenario of the specification: the final response is the only
    element, and its only part is the call with the arguments parsed. *)
Example generateStream_weather_call :
  generateStream json.Unmarshal Examples.rangeKeys Examples.consumeAll
    (Opened Examples.weatherChunks Go.EOF) =
  [ (Some (model.LLMResponse.mk
             (genai.Content.mk "model" [functionCallPart Examples.weatherCall])
             None genai.FinishReasonUnspecified false true), None) ].
Proof. by vm_compute. Qed.

(** A consumer that stops at the first element receives nothing more. *)
Example generateStream_cancelled :
  generateStream json.Unmarshal Examples.rangeKeys (λ _, false)
    (Opened Examples.chunks Go.EOF) =
  [(Some (partialResponse "Hel"), None)].
Proof. by vm_compute. Qed.

(** A transport error other than end-of-stream ends the sequence. *)
Example generateStream_transport_error :
  generateStream json.Unmarshal Examples.rangeKeys Examples.consumeAll
    (Opened (take 1 Examples.chunks) (Go.Other "connection reset")) =
  [(Some (partialResponse "Hel"), None); (None, Some (Go.Other "connection reset"))].
Proof. by vm_compute. Qed.

Example convertTools_nil_declaration_panics :
  convertTools (Some [Some (genai.Tool.mk [None])]) = Panics "funcDecl is nil".
Proof. reflexivity. Qed.

(** Witness of C1. *)
Lemma generateStream_final_tool_calls_ascending_witness :
  ∃ final indices,
    Examples.run = partials Examples.chunks ++ [(Some final, None)] ∧
    length (filter isFinal Examples.run) = 1%nat ∧
    model.LLMResponse.Partial final = false ∧
    model.LLMResponse.TurnComplete final = true ∧
    StronglySorted Z.lt indices ∧
    (∀ idx, idx ∈ indices ↔ idx ∈ map toolCallIndex (streamFragments Examples.chunks)) ∧
    genai.Content.Parts (model.LLMResponse.Content final) =
      map textPart (streamTexts Examples.chunks) ++
      map (builderPart json.Unmarshal (accumulate Examples.chunks)) indices.
Proof.
  apply (generateStream_final_tool_calls_ascending
           json.Unmarshal Examples.rangeKeys Examples.consumeAll).
  - intros m. reflexivity.
  - intros out. reflexivity.
  - reflexivity.
Defined.

(** Witness of C3. *)
Lemma generateStream_partial_text_then_full_witness :
  ∃ final,
    Examples.run =
      map (λ text,
             (Some (model.LLMResponse.mk (genai.Content.mk "model" [textPart text])
                      None genai.FinishReason_zero true false), None))
          (streamTexts Examples.chunks) ++
      [(Some final, None)] ∧
    (∀ before chunk after text,
       Examples.chunks = before ++ chunk :: after →
       chunkText chunk = Some text →
       Examples.run =
         partials before ++ [(Some (partialResponse text), None)] ++
         partials after ++ [(Some final, None)]) ∧
    model.LLMResponse.Partial final = false ∧
    filter (λ part, genai.Part.Text part ≠ "")
      (genai.Content.Parts (model.LLMResponse.Content final)) =
      map textPart (streamTexts Examples.chunks).
Proof.
  apply (generateStream_partial_text_then_full
           json.Unmarshal Examples.rangeKeys Examples.consumeAll).
  - intros m. reflexivity.
  - intros out. reflexivity.
  - reflexivity.
Defined.

(** Witness of C7. *)
Lemma generateStream_finish_reason_last_wins_witness :
  ∃ final,
    last Examples.run = Some (Some final, None) ∧
    (streamFinishReasons Examples.chunks = [] →
     model.LLMResponse.FinishReason final = genai.FinishReasonUnspecified) ∧
    (∀ reason,
       last (streamFinishReasons Examples.chunks) = Some reason →
       model.LLMResponse.FinishReason final = convertFinishReason reason).
Proof.
  apply (generateStream_finish_reason_last_wins
           json.Unmarshal Examples.rangeKeys Examples.consumeAll).
  - intros out. reflexivity.
  - reflexivity.
Defined.

(** Witness of C10 as amended. *)
Lemma generateStream_usage_without_cached_tokens_witness :
  ∃ final,
    last Examples.run = Some (Some final, None) ∧
    model.LLMResponse.UsageMetadata final =
      match last (streamUsages Examples.chunks) with
      | Some usage =>
        Some (genai.GenerateContentResponseUsageMetadata.mk
                (Go.int32 (openai.Usage.PromptTokens usage))
                (Go.int32 (openai.Usage.CompletionTokens usage))
                (Go.int32 (openai.Usage.TotalTokens usage))
                0)
      | None => None
      end ∧
    (∀ usageMetadata,
       model.LLMResponse.UsageMetadata final = Some usageMetadata →
       genai.GenerateContentResponseUsageMetadata.CachedContentTokenCount usageMetadata = 0) ∧
    (∀ usage details,
       0 < openai.Usage.TotalTokens usage →
       openai.Usage.PromptTokensDetails usage = Some details →
       genai.GenerateContentResponseUsageMetadata.CachedContentTokenCount <$>
         convertUsage usage =
       Some (Go.int32 (openai.PromptTokensDetails.CachedTokens details))).
Proof.
  apply (generateStream_usage_without_cached_tokens
           json.Unmarshal Examples.rangeKeys Examples.consumeAll).
  - intros out. reflexivity.
  - reflexivity.
Defined.

(** Counterexample to C10 as stated. The last chunk reports the usage
    (10, 20, 30) and has no choices: the loop skips it, and the final
    response keeps the usage (7, 5, 12) of an earlier chunk. *)
Lemma usage_of_chunk_without_choices_is_skipped :
  last (reportedUsages Examples.chunks) = Some (openai.Usage.mk 10 20 30 None) ∧
  ∃ final,
    last Examples.run = Some (Some final, None) ∧
    model.LLMResponse.UsageMetadata final =
      Some (genai.GenerateContentResponseUsageMetadata.mk 7 5 12 0) ∧
    model.LLMResponse.UsageMetadata final ≠
      Some (genai.GenerateContentResponseUsageMetadata.mk 10 20 30 0).
Proof.
  split; [reflexivity|]. eexists. split; [by vm_compute|]. split; [done|done].
Qed.

(** Witness of C4. *)
Lemma single_text_round_trip_witness :
  let part := textPart "What is the weather in Paris?" in
  let content := genai.Content.mk "user" [part] in
  let message :=
    openai.ChatCompletionMessage.mk "user" "What is the weather in Paris?" [] [] "" in
  toOpenAIChatCompletionMessage (λ _, inl "{}") (λ _, "") content = (message, None) ∧
  (∀ idx reason choices usage,
     ∃ resp,
       convertChatCompletionResponse json.Unmarshal
         (openai.ChatCompletionResponse.mk
            (openai.ChatCompletionChoice.mk idx message reason :: choices) usage) =
         (Some resp, None) ∧
       model.LLMResponse.Content resp =
         genai.Content.mk "model" [textPart "What is the weather in Paris?"]) ∧
  (∀ idx message' reason choices usage,
     openai.ChatCompletionMessage.Content message' = "What is the weather in Paris?" →
     ∃ resp,
       convertChatCompletionResponse json.Unmarshal
         (openai.ChatCompletionResponse.mk
            (openai.ChatCompletionChoice.mk idx message' reason :: choices) usage) =
         (Some resp, None) ∧
       genai.Content.Role (model.LLMResponse.Content resp) = "model" ∧
       filter (λ p, genai.Part.Text p ≠ "")
         (genai.Content.Parts (model.LLMResponse.Content resp)) =
         [textPart "What is the weather in Paris?"]).
Proof.
  apply (single_text_round_trip json.Unmarshal (λ _, inl "{}") (λ _, "") "user"
           (textPart "What is the weather in Paris?")).
  discriminate.
Defined.


(** Counterexample to C9 as stated. A schema of Unspecified type gets no
    "type" entry, so not the entry "string". *)
Lemma convertSchema_unspecified_type_has_no_entry :
  let schema := genai.Schema.mk genai.TypeUnspecified "" ∅ [] None [] in
  convertSchema (Some schema) = (∅, None) ∧
  (convertSchema (Some schema)).1 !! "type" = None ∧
  (convertSchema (Some schema)).1 !! "type" ≠ Some (Go.Str "string").
Proof. by vm_compute. Qed.

(** The schema of the weather tool. *)
Example convertSchema_example :
  convertSchema (Some Examples.weatherSchema) =
  ({[ "type" := Go.Str "object";
      "properties" :=
        Go.Map {[ "location" :=
                    Go.Map {[ "type" := Go.Str "string";
                              "description" := Go.Str "The city and state" ]};
                  "unit" :=
                    Go.Map {[ "type" := Go.Str "string";
                              "enum" := Go.Strs ["celsius"; "fahrenheit"] ]} ]};
      "required" := Go.Strs ["location"] ]}, None).
Proof. by vm_compute. Qed.

(** Witness of C9 as amended: the entries of the weather schema. *)
Lemma convertSchema_mapping_witness :
  let result := schemaMap (Some Examples.weatherSchema) in
  result !! "type" = Some (Go.Str "object") ∧
  result !! "description" = None ∧
  result !! "required" = Some (Go.Strs ["location"]) ∧
  result !! "items" = None ∧
  "required" ∈ ["type"; "description"; "properties"; "required"; "items"; "enum"].
Proof.
  destruct (proj1 (proj2 convertSchema_mapping) Examples.weatherSchema)
    as (_ & Htype & Hdescription & _ & Hrequired & Hitems & _ & Hkeys).
  split; [exact Htype|]. split; [exact Hdescription|].
  split; [exact Hrequired|]. split; [exact Hitems|].
  apply Hkeys. rewrite Hrequired. by eexists.
Defined.


(** Witness of C6: the malformed argument text of the tests. *)
Lemma parseJSONArgs_best_effort_witness :
  parseJSONArgs json.Unmarshal "{invalid}" = ∅.
Proof.
  apply (proj1 (proj2 (parseJSONArgs_best_effort json.Unmarshal))).
  reflexivity.
Defined.

(** Witness of C2: the builder of index 0 across the last two chunks of
    the sample stream. *)
Lemma accumulator_invariant_witness :
  let builder := toolCallBuilder.mk "call_123" "get_weather" Examples.argsHead in
  let st := mkStreamState (genai.Content.mk "model" []) genai.FinishReason_zero None
              {[ 0 := builder ]} in
  ∃ builder',
    toolCallsMap (foldl processChunk st (drop 2 Examples.chunks)) !! 0 = Some builder' ∧
    builderExtends builder builder'.
Proof.
  intros builder st.
  apply (proj2 (proj2 (proj2 accumulator_invariant)) st (drop 2 Examples.chunks) 0 builder).
  reflexivity.
Defined.

(** * Further properties of the adapter *)

(** ** Tables, sorting and joining *)

(** X1. [convertRoleToOpenAI] answers "user", "assistant" or "system" and
    never "tool"; "assistant" stands for the role model only, "system" for
    system only, and every other role, known or not, becomes "user". *)
Theorem convertRoleToOpenAI_image (role : string) :
  (convertRoleToOpenAI role = "assistant" ↔ role = "model") ∧
  (convertRoleToOpenAI role = "system" ↔ role = "system") ∧
  (convertRoleToOpenAI role = "user" ↔ role ≠ "model" ∧ role ≠ "system") ∧
  convertRoleToOpenAI role ≠ "tool".
Proof.
  assert (role ≠ "model" → role ≠ "system" → convertRoleToOpenAI role = "user") as Hdefault.
  { intros Hm Hs. unfold convertRoleToOpenAI.
    repeat case_match; try reflexivity; subst; done. }
  destruct (decide (role = "model")) as [->|Hm];
    [vm_compute; intuition (try discriminate; congruence)|].
  destruct (decide (role = "system")) as [->|Hs];
    [vm_compute; intuition (try discriminate; congruence)|].
  rewrite (Hdefault Hm Hs). intuition (try discriminate; congruence).
Qed.

(** X2. [convertFinishReason] maps every string outside its five known
    reasons to Unspecified; Stop stands for "stop", "tool_calls" and
    "function_call", MaxTokens for "length", Safety for "content_filter". *)
Theorem convertFinishReason_image (reason : string) :
  (convertFinishReason reason = genai.FinishReasonStop ↔
     reason = "stop" ∨ reason = "tool_calls" ∨ reason = "function_call") ∧
  (convertFinishReason reason = genai.FinishReasonMaxTokens ↔ reason = "length") ∧
  (convertFinishReason reason = genai.FinishReasonSafety ↔ reason = "content_filter") ∧
  (convertFinishReason reason = genai.FinishReasonUnspecified ↔
     reason ≠ "stop" ∧ reason ≠ "length" ∧ reason ≠ "tool_calls" ∧
     reason ≠ "function_call" ∧ reason ≠ "content_filter").
Proof.
  assert (reason ≠ "stop" → reason ≠ "length" → reason ≠ "tool_calls" →
          reason ≠ "function_call" → reason ≠ "content_filter" →
          convertFinishReason reason = genai.FinishReasonUnspecified) as Hdefault.
  { intros H1 H2 H3 H4 H5. unfold convertFinishReason.
    repeat case_match; try reflexivity; subst; done. }
  destruct (decide (reason = "stop")) as [->|H1];
    [vm_compute; intuition (try discriminate; congruence)|].
  destruct (decide (reason = "length")) as [->|H2];
    [vm_compute; intuition (try discriminate; congruence)|].
  destruct (decide (reason = "tool_calls")) as [->|H3];
    [vm_compute; intuition (try discriminate; congruence)|].
  destruct (decide (reason = "function_call")) as [->|H4];
    [vm_compute; intuition (try discriminate; congruence)|].
  destruct (decide (reason = "content_filter")) as [->|H5];
    [vm_compute; intuition (try discriminate; congruence)|].
  rewrite (Hdefault H1 H2 H3 H4 H5). intuition (try discriminate; congruence).
Qed.

(** X3. The bubble sort of the indices returns, for every list, duplicates
    included, the ascending arrangement of its elements; sorting a sorted
    list changes nothing. *)
Theorem bubbleSort_sorts (indices : list Z) :
  StronglySorted Z.le (bubbleSort indices) ∧
  bubbleSort indices ≡ₚ indices ∧
  length (bubbleSort indices) = length indices ∧
  (StronglySorted Z.le indices → bubbleSort indices = indices).
Proof.
  split; [apply bubbleSort_sorted|]. split; [apply bubbleSort_perm|].
  split; [by rewrite bubbleSort_perm|].
  intros Hs. apply (StronglySorted_unique Z.le); [apply bubbleSort_sorted|done|].
  apply bubbleSort_perm.
Qed.

Lemma joinLoop_from (texts : list string) : ∀ (result : string) (i : nat),
  joinLoop result (S i) texts =
  match texts with
  | [] => result
  | _ => result +:+ newline +:+ String.concat newline texts
  end.
Proof.
  induction texts as [|text rest IH]; intros result i; [done|].
  cbn [joinLoop]. rewrite decide_True by lia. rewrite IH.
  destruct rest as [|text' rest'].
  - simpl. by rewrite string_app_assoc.
  - change (String.concat newline (text :: text' :: rest'))
      with (text +:+ newline +:+ String.concat newline (text' :: rest')).
    by rewrite !string_app_assoc.
Qed.

Lemma joinTexts_String_concat (texts : list string) :
  joinTexts texts = String.concat newline texts.
Proof.
  unfold joinTexts. destruct texts as [|text [|text' rest]]; [done..|].
  rewrite !decide_False by (simpl; lia).
  change (joinLoop "" 0 (text :: text' :: rest))
    with (joinLoop text 1 (text' :: rest)).
  apply (joinLoop_from (text' :: rest) text 0).
Qed.

(** X4. [joinTexts] puts one newline between consecutive texts and none
    before the first or after the last: it is the concatenation with
    separator, whatever the length of the list, also for texts that are
    empty or contain newlines themselves. *)
Theorem joinTexts_concat (texts : list string) :
  joinTexts texts = String.concat newline texts ∧
  (∀ text rest, rest ≠ [] →
     joinTexts (text :: rest) = text +:+ newline +:+ joinTexts rest).
Proof.
  split; [apply joinTexts_String_concat|].
  intros text rest Hrest. rewrite !joinTexts_String_concat. by destruct rest.
Qed.

Lemma collectTexts_filter (parts : list genai.Part.t) :
  collectTexts parts = filter (λ s, s ≠ "") (map genai.Part.Text parts).
Proof.
  unfold collectTexts.
  enough (∀ texts,
            foldl (λ texts part,
                     if decide (genai.Part.Text part ≠ "")
                     then texts ++ [genai.Part.Text part] else texts) texts parts =
            texts ++ filter (λ s, s ≠ "") (map genai.Part.Text parts)) as H by apply H.
  induction parts as [|part rest IH]; intros texts.
  - change (texts = texts ++ []). by rewrite (right_id_L [] (++)).
  - cbn [foldl map]. rewrite IH. destruct (decide _) as [Ht|Ht].
    + by rewrite filter_cons_True, <- (assoc_L (++)).
    + by rewrite filter_cons_False.
Qed.

(** X5. The text of a system instruction: the empty string for a nil
    content, and otherwise the non-empty texts of the parts, in order,
    joined by newlines; parts without text, and every field of a part
    other than its text, leave no trace. *)
Theorem extractTextFromContent_texts :
  extractTextFromContent None = "" ∧
  (∀ content,
     extractTextFromContent (Some content) =
     String.concat newline
       (filter (λ s, s ≠ "") (map genai.Part.Text (genai.Content.Parts content)))) ∧
  (∀ role role' parts parts',
     map genai.Part.Text parts = map genai.Part.Text parts' →
     extractTextFromContent (Some (genai.Content.mk role parts)) =
     extractTextFromContent (Some (genai.Content.mk role' parts'))).
Proof.
  split; [done|]. split.
  - intros content. unfold extractTextFromContent.
    by rewrite joinTexts_String_concat, collectTexts_filter.
  - intros role role' parts parts' Htexts. unfold extractTextFromContent. simpl.
    by rewrite !collectTexts_filter, Htexts.
Qed.

(** ** More on the streaming aggregator *)

Section BuilderClosedForm.

Implicit Types (fragments : list openai.ToolCall.t) (m : gmap Z toolCallBuilder.t).

(** The builder of one index sees the fragments of that index only. *)
Lemma foldl_applyToolCall_at fragments : ∀ m idx,
  foldl applyToolCall m fragments !! idx =
  foldl (λ found toolCall, Some (updateBuilder found toolCall))
    (m !! idx) (fragmentsAt idx fragments).
Proof.
  unfold fragmentsAt.
  induction fragments as [|toolCall rest IH]; intros m idx; [done|].
  cbn [foldl]. rewrite IH, applyToolCall_lookup.
  destruct (decide (idx = toolCallIndex toolCall)) as [->|Hne].
  - by rewrite filter_cons_True.
  - by rewrite filter_cons_False.
Qed.

Lemma lastNonEmpty_snoc (l : list string) (s : string) :
  lastNonEmpty (l ++ [s]) = if decide (s ≠ "") then s else lastNonEmpty l.
Proof.
  unfold lastNonEmpty. rewrite filter_app.
  destruct (decide (s ≠ "")) as [Hs|Hs].
  - rewrite filter_cons_True, filter_nil by done. by rewrite last_snoc.
  - rewrite filter_cons_False, filter_nil by done. by rewrite (right_id_L [] (++)).
Qed.

Lemma concatStrings_snoc (l : list string) (s : string) :
  concatStrings (l ++ [s]) = concatStrings l +:+ s.
Proof.
  unfold concatStrings. induction l as [|x l IH]; simpl.
  - by rewrite string_app_nil_r.
  - by rewrite IH, string_app_assoc.
Qed.

Lemma foldl_updateBuilder fragments :
  let found := foldl (λ found toolCall, Some (updateBuilder found toolCall))
                 None fragments in
  (found = None ↔ fragments = []) ∧
  from_option toolCallBuilder.id "" found =
    lastNonEmpty (map openai.ToolCall.ID fragments) ∧
  from_option toolCallBuilder.name "" found =
    lastNonEmpty (map (λ toolCall, openai.FunctionCall.Name (openai.ToolCall.Function toolCall))
                    fragments) ∧
  from_option toolCallBuilder.args "" found =
    concatStrings
      (map (λ toolCall, openai.FunctionCall.Arguments (openai.ToolCall.Function toolCall))
         fragments).
Proof.
  induction fragments as [|toolCall rest IH] using rev_ind; [done|].
  rewrite foldl_app. cbn [foldl]. cbv zeta in *.
  destruct IH as (_ & Hid & Hname & Hargs).
  rewrite !map_app. cbn [map]. rewrite !lastNonEmpty_snoc, concatStrings_snoc.
  cbn [from_option].
  rewrite updateBuilder_id, updateBuilder_name, updateBuilder_args, Hid, Hname, Hargs.
  split; [|done]. split; [done|]. intros H. by destruct rest.
Qed.

End BuilderClosedForm.

(** X6. What the accumulator holds for an index at the end of the stream:
    nothing when no fragment had the index; otherwise the last non-empty
    id and the last non-empty name among the fragments of that index (the
    empty string when there is none) and their argument texts one after
    the other, in arrival order. The function-call part of the index has
    that id, that name and the parsed concatenation as arguments. *)
Theorem accumulate_closed_form
    (json_Unmarshal : string → option (gmap string Go.any))
    (chunks : list openai.ChatCompletionStreamResponse.t) (idx : Z) :
  let fragments := fragmentsAt idx (streamFragments chunks) in
  let id := lastNonEmpty (map openai.ToolCall.ID fragments) in
  let name :=
    lastNonEmpty
      (map (λ toolCall, openai.FunctionCall.Name (openai.ToolCall.Function toolCall))
         fragments) in
  let args :=
    concatStrings
      (map (λ toolCall, openai.FunctionCall.Arguments (openai.ToolCall.Function toolCall))
         fragments) in
  (fragments = [] → accumulate chunks !! idx = None) ∧
  (fragments ≠ [] →
   accumulate chunks !! idx = Some (toolCallBuilder.mk id name args) ∧
   builderPart json_Unmarshal (accumulate chunks) idx =
     functionCallPart
       (genai.FunctionCall.mk id name (parseJSONArgs json_Unmarshal args))).
Proof.
  intros fragments id name args. subst id name args. unfold builderPart, accumulate.
  rewrite foldl_applyToolCall_at, lookup_empty. fold fragments.
  destruct (foldl_updateBuilder fragments) as (Hnone & Hid & Hname & Hargs).
  split.
  - intros Hnil. by apply Hnone.
  - intros Hne.
    destruct (foldl _ None fragments) as [[id name args]|] eqn:Hfound.
    + simpl in *. by rewrite Hid, Hname, Hargs.
    + by destruct Hne; apply Hnone.
Qed.

Section StreamEdges.

Variable json_Unmarshal : string → option (gmap string Go.any).
Variable rangeKeys : gmap Z toolCallBuilder.t → list Z.
Variable yield : list emission → bool.

Implicit Types (chunks : list openai.ChatCompletionStreamResponse.t) (last : Go.error).

Lemma recvLoop_normalized chunks : ∀ last st out,
  recvLoop json_Unmarshal rangeKeys yield chunks last st out =
  recvLoop json_Unmarshal rangeKeys yield
    (map firstChoiceOnly (filter hasChoice chunks)) last st out.
Proof.
  induction chunks as [|chunk rest IH]; intros last st out; [done|].
  unfold hasChoice in *.
  destruct (openai.ChatCompletionStreamResponse.Choices chunk) as [|choice choices] eqn:Hc.
  - rewrite filter_cons_False by (by rewrite Hc; intros ?).
    cbn [recvLoop]. rewrite Hc. apply IH.
  - rewrite filter_cons_True by (by rewrite Hc).
    cbn [map recvLoop]. rewrite Hc. unfold firstChoiceOnly at 1 2. rewrite Hc. simpl.
    destruct (handleDeltaContent st choice) as [st' [llmResp|]].
    + destruct (yield _); [|done]. apply IH.
    + apply IH.
Qed.

(** X7. Chunks without choices, and the choices of a chunk after its
    first, are not read: dropping them from the stream changes nothing of
    what any consumer receives. *)
Theorem generateStream_reads_first_choices chunks last :
  generateStream json_Unmarshal rangeKeys yield (Opened chunks last) =
  generateStream json_Unmarshal rangeKeys yield
    (Opened (map firstChoiceOnly (filter hasChoice chunks)) last).
Proof. apply recvLoop_normalized. Qed.




(** X8. A transport error other than end-of-stream ends the sequence: a
    consumer that goes on receives the partial responses of the chunks
    read so far, then the error with a nil response, and no final
    response. *)
Theorem generateStream_transport_error_ends chunks last :
  (∀ out, yield out = true) →
  Go.is_EOF last = false →
  generateStream json_Unmarshal rangeKeys yield (Opened chunks last) =
    partials chunks ++ [(None, Some last)] ∧
  filter isFinal (generateStream json_Unmarshal rangeKeys yield (Opened chunks last)) = [].
Proof.
  intros Hy HEOF. unfold generateStream.
  rewrite recvLoop_all by done. unfold lastEmission. rewrite HEOF. simpl.
  split; [done|]. rewrite filter_app, isFinal_partials. done.
Qed.

Lemma applyToolCall_retyped ty m toolCall :
  applyToolCall m (retypedToolCall ty toolCall) = applyToolCall m toolCall.
Proof. by destruct toolCall. Qed.

Lemma foldl_applyToolCall_retyped ty fragments : ∀ m,
  foldl applyToolCall m (map (retypedToolCall ty) fragments) =
  foldl applyToolCall m fragments.
Proof.
  induction fragments as [|toolCall rest IH]; intros m; [done|].
  cbn [map foldl]. by rewrite applyToolCall_retyped, IH.
Qed.

Lemma handleRest_retyped ty st chunk choice :
  handleRest st (retypedChunk ty chunk) (retypedChoice ty choice) =
  handleRest st chunk choice.
Proof. unfold handleRest. simpl. by rewrite foldl_applyToolCall_retyped. Qed.

Lemma recvLoop_retyped ty chunks : ∀ last st out,
  recvLoop json_Unmarshal rangeKeys yield (map (retypedChunk ty) chunks) last st out =
  recvLoop json_Unmarshal rangeKeys yield chunks last st out.
Proof.
  induction chunks as [|chunk rest IH]; intros last st out; [done|].
  cbn [map recvLoop].
  change (openai.ChatCompletionStreamResponse.Choices (retypedChunk ty chunk))
    with (map (retypedChoice ty) (openai.ChatCompletionStreamResponse.Choices chunk)).
  destruct (openai.ChatCompletionStreamResponse.Choices chunk) as [|choice others];
    cbn [map].
  - apply IH.
  - change (handleDeltaContent st (retypedChoice ty choice))
      with (handleDeltaContent st choice).
    destruct (handleDeltaContent st choice) as [st' [llmResp|]];
      rewrite handleRest_retyped.
    + destruct (yield _); [apply IH|done].
    + apply IH.
Qed.

(** X25. The streaming path does not look at the type of a tool-call
    fragment: whatever type the fragments claim, function or not, the
    aggregator yields the same sequence. (The non-streaming converter
    keeps the tool calls of type function only.) *)
Theorem generateStream_ignores_fragment_type (ty : string) chunks last :
  generateStream json_Unmarshal rangeKeys yield (Opened (map (retypedChunk ty) chunks) last) =
  generateStream json_Unmarshal rangeKeys yield (Opened chunks last).
Proof. apply recvLoop_retyped. Qed.

End StreamEdges.

(** X10. The order in which Go ranges over the accumulator does not show:
    two enumerations of the keys give the same sequence, for every
    transport and every consumer. *)
Theorem generateStream_any_map_order
    (json_Unmarshal : string → option (gmap string Go.any))
    (rangeKeys rangeKeys' : gmap Z toolCallBuilder.t → list Z)
    (yield : list emission → bool) (t : transport) :
  (∀ m, rangeKeys m ≡ₚ elements (dom m)) →
  (∀ m, rangeKeys' m ≡ₚ elements (dom m)) →
  generateStream json_Unmarshal rangeKeys yield t =
  generateStream json_Unmarshal rangeKeys' yield t.
Proof. intros H H'. by apply generateStream_order_independent. Qed.

(** ** More on the conversion of a content to a wire message *)

Section GeneralPath.

Variable json_Marshal : gmap string Go.any → res string.
Variable base64_EncodeToString : list Byte.byte → string.

Implicit Types (part : genai.Part.t) (parts : list genai.Part.t) (b : messageBuilder).

Lemma messagePart_marshals n b part :
  marshals json_Marshal part →
  (n = 1%nat → genai.Part.Text part = "") →
  messagePart json_Marshal base64_EncodeToString n b part =
  inl (mkMessageBuilder
         (partResponse json_Marshal (openaiMsg b) part)
         (textContent b)
         (toolCalls b ++ option_list (partToolCall json_Marshal part))
         (multiContent b ++ partEntries base64_EncodeToString part)).
Proof.
  intros [Hcall Hresp] Hn.
  unfold messagePart, partResponse, partToolCall, partEntries, marshalled.
  destruct part as [text fc fr blob fd], b as [m0 tc0 calls0 multi0]; simpl in *.
  assert (∀ x, fc = Some x →
               ∃ t, json_Marshal (genai.FunctionCall.Args x) = inl t) as Hc by auto.
  assert (∀ x, fr = Some x →
               ∃ t, json_Marshal (genai.FunctionResponse.Response x) = inl t) as Hr by auto.
  clear Hcall Hresp.
  destruct (decide (text ≠ "")) as [Ht|Ht].
  - destruct (decide (n = 1%nat)) as [->|Hn1]; [by destruct Ht; apply Hn|].
    destruct fc as [x|]; [destruct (Hc x eq_refl) as [t ->]|];
      (destruct fr as [y|]; [destruct (Hr y eq_refl) as [t' ->]|]);
      destruct blob; simpl;
      rewrite ?(right_id_L [] (++)), <- ?(assoc_L (++)); reflexivity.
  - destruct fc as [x|]; [destruct (Hc x eq_refl) as [t ->]|];
      (destruct fr as [y|]; [destruct (Hr y eq_refl) as [t' ->]|]);
      destruct blob; simpl;
      rewrite ?(right_id_L [] (++)), <- ?(assoc_L (++)); reflexivity.
Qed.

Lemma messageParts_marshals n parts : ∀ b,
  Forall (marshals json_Marshal) parts →
  (n = 1%nat → Forall (λ part, genai.Part.Text part = "") parts) →
  messageParts json_Marshal base64_EncodeToString n b parts =
  inl (mkMessageBuilder
         (foldl (partResponse json_Marshal) (openaiMsg b) parts)
         (textContent b)
         (toolCalls b ++ omap (partToolCall json_Marshal) parts)
         (multiContent b ++ concat (map (partEntries base64_EncodeToString) parts))).
Proof.
  induction parts as [|part rest IH]; intros b Hm Hn.
  - simpl. rewrite !(right_id_L [] (++)). by destruct b.
  - apply Forall_cons in Hm as [Hpart Hrest].
    cbn [messageParts].
    rewrite messagePart_marshals;
      [|done|intros Hn1; by apply Hn, Forall_cons in Hn1 as [? _]].
    cbn [bind]. rewrite IH; [|done|intros Hn1; by apply Hn, Forall_cons in Hn1 as [_ ?]].
    cbn [openaiMsg textContent toolCalls multiContent foldl map concat omap list_omap].
    rewrite <- !(assoc_L (++)). by destruct (partToolCall json_Marshal part).
Qed.

Lemma singleTextPart_false parts :
  singleTextPart parts = false →
  length parts = 1%nat → Forall (λ part, genai.Part.Text part = "") parts.
Proof.
  destruct parts as [|part [|? ?]]; try done. simpl. intros Hs _.
  repeat constructor. rewrite bool_decide_eq_false in Hs. by apply dec_stable.
Qed.

(** The role, the scalar content and the tool-call id after the loop. *)
Lemma foldl_partResponse parts : ∀ m,
  let m' := foldl (partResponse json_Marshal) m parts in
  openai.ChatCompletionMessage.MultiContent m' = openai.ChatCompletionMessage.MultiContent m ∧
  openai.ChatCompletionMessage.ToolCalls m' = openai.ChatCompletionMessage.ToolCalls m ∧
  match last (omap genai.Part.FunctionResponse parts) with
  | Some fr =>
    openai.ChatCompletionMessage.Role m' = "tool" ∧
    openai.ChatCompletionMessage.Content m' =
      marshalled json_Marshal (genai.FunctionResponse.Response fr) ∧
    openai.ChatCompletionMessage.ToolCallID m' = genai.FunctionResponse.ID fr
  | None =>
    openai.ChatCompletionMessage.Role m' = openai.ChatCompletionMessage.Role m ∧
    openai.ChatCompletionMessage.Content m' = openai.ChatCompletionMessage.Content m ∧
    openai.ChatCompletionMessage.ToolCallID m' = openai.ChatCompletionMessage.ToolCallID m
  end.
Proof.
  induction parts as [|part rest IH] using rev_ind; intros m m'; subst m'; [done|].
  rewrite foldl_app, omap_app. cbn [foldl omap list_omap].
  specialize (IH m). cbv zeta in IH. destruct IH as (Hmulti & Hcalls & IH).
  remember (foldl (partResponse json_Marshal) m rest) as mr eqn:Hmr. clear Hmr.
  unfold partResponse.
  destruct (genai.Part.FunctionResponse part) as [fr|]; simpl.
  - by rewrite last_snoc.
  - by rewrite (right_id_L [] (++)).
Qed.

(** The general path as a whole, when every encoding succeeds. *)
Lemma toOpenAIChatCompletionMessage_general role parts :
  singleTextPart parts = false →
  Forall (marshals json_Marshal) parts →
  ∃ m,
    toOpenAIChatCompletionMessage json_Marshal base64_EncodeToString
      (genai.Content.mk role parts) = (m, None) ∧
    openai.ChatCompletionMessage.MultiContent m =
      concat (map (partEntries base64_EncodeToString) parts) ∧
    openai.ChatCompletionMessage.ToolCalls m = omap (partToolCall json_Marshal) parts ∧
    match last (omap genai.Part.FunctionResponse parts) with
    | Some fr =>
      openai.ChatCompletionMessage.Role m = "tool" ∧
      openai.ChatCompletionMessage.Content m =
        marshalled json_Marshal (genai.FunctionResponse.Response fr) ∧
      openai.ChatCompletionMessage.ToolCallID m = genai.FunctionResponse.ID fr
    | None =>
      openai.ChatCompletionMessage.Role m = convertRoleToOpenAI role ∧
      openai.ChatCompletionMessage.Content m = "" ∧
      openai.ChatCompletionMessage.ToolCallID m = ""
    end.
Proof.
  intros Hslow Hm.
  unfold toOpenAIChatCompletionMessage, toOpenAIChatCompletionMessage_res.
  cbn [genai.Content.Parts genai.Content.Role]. rewrite Hslow.
  rewrite messageParts_marshals by (done || by apply singleTextPart_false).
  cbn [bind openaiMsg textContent toolCalls multiContent app].
  set (m0 := openai.ChatCompletionMessage.mk (convertRoleToOpenAI role) "" [] [] "").
  destruct (foldl_partResponse parts m0) as (Hmulti & Hcalls & Hlast).
  set (m1 := foldl (partResponse json_Marshal) m0 parts) in *.
  eexists. split; [reflexivity|].
  destruct (decide ("" ≠ "")) as [Hne|_]; [done|].
  revert Hlast.
  destruct (last (omap genai.Part.FunctionResponse parts)) as [fr|];
    intros (Hrole & Hcontent & Hid);
    destruct (concat (map (partEntries base64_EncodeToString) parts)) as [|e es];
    destruct (omap (partToolCall json_Marshal) parts) as [|tc tcs];
    simpl; by rewrite ?Hmulti, ?Hcalls, ?Hrole, ?Hcontent, ?Hid.
Qed.

(** X11. On the general path (anything but a single part with text), when
    the JSON encodings succeed, the multi-content of the message is, part
    by part and in order, a text entry for a non-empty text and then an
    image entry with the data URL of the inline data; the tool calls are,
    in order, one call of type function per function-call part, with its
    id, its name and its encoded arguments. *)
Theorem toOpenAIChatCompletionMessage_entries_and_calls role parts :
  singleTextPart parts = false →
  Forall (marshals json_Marshal) parts →
  ∃ m,
    toOpenAIChatCompletionMessage json_Marshal base64_EncodeToString
      (genai.Content.mk role parts) = (m, None) ∧
    openai.ChatCompletionMessage.MultiContent m =
      concat (map (partEntries base64_EncodeToString) parts) ∧
    openai.ChatCompletionMessage.ToolCalls m = omap (partToolCall json_Marshal) parts.
Proof.
  intros Hslow Hm.
  destruct (toOpenAIChatCompletionMessage_general role parts Hslow Hm)
    as (m & Heq & Hmulti & Hcalls & _).
  by exists m.
Qed.

(** X12. On the general path, when the JSON encodings succeed: with a
    function response among the parts the message has role "tool", the
    encoded response as scalar content and the id of the response as
    tool-call id, the last response winning; without one the role is the
    converted role of the content and the scalar content stays empty,
    also when parts carry text. *)
Theorem toOpenAIChatCompletionMessage_function_response role parts :
  singleTextPart parts = false →
  Forall (marshals json_Marshal) parts →
  ∃ m,
    toOpenAIChatCompletionMessage json_Marshal base64_EncodeToString
      (genai.Content.mk role parts) = (m, None) ∧
    match last (omap genai.Part.FunctionResponse parts) with
    | Some fr =>
      openai.ChatCompletionMessage.Role m = "tool" ∧
      openai.ChatCompletionMessage.Content m =
        marshalled json_Marshal (genai.FunctionResponse.Response fr) ∧
      openai.ChatCompletionMessage.ToolCallID m = genai.FunctionResponse.ID fr
    | None =>
      openai.ChatCompletionMessage.Role m = convertRoleToOpenAI role ∧
      openai.ChatCompletionMessage.Content m = "" ∧
      openai.ChatCompletionMessage.ToolCallID m = ""
    end.
Proof.
  intros Hslow Hm.
  destruct (toOpenAIChatCompletionMessage_general role parts Hslow Hm)
    as (m & Heq & _ & _ & Hlast).
  by exists m.
Qed.


Lemma messagePart_fails_or_marshals n b part :
  (marshals json_Marshal part ∧
   ∃ b', messagePart json_Marshal base64_EncodeToString n b part = inl b') ∨
  (¬ marshals json_Marshal part ∧
   ∃ msg err m,
     messagePart json_Marshal base64_EncodeToString n b part = inr (Go.Wrap msg err) ∧
     json_Marshal m = inr err ∧
     (msg = "failed to marshal function args" ∨
      msg = "failed to marshal function response")).
Proof.
  destruct part as [text fc fr blob fd]. unfold messagePart, marshals. simpl.
  destruct fc as [x|];
    [destruct (json_Marshal (genai.FunctionCall.Args x)) as [t|e] eqn:Hx|];
    try (right; split;
         [intros [Hc _]; destruct (Hc x eq_refl) as [? ?]; congruence
         |exists "failed to marshal function args", e, (genai.FunctionCall.Args x);
          simpl; auto]);
    (destruct fr as [y|];
     [destruct (json_Marshal (genai.FunctionResponse.Response y)) as [t'|e'] eqn:Hy|]);
    try (right; split;
         [intros [_ Hr]; destruct (Hr y eq_refl) as [? ?]; congruence
         |exists "failed to marshal function response", e',
            (genai.FunctionResponse.Response y); simpl; auto]);
    left; (split; [split; intros ? [= <-]; eauto|simpl; eauto]).
Qed.

Lemma messageParts_fails n parts : ∀ b,
  ¬ Forall (marshals json_Marshal) parts →
  ∃ msg err m,
    messageParts json_Marshal base64_EncodeToString n b parts = inr (Go.Wrap msg err) ∧
    json_Marshal m = inr err ∧
    (msg = "failed to marshal function args" ∨
     msg = "failed to marshal function response").
Proof.
  induction parts as [|part rest IH]; intros b Hnot; [by destruct Hnot|].
  cbn [messageParts].
  destruct (messagePart_fails_or_marshals n b part)
    as [[Hpart [b' ->]]|[_ (msg & err & m & -> & Herr & Hmsg)]].
  - cbn [bind]. apply IH. intros Hrest. apply Hnot. by constructor.
  - by exists msg, err, m.
Qed.

(** X13. On the general path, as soon as one JSON encoding fails (the
    arguments of a function call or the payload of a function response),
    the conversion returns the zero message and an error that wraps the
    encoder's error under one of the two messages of the function; no
    part of the message built so far is returned. *)
Theorem toOpenAIChatCompletionMessage_marshal_failure role parts :
  singleTextPart parts = false →
  ¬ Forall (marshals json_Marshal) parts →
  ∃ msg err m,
    toOpenAIChatCompletionMessage json_Marshal base64_EncodeToString
      (genai.Content.mk role parts) =
      (openai.ChatCompletionMessage.zero, Some (Go.Wrap msg err)) ∧
    json_Marshal m = inr err ∧
    (msg = "failed to marshal function args" ∨
     msg = "failed to marshal function response").
Proof.
  intros Hslow Hnot.
  unfold toOpenAIChatCompletionMessage, toOpenAIChatCompletionMessage_res.
  cbn [genai.Content.Parts genai.Content.Role]. rewrite Hslow.
  destruct (messageParts_fails (length parts) parts
              (mkMessageBuilder
                 (openai.ChatCompletionMessage.mk (convertRoleToOpenAI role) "" [] [] "")
                 "" [] []) Hnot)
    as (msg & err & m & -> & Herr & Hmsg).
  by exists msg, err, m.
Qed.

Lemma messageParts_withoutFileData n parts : ∀ b,
  messageParts json_Marshal base64_EncodeToString n b (map withoutFileData parts) =
  messageParts json_Marshal base64_EncodeToString n b parts.
Proof.
  induction parts as [|part rest IH]; intros b; [done|].
  cbn [map messageParts].
  assert (messagePart json_Marshal base64_EncodeToString n b (withoutFileData part) =
          messagePart json_Marshal base64_EncodeToString n b part) as -> by by destruct part.
  destruct (messagePart _ _ n b part); [apply IH|done].
Qed.

(** X14. File references are dropped without a trace: removing the file
    data of every part of a content changes neither the message nor the
    error that the conversion returns. *)
Theorem toOpenAIChatCompletionMessage_ignores_file_data role parts :
  toOpenAIChatCompletionMessage json_Marshal base64_EncodeToString
    (genai.Content.mk role (map withoutFileData parts)) =
  toOpenAIChatCompletionMessage json_Marshal base64_EncodeToString
    (genai.Content.mk role parts).
Proof.
  unfold toOpenAIChatCompletionMessage, toOpenAIChatCompletionMessage_res.
  cbn [genai.Content.Parts genai.Content.Role].
  assert (singleTextPart (map withoutFileData parts) = singleTextPart parts) as ->.
  { destruct parts as [|part rest]; [done|]. simpl. by rewrite length_map. }
  assert (genai.Part.Text (default (textPart "") (head (map withoutFileData parts))) =
          genai.Part.Text (default (textPart "") (head parts))) as ->.
  { by destruct parts. }
  by rewrite length_map, messageParts_withoutFileData.
Qed.

Variable json_Unmarshal : string → option (gmap string Go.any).

(** X15. Round trip of function calls. A content whose parts are function
    calls converts to a message that carries one tool call each; when the
    JSON decoder inverts the encoder on the arguments, a response whose
    first choice has that message converts back to a content of role model
    with the same function calls, in the same order. *)
Theorem function_call_round_trip role (calls : list genai.FunctionCall.t) :
  Forall (λ fc, ∃ text,
            json_Marshal (genai.FunctionCall.Args fc) = inl text ∧
            parseJSONArgs json_Unmarshal text = genai.FunctionCall.Args fc) calls →
  ∃ message,
    toOpenAIChatCompletionMessage json_Marshal base64_EncodeToString
      (genai.Content.mk role (map functionCallPart calls)) = (message, None) ∧
    length (openai.ChatCompletionMessage.ToolCalls message) = length calls ∧
    ∀ idx reason choices usage,
      ∃ resp,
        convertChatCompletionResponse json_Unmarshal
          (openai.ChatCompletionResponse.mk
             (openai.ChatCompletionChoice.mk idx message reason :: choices) usage) =
          (Some resp, None) ∧
        model.LLMResponse.Content resp =
          genai.Content.mk "model" (map functionCallPart calls).
Proof.
  intros Hinv.
  destruct (toOpenAIChatCompletionMessage_general role (map functionCallPart calls))
    as (message & Heq & _ & Hcalls & Hlast).
  { by destruct calls as [|? [|? ?]]. }
  { apply Forall_forall. intros part Hin.
    apply list_elem_of_fmap in Hin as (fc & -> & Hin).
    eapply Forall_forall in Hinv as (text & Htext & _); [|done].
    split; [intros ? [= <-]; eauto|done]. }
  assert (omap genai.Part.FunctionResponse (map functionCallPart calls) = []) as Hnone.
  { clear. by induction calls. }
  rewrite Hnone in Hlast. destruct Hlast as (_ & Hcontent & _).
  assert (omap (partToolCall json_Marshal) (map functionCallPart calls) =
          map (λ fc, openai.ToolCall.mk None (genai.FunctionCall.ID fc) "function"
                       (openai.FunctionCall.mk (genai.FunctionCall.Name fc)
                          (marshalled json_Marshal (genai.FunctionCall.Args fc)))) calls)
    as Hmap.
  { clear. induction calls as [|fc rest IH]; [done|]. cbn. by rewrite <- IH. }
  rewrite Hmap in Hcalls.
  exists message. split; [done|]. split; [by rewrite Hcalls, length_map|].
  intros idx reason choices usage. eexists. split; [reflexivity|].
  cbn. rewrite Hcontent, Hcalls. rewrite decide_False by (by intros ?).
  f_equal. rewrite foldl_appendToolCall_filter.
  rewrite filter_every by (apply Forall_forall; intros tc Hin;
                           by apply list_elem_of_fmap in Hin as (fc & -> & _)).
  clear Hmap Hcalls Heq Hnone Hcontent.
  induction Hinv as [|fc rest (text & Htext & Hparse) _ IH]; [done|].
  cbn [map]. rewrite IH. f_equal.
  unfold marshalled. rewrite Htext. simpl. rewrite Hparse. by destruct fc.
Qed.

End GeneralPath.

(** ** Usage, tools, the request builder and the entry point *)

Lemma int32_range (z : Z) : inInt32 (Go.int32 z).
Proof.
  unfold inInt32, Go.int32.
  pose proof (Z.mod_pos_bound (z + 2 ^ 31) (2 ^ 32) ltac:(lia)). lia.
Qed.

Lemma int32_id (z : Z) : inInt32 z → Go.int32 z = z.
Proof.
  unfold inInt32, Go.int32. intros Hz. rewrite Z.mod_small by lia. lia.
Qed.

(** X16. Usage of the non-streaming converter. The usage metadata is nil
    exactly when the total token count is not positive, whatever the other
    counts are. Otherwise every count it carries lies in the int32 range,
    a count of the wire usage that lies in that range is carried
    unchanged, and the cached count is zero without the prompt detail. *)
Theorem convertChatCompletionResponse_usage
    (json_Unmarshal : string → option (gmap string Go.any))
    (choice : openai.ChatCompletionChoice.t)
    (choices : list openai.ChatCompletionChoice.t) (usage : openai.Usage.t) :
  ∃ resp,
    convertChatCompletionResponse json_Unmarshal
      (openai.ChatCompletionResponse.mk (choice :: choices) usage) = (Some resp, None) ∧
    (model.LLMResponse.UsageMetadata resp = None ↔ openai.Usage.TotalTokens usage ≤ 0) ∧
    ∀ um, model.LLMResponse.UsageMetadata resp = Some um →
      inInt32 (genai.GenerateContentResponseUsageMetadata.PromptTokenCount um) ∧
      inInt32 (genai.GenerateContentResponseUsageMetadata.CandidatesTokenCount um) ∧
      inInt32 (genai.GenerateContentResponseUsageMetadata.TotalTokenCount um) ∧
      inInt32 (genai.GenerateContentResponseUsageMetadata.CachedContentTokenCount um) ∧
      (inInt32 (openai.Usage.PromptTokens usage) →
       genai.GenerateContentResponseUsageMetadata.PromptTokenCount um =
       openai.Usage.PromptTokens usage) ∧
      (inInt32 (openai.Usage.CompletionTokens usage) →
       genai.GenerateContentResponseUsageMetadata.CandidatesTokenCount um =
       openai.Usage.CompletionTokens usage) ∧
      (inInt32 (openai.Usage.TotalTokens usage) →
       genai.GenerateContentResponseUsageMetadata.TotalTokenCount um =
       openai.Usage.TotalTokens usage) ∧
      (openai.Usage.PromptTokensDetails usage = None →
       genai.GenerateContentResponseUsageMetadata.CachedContentTokenCount um = 0).
Proof.
  eexists. split; [reflexivity|].
  cbn [model.LLMResponse.UsageMetadata openai.ChatCompletionResponse.Usage].
  unfold convertUsage. destruct (decide (0 < _)) as [Hpos|Hpos].
  - split; [split; [done|lia]|]. intros um [= <-]. simpl.
    split; [apply int32_range|]. split; [apply int32_range|].
    split; [apply int32_range|]. split.
    { destruct (openai.Usage.PromptTokensDetails usage); [apply int32_range|done]. }
    split; [apply int32_id|]. split; [apply int32_id|]. split; [apply int32_id|].
    by intros ->.
  - split; [split; [lia|done]|]. by intros um.
Qed.

Section ToolsPanic.

Lemma all_Some_or_None {A} (l : list (option A)) :
  (∃ l', l = map Some l') ∨ None ∈ l.
Proof.
  induction l as [|[x|] l IH].
  - left. by exists [].
  - destruct IH as [[l' ->]|Hin]; [left; by exists (x :: l')|right; by right].
  - right. left.
Qed.

Lemma not_None_in_Some {A} (l : list A) : None ∉ map Some l.
Proof. intros Hin. by apply list_elem_of_fmap in Hin as (? & ? & _). Qed.

Lemma convertDeclarations_None decls : ∀ openaiTools,
  None ∈ decls → convertDeclarations openaiTools decls = Panics "funcDecl is nil".
Proof.
  induction decls as [|[funcDecl|] rest IH]; intros openaiTools Hin.
  - by apply elem_of_nil in Hin.
  - apply elem_of_cons in Hin as [?|Hin]; [done|]. by apply IH.
  - done.
Qed.

Lemma convertToolsFrom_None genaiTools : ∀ openaiTools,
  None ∈ toolDeclarations genaiTools →
  convertToolsFrom openaiTools genaiTools = Panics "funcDecl is nil".
Proof.
  unfold toolDeclarations.
  induction genaiTools as [|[tool|] rest IH]; intros openaiTools Hin.
  - by apply elem_of_nil in Hin.
  - cbn [map concat] in Hin. apply elem_of_app in Hin as [Hin|Hin]; cbn [convertToolsFrom].
    + by rewrite convertDeclarations_None.
    + destruct (all_Some_or_None (genai.Tool.FunctionDeclarations tool)) as [[d ->]|Hn].
      * rewrite convertDeclarations_Some. by apply IH.
      * by rewrite convertDeclarations_None.
  - cbn [map concat] in Hin. by apply IH.
Qed.

(** X17. [convertTools] panics exactly when a non-nil tool lists a nil
    declaration, nil tools being skipped; when it returns, the error is
    nil and there is one descriptor per declaration. *)
Theorem convertTools_panics_on_nil_declaration
    (genaiTools : list (option genai.Tool.t)) :
  (convertTools (Some genaiTools) = Panics "funcDecl is nil" ↔
   None ∈ toolDeclarations genaiTools) ∧
  (∀ openaiTools err,
     convertTools (Some genaiTools) = Returns (openaiTools, err) →
     err = None ∧
     length (Go.elems openaiTools) = length (toolDeclarations genaiTools)).
Proof.
  unfold convertTools. cbn [Go.elems].
  destruct (all_Some_or_None (toolDeclarations genaiTools)) as [[decls Hd]|Hin].
  - rewrite (convertToolsFrom_Some _ _ decls Hd). split.
    + split; [done|]. rewrite Hd. intros Hin. by apply not_None_in_Some in Hin.
    + intros openaiTools err [= <- <-]. split; [done|].
      rewrite Hd, length_map. destruct decls; [done|]. simpl. by rewrite length_map.
  - rewrite (convertToolsFrom_None _ _ Hin). split; [done|]. by intros ? ?.
Qed.

End ToolsPanic.

Section RequestBuilder.

Variable json_Marshal : gmap string Go.any → res string.
Variable base64_EncodeToString : list Byte.byte → string.

Implicit Types (contents : list genai.Content.t) (req : LLMRequest.t).


Lemma convertContents_inl contents : ∀ acc msgs,
  convertContents json_Marshal base64_EncodeToString acc contents = inl msgs ↔
  Forall (contentConverts json_Marshal base64_EncodeToString) contents ∧ msgs = acc ++ map (contentMessage json_Marshal base64_EncodeToString) contents.
Proof.
  unfold contentConverts, contentMessage.
  induction contents as [|content rest IH]; intros acc msgs; cbn [convertContents map].
  - rewrite (right_id_L [] (++)). split; [by intros [= <-]|by intros [_ ->]].
  - destruct (toOpenAIChatCompletionMessage _ _ content) as [msg [err|]] eqn:Hc.
    + split; [done|]. intros [Hall _]. apply Forall_cons in Hall as [Hc' _].
      by rewrite Hc in Hc'.
    + rewrite IH, Forall_cons, Hc, <- (assoc_L (++)). simpl. tauto.
Qed.

Lemma convertContents_inr before : ∀ acc content after err,
  Forall (contentConverts json_Marshal base64_EncodeToString) before →
  (toOpenAIChatCompletionMessage json_Marshal base64_EncodeToString content).2 = Some err →
  convertContents json_Marshal base64_EncodeToString acc (before ++ content :: after) =
  inr err.
Proof.
  unfold contentConverts.
  induction before as [|c before IH]; intros acc content after err Hall Herr.
  - cbn. destruct (toOpenAIChatCompletionMessage _ _ content) as [msg o].
    simpl in Herr. by subst o.
  - apply Forall_cons in Hall as [Hc Hall]. cbn.
    destruct (toOpenAIChatCompletionMessage _ _ c) as [msg o]. simpl in Hc. subst o.
    by apply IH.
Qed.

(** X18. The first content whose conversion fails decides the request:
    the builder returns the zero request with that content's error, the
    contents after it and the configuration are not looked at, and so a
    nil declaration among the tools does not make it panic. *)
Theorem toOpenAIChatCompletionRequest_first_error req modelName before content after err :
  LLMRequest.Contents req = before ++ content :: after →
  Forall (λ c, (toOpenAIChatCompletionMessage json_Marshal base64_EncodeToString c).2 = None)
    before →
  (toOpenAIChatCompletionMessage json_Marshal base64_EncodeToString content).2 = Some err →
  toOpenAIChatCompletionRequest json_Marshal base64_EncodeToString req modelName =
  Returns (ChatCompletionRequest.zero, Some err).
Proof.
  intros Hcontents Hbefore Herr. unfold toOpenAIChatCompletionRequest.
  by rewrite Hcontents, (convertContents_inr before [] content after err).
Qed.

(** The builder, case by case. *)
Lemma toOpenAIChatCompletionRequest_cases req modelName :
  let result := toOpenAIChatCompletionRequest json_Marshal base64_EncodeToString
                  req modelName in
  let msgs := map (contentMessage json_Marshal base64_EncodeToString) (LLMRequest.Contents req) in
  (¬ Forall (contentConverts json_Marshal base64_EncodeToString) (LLMRequest.Contents req) ∧
   ∃ err, result = Returns (ChatCompletionRequest.zero, Some err)) ∨
  (Forall (contentConverts json_Marshal base64_EncodeToString) (LLMRequest.Contents req) ∧
   match LLMRequest.Config req with
   | None =>
     result = Returns (ChatCompletionRequest.mk modelName msgs None 0 0 0 [] None false, None)
   | Some config =>
     (None ∈ toolDeclarations (GenerateContentConfig.Tools config) ∧
      result = Panics "funcDecl is nil") ∨
     (∃ decls,
        toolDeclarations (GenerateContentConfig.Tools config) = map Some decls ∧
        result =
        Returns (applyConfig config
                   (ChatCompletionRequest.mk modelName msgs
                      (match decls with [] => None | _ => Some (map wireTool decls) end)
                      0 0 0 [] None false), None))
   end).
Proof.
  intros result msgs. subst result msgs. unfold toOpenAIChatCompletionRequest.
  destruct (convertContents _ _ [] (LLMRequest.Contents req)) as [r|err] eqn:Hc.
  - right. apply convertContents_inl in Hc as [Hall ->]. split; [done|]. simpl.
    destruct (LLMRequest.Config req) as [config|]; [|done].
    destruct (all_Some_or_None (toolDeclarations (GenerateContentConfig.Tools config)))
      as [[decls Hd]|Hin].
    + right. exists decls. split; [done|].
      destruct (decide (0 < length _)%nat) as [Hlen|Hlen].
      * unfold convertTools. cbn [Go.elems].
        rewrite (convertToolsFrom_Some _ _ decls Hd). by destruct decls.
      * destruct (GenerateContentConfig.Tools config); [|simpl in Hlen; lia].
        by destruct decls.
    + left. split; [done|].
      destruct (decide (0 < length _)%nat) as [Hlen|Hlen].
      * unfold convertTools. cbn [Go.elems]. by rewrite (convertToolsFrom_None _ _ Hin).
      * destruct (GenerateContentConfig.Tools config); [|simpl in Hlen; lia].
        by apply elem_of_nil in Hin.
  - left. split; [|by exists err].
    intros Hall.
    assert (convertContents json_Marshal base64_EncodeToString []
              (LLMRequest.Contents req) = inl ([] ++ map (contentMessage json_Marshal base64_EncodeToString) (LLMRequest.Contents req)))
      as Heq by (by apply convertContents_inl).
    congruence.
Qed.

(** X19. When the builder returns a request, every content was converted
    and the messages are the converted contents in order, after one
    system message when the configuration has a system instruction; that
    message has role "system" and, as content, the texts of the
    instruction joined by newlines. The model name is the one given and
    the request is not marked as a stream. *)
Theorem toOpenAIChatCompletionRequest_messages req modelName openaiReq :
  toOpenAIChatCompletionRequest json_Marshal base64_EncodeToString req modelName =
    Returns (openaiReq, None) →
  Forall (λ c, (toOpenAIChatCompletionMessage json_Marshal base64_EncodeToString c).2 = None)
    (LLMRequest.Contents req) ∧
  ChatCompletionRequest.Model openaiReq = modelName ∧
  ChatCompletionRequest.Stream openaiReq = false ∧
  ChatCompletionRequest.Messages openaiReq =
    match LLMRequest.Config req ≫= GenerateContentConfig.SystemInstruction with
    | Some instruction =>
      [openai.ChatCompletionMessage.mk "system"
         (String.concat newline
            (filter (λ s, s ≠ "")
               (map genai.Part.Text (genai.Content.Parts instruction)))) [] [] ""]
    | None => []
    end ++
    map (λ c, (toOpenAIChatCompletionMessage json_Marshal base64_EncodeToString c).1)
      (LLMRequest.Contents req).
Proof.
  intros Hok.
  destruct (toOpenAIChatCompletionRequest_cases req modelName) as [[_ [err Herr]]|[Hall Hcfg]].
  { cbv zeta in Herr. congruence. }
  split; [done|]. cbv zeta in Hcfg.
  destruct (LLMRequest.Config req) as [config|]; simpl.
  - destruct Hcfg as [[_ Hpanic]|(decls & _ & Heq)]; [congruence|].
    rewrite Heq in Hok. injection Hok as <-. unfold applyConfig. simpl.
    split; [done|]. split; [done|].
    destruct (GenerateContentConfig.SystemInstruction config) as [instruction|]; [|done].
    simpl. by rewrite joinTexts_String_concat, collectTexts_filter.
  - rewrite Hcfg in Hok. by injection Hok as <-.
Qed.

(** X20. The settings of a request that the builder returns. Without a
    configuration nothing but model and messages is set. With one: the
    token limit is copied when positive and left at 0 otherwise, the stop
    sequences are copied, temperature and top-p are copied when given and
    0 otherwise, the response format is the JSON object format exactly for
    the MIME type "application/json", and the tools are one descriptor per
    declaration, the nil slice when there is none. *)
Theorem toOpenAIChatCompletionRequest_settings req modelName openaiReq :
  toOpenAIChatCompletionRequest json_Marshal base64_EncodeToString req modelName =
    Returns (openaiReq, None) →
  match LLMRequest.Config req with
  | None =>
    ChatCompletionRequest.Tools openaiReq = None ∧
    ChatCompletionRequest.Temperature openaiReq = 0 ∧
    ChatCompletionRequest.MaxTokens openaiReq = 0 ∧
    ChatCompletionRequest.TopP openaiReq = 0 ∧
    ChatCompletionRequest.Stop openaiReq = [] ∧
    ChatCompletionRequest.ResponseFormat openaiReq = None
  | Some config =>
    (∃ decls,
       toolDeclarations (GenerateContentConfig.Tools config) = map Some decls ∧
       Go.elems (ChatCompletionRequest.Tools openaiReq) = map wireTool decls ∧
       (ChatCompletionRequest.Tools openaiReq = None ↔ decls = [])) ∧
    ChatCompletionRequest.Temperature openaiReq =
      default 0 (GenerateContentConfig.Temperature config) ∧
    ChatCompletionRequest.MaxTokens openaiReq =
      Z.max 0 (GenerateContentConfig.MaxOutputTokens config) ∧
    ChatCompletionRequest.TopP openaiReq = default 0 (GenerateContentConfig.TopP config) ∧
    ChatCompletionRequest.Stop openaiReq = GenerateContentConfig.StopSequences config ∧
    (ChatCompletionRequest.ResponseFormat openaiReq =
       Some (ChatCompletionResponseFormat.mk "json_object") ↔
     GenerateContentConfig.ResponseMIMEType config = "application/json") ∧
    (ChatCompletionRequest.ResponseFormat openaiReq = None ↔
     GenerateContentConfig.ResponseMIMEType config ≠ "application/json")
  end.
Proof.
  intros Hok.
  destruct (toOpenAIChatCompletionRequest_cases req modelName) as [[_ [err Herr]]|[Hall Hcfg]].
  { cbv zeta in Herr. congruence. }
  cbv zeta in Hcfg.
  destruct (LLMRequest.Config req) as [config|].
  - destruct Hcfg as [[_ Hpanic]|(decls & Hd & Heq)]; [congruence|].
    rewrite Heq in Hok. injection Hok as <-. unfold applyConfig. simpl.
    split; [exists decls; split; [done|]; by destruct decls|].
    split; [by destruct (GenerateContentConfig.Temperature config)|].
    split; [destruct (decide _); lia|].
    split; [by destruct (GenerateContentConfig.TopP config)|].
    split.
    { destruct (decide _) as [Hlen|Hlen]; [done|].
      destruct (GenerateContentConfig.StopSequences config); [done|simpl in Hlen; lia]. }
    destruct (decide (_ = "application/json")); split; split; done.
  - rewrite Hcfg in Hok. by injection Hok as <-.
Qed.

End RequestBuilder.

(** ** The request builder over pointers that may be nil *)

Section PointerBuilder.

Variable json_Marshal : gmap string Go.any → res string.
Variable base64_EncodeToString : list Byte.byte → string.

Lemma first_nil {A} (l : list (option A)) :
  (∃ l', l = map Some l') ∨ (∃ before after, l = map Some before ++ None :: after).
Proof.
  induction l as [|[x|] l IH].
  - left. by exists [].
  - destruct IH as [[l' ->]|(before & after & ->)].
    + left. by exists (x :: l').
    + right. by exists (x :: before), after.
  - right. by exists [], l.
Qed.

Lemma Ptr_collectTexts_values parts : ∀ texts,
  Ptr.collectTexts texts (map Some parts) =
  Returns (foldl (λ texts part,
                    if decide (genai.Part.Text part ≠ "")
                    then texts ++ [genai.Part.Text part] else texts)
             texts parts).
Proof. induction parts as [|part rest IH]; intros texts; [done|]. cbn. apply IH. Qed.

Lemma Ptr_collectTexts_nil parts : ∀ texts,
  None ∈ parts → Ptr.collectTexts texts parts = Panics nilDereference.
Proof.
  induction parts as [|[part|] rest IH]; intros texts Hin.
  - by apply elem_of_nil in Hin.
  - apply elem_of_cons in Hin as [?|Hin]; [done|]. cbn. by apply IH.
  - done.
Qed.

Lemma Ptr_extractTextFromContent_values content :
  Ptr.extractTextFromContent (contentPointer <$> content) =
  Returns (extractTextFromContent content).
Proof.
  destruct content as [content|]; [|done]. cbn.
  by rewrite Ptr_collectTexts_values.
Qed.

Lemma Ptr_messageParts_values n parts : ∀ b,
  Ptr.messageParts json_Marshal base64_EncodeToString n b (map Some parts) =
  Returns (messageParts json_Marshal base64_EncodeToString n b parts).
Proof.
  induction parts as [|part rest IH]; intros b; [done|].
  cbn [map Ptr.messageParts messageParts]. unfold bind.
  destruct (messagePart _ _ n b part); [apply IH|done].
Qed.

Lemma Ptr_messageParts_nil n before after : ∀ b,
  Ptr.messageParts json_Marshal base64_EncodeToString n b (map Some before ++ None :: after) =
  match messageParts json_Marshal base64_EncodeToString n b before with
  | inl _ => Panics nilDereference
  | inr err => Returns (inr err)
  end.
Proof.
  induction before as [|part rest IH]; intros b; [done|].
  cbn [map app Ptr.messageParts messageParts]. unfold bind.
  destruct (messagePart _ _ n b part); [apply IH|done].
Qed.

Lemma messageParts_inl_marshals n parts b :
  (∃ b', messageParts json_Marshal base64_EncodeToString n b parts = inl b') ↔
  Forall (marshals json_Marshal) parts.
Proof.
  revert b. induction parts as [|part rest IH]; intros b.
  - split; [done|]. intros _. by eexists.
  - cbn [messageParts]. unfold bind. rewrite Forall_cons.
    destruct (messagePart_fails_or_marshals json_Marshal base64_EncodeToString n b part)
      as [[Hm [b1 ->]]|[Hm (msg & err & m & -> & _)]].
    + rewrite IH. tauto.
    + split; [by intros [? ?]|]. by intros [? _].
Qed.

(** The converter on a content without nil pointers. *)
Lemma Ptr_message_values content :
  Ptr.toOpenAIChatCompletionMessage json_Marshal base64_EncodeToString
    (Some (contentPointer content)) =
  Returns (toOpenAIChatCompletionMessage json_Marshal base64_EncodeToString content).
Proof.
  unfold Ptr.toOpenAIChatCompletionMessage, toOpenAIChatCompletionMessage,
    toOpenAIChatCompletionMessage_res, contentPointer.
  cbn [Ptr.Content.Parts Ptr.Content.Role].
  rewrite Ptr_messageParts_values, length_map.
  destruct content as [role parts]. cbn [genai.Content.Parts genai.Content.Role].
  destruct parts as [|part [|part' rest]]; cbn [map singleTextPart length].
  - done.
  - rewrite bool_decide_eq_true_2 by done. cbn [andb].
    destruct (decide (genai.Part.Text part ≠ "")) as [Ht|Ht].
    + by rewrite bool_decide_eq_true_2.
    + rewrite bool_decide_eq_false_2 by done. unfold bind, go_pair.
      by destruct (messageParts _ _ _ _ _).
  - rewrite bool_decide_eq_false_2 by done. cbn [andb]. unfold bind, go_pair.
    by destruct (messageParts _ _ _ _ _).
Qed.

(** The converter on a content with a nil part: the parts before the first
    nil one are gone through. *)
Lemma Ptr_message_nil role before after :
  Ptr.toOpenAIChatCompletionMessage json_Marshal base64_EncodeToString
    (Some (Ptr.Content.mk role (map Some before ++ None :: after))) =
  match messageParts json_Marshal base64_EncodeToString
          (length (map Some before ++ None :: after))
          (mkMessageBuilder
             (openai.ChatCompletionMessage.mk (convertRoleToOpenAI role) "" [] [] "")
             "" [] [])
          before with
  | inl _ => Panics nilDereference
  | inr err => Returns (openai.ChatCompletionMessage.zero, Some err)
  end.
Proof.
  unfold Ptr.toOpenAIChatCompletionMessage.
  cbn [Ptr.Content.Parts Ptr.Content.Role].
  rewrite Ptr_messageParts_nil.
  destruct before as [|part [|part' rest]]; cbn [map app].
  - by destruct after.
  - by destruct (messageParts _ _ _ _ _).
  - by destruct (messageParts _ _ _ _ _).
Qed.

Lemma Ptr_message_panics content msg :
  Ptr.toOpenAIChatCompletionMessage json_Marshal base64_EncodeToString content =
    Panics msg →
  msg = nilDereference.
Proof.
  destruct content as [[role parts]|]; [|by intros [= <-]].
  destruct (first_nil parts) as [[values ->]|(before & after & ->)].
  - change (Some (Ptr.Content.mk role (map Some values)))
      with (Some (contentPointer (genai.Content.mk role values))).
    by rewrite Ptr_message_values.
  - rewrite Ptr_message_nil. destruct (messageParts _ _ _ _ _); [by intros [= <-]|done].
Qed.

Lemma Ptr_convertContents_values contents : ∀ acc,
  Ptr.convertContents json_Marshal base64_EncodeToString acc
    (map (λ content, Some (contentPointer content)) contents) =
  Returns (convertContents json_Marshal base64_EncodeToString acc contents).
Proof.
  induction contents as [|content rest IH]; intros acc; [done|].
  cbn [map Ptr.convertContents convertContents]. rewrite Ptr_message_values.
  destruct (toOpenAIChatCompletionMessage _ _ content) as [msg [err|]]; [done|apply IH].
Qed.

Lemma Ptr_convertContents_all contents : ∀ acc,
  Forall (Ptr.converts json_Marshal base64_EncodeToString) contents →
  ∃ msgs,
    Ptr.convertContents json_Marshal base64_EncodeToString acc contents =
    Returns (inl msgs).
Proof.
  induction contents as [|content rest IH]; intros acc Hall; [by eexists|].
  apply Forall_cons in Hall as [[msg Hc] Hall]. cbn [Ptr.convertContents].
  rewrite Hc. by apply IH.
Qed.

Lemma Ptr_convertContents_first before content after : ∀ acc,
  Forall (Ptr.converts json_Marshal base64_EncodeToString) before →
  Ptr.convertContents json_Marshal base64_EncodeToString acc (before ++ content :: after) =
  match Ptr.toOpenAIChatCompletionMessage json_Marshal base64_EncodeToString content with
  | Panics msg => Panics msg
  | Returns (_, Some err) => Returns (inr err)
  | Returns (msg, None) =>
    Ptr.convertContents json_Marshal base64_EncodeToString acc (before ++ content :: after)
  end.
Proof.
  induction before as [|c before IH]; intros acc Hall.
  - cbn [app Ptr.convertContents].
    by destruct (Ptr.toOpenAIChatCompletionMessage _ _ content) as [[msg [err|]]|msg].
  - apply Forall_cons in Hall as [[msg Hc] Hall].
    cbn [app Ptr.convertContents]. rewrite Hc. rewrite (IH _ Hall).
    by destruct (Ptr.toOpenAIChatCompletionMessage _ _ content) as [[msg' [err|]]|msg'].
Qed.

Lemma Ptr_first_failure contents :
  Forall (Ptr.converts json_Marshal base64_EncodeToString) contents ∨
  ∃ before content after,
    contents = before ++ content :: after ∧
    Forall (Ptr.converts json_Marshal base64_EncodeToString) before ∧
    ((∃ msg err,
        Ptr.toOpenAIChatCompletionMessage json_Marshal base64_EncodeToString content =
        Returns (msg, Some err)) ∨
     Ptr.toOpenAIChatCompletionMessage json_Marshal base64_EncodeToString content =
       Panics nilDereference).
Proof.
  induction contents as [|c rest IH]; [by left|].
  destruct (Ptr.toOpenAIChatCompletionMessage json_Marshal base64_EncodeToString c)
    as [[msg [err|]]|msg] eqn:Hc.
  - right. exists [], c, rest. split; [done|]. split; [done|]. left. rewrite Hc. by eexists _, _.
  - assert (Ptr.converts json_Marshal base64_EncodeToString c) as Hconv by (by exists msg).
    destruct IH as [Hall|(before & content & after & -> & Hall & Hfail)].
    + left. by constructor.
    + right. exists (c :: before), content, after. split; [done|]. split; [by constructor|done].
  - right. exists [], c, rest. split; [done|]. split; [done|]. right.
    rewrite Hc. f_equal. by apply Ptr_message_panics in Hc.
Qed.

Lemma Ptr_applyConfig_values config openaiReq :
  Ptr.applyConfig (configPointer config) openaiReq =
  Returns (applyConfig config openaiReq).
Proof.
  unfold Ptr.applyConfig, applyConfig, configPointer.
  cbn [Ptr.GenerateContentConfig.Temperature Ptr.GenerateContentConfig.TopP
       Ptr.GenerateContentConfig.MaxOutputTokens Ptr.GenerateContentConfig.StopSequences
       Ptr.GenerateContentConfig.SystemInstruction Ptr.GenerateContentConfig.Tools
       Ptr.GenerateContentConfig.ResponseMIMEType].
  destruct (GenerateContentConfig.SystemInstruction config) as [instruction|]; [|done].
  cbn [fmap option_fmap option_map].
  change (Some (contentPointer instruction)) with (contentPointer <$> Some instruction).
  by rewrite Ptr_extractTextFromContent_values.
Qed.

(** On a request without nil pointers the two embeddings agree. *)
Lemma Ptr_request_values req modelName :
  Ptr.toOpenAIChatCompletionRequest json_Marshal base64_EncodeToString
    (requestPointer req) modelName =
  toOpenAIChatCompletionRequest json_Marshal base64_EncodeToString req modelName.
Proof.
  unfold Ptr.toOpenAIChatCompletionRequest, toOpenAIChatCompletionRequest, requestPointer.
  cbn [Ptr.LLMRequest.Contents Ptr.LLMRequest.Config].
  rewrite Ptr_convertContents_values.
  destruct (convertContents _ _ [] (LLMRequest.Contents req)) as [msgs|err]; [|done].
  destruct (LLMRequest.Config req) as [config|]; [|done].
  cbn [fmap option_fmap option_map].
  change (Ptr.GenerateContentConfig.Tools (configPointer config))
    with (GenerateContentConfig.Tools config).
  destruct (decide (0 < length (GenerateContentConfig.Tools config))%nat).
  - destruct (convertTools _) as [[tools [err|]]|msg]; [done| |done].
    by rewrite Ptr_applyConfig_values.
  - by rewrite Ptr_applyConfig_values.
Qed.

(** The builder past the contents, case by case. *)
Lemma Ptr_request_cases req modelName :
  let result :=
    Ptr.toOpenAIChatCompletionRequest json_Marshal base64_EncodeToString
      (Some req) modelName in
  Forall (Ptr.converts json_Marshal base64_EncodeToString) (Ptr.LLMRequest.Contents req) →
  (None ∈ Ptr.declarations req ∧ result = Panics "funcDecl is nil") ∨
  ((None ∉ Ptr.declarations req) ∧ None ∈ Ptr.instructionParts req ∧
   result = Panics nilDereference) ∨
  ((None ∉ Ptr.declarations req) ∧ (None ∉ Ptr.instructionParts req) ∧
   ∃ openaiReq, result = Returns (openaiReq, None)).
Proof.
  intros result Hall. subst result.
  unfold Ptr.toOpenAIChatCompletionRequest, Ptr.declarations, Ptr.instructionParts.
  destruct (Ptr_convertContents_all _ [] Hall) as [msgs ->].
  destruct (Ptr.LLMRequest.Config req) as [config|]; cbn [from_option mbind option_bind].
  2:{ right. right. split; [apply not_elem_of_nil|]. split; [apply not_elem_of_nil|].
      by eexists. }
  destruct (all_Some_or_None (toolDeclarations (Ptr.GenerateContentConfig.Tools config)))
    as [[decls Hd]|Hin].
  - right. rewrite Hd. pose proof (not_None_in_Some decls) as Hnone.
    assert (∃ openaiReq,
              (if decide (0 < length (Ptr.GenerateContentConfig.Tools config))%nat then
                 match convertTools (Some (Ptr.GenerateContentConfig.Tools config)) with
                 | Panics msg => Panics msg
                 | Returns (_, Some err) => Returns (inr err)
                 | Returns (tools, None) =>
                   Returns (inl (ChatCompletionRequest.mk modelName msgs tools
                                   0 0 0 [] None false))
                 end
               else Returns (inl (ChatCompletionRequest.mk modelName msgs None
                                    0 0 0 [] None false)))
              = (Returns (inl openaiReq) : outcome (ChatCompletionRequest.t + Go.error)))
      as [openaiReq ->].
    { destruct (decide _); [|by eexists].
      unfold convertTools. cbn [Go.elems].
      rewrite (convertToolsFrom_Some _ _ decls Hd). by eexists. }
    unfold Ptr.applyConfig.
    destruct (Ptr.GenerateContentConfig.SystemInstruction config) as [instruction|];
      cbn [from_option].
    + unfold Ptr.extractTextFromContent.
      destruct (first_nil (Ptr.Content.Parts instruction)) as [[values Hv]|(b & a & Hv)];
        rewrite Hv.
      * right. rewrite Ptr_collectTexts_values. split; [done|].
        split; [apply not_None_in_Some|]. by eexists.
      * left. split; [done|].
        assert (None ∈ map Some b ++ None :: a) as Hin.
        { apply elem_of_app. right. left. }
        split; [done|]. by rewrite (Ptr_collectTexts_nil _ _ Hin).
    + right. split; [done|]. split; [apply not_elem_of_nil|]. by eexists.
  - left. split; [done|].
    destruct (decide (0 < length _)%nat) as [Hlen|Hlen].
    + unfold convertTools. cbn [Go.elems]. by rewrite (convertToolsFrom_None _ _ Hin).
    + destruct (Ptr.GenerateContentConfig.Tools config); [|simpl in Hlen; lia].
      by apply elem_of_nil in Hin.
Qed.

Lemma Ptr_request_first req modelName before content after :
  Ptr.LLMRequest.Contents req = before ++ content :: after →
  Forall (Ptr.converts json_Marshal base64_EncodeToString) before →
  (∀ msg err,
     Ptr.toOpenAIChatCompletionMessage json_Marshal base64_EncodeToString content =
       Returns (msg, Some err) →
     Ptr.toOpenAIChatCompletionRequest json_Marshal base64_EncodeToString
       (Some req) modelName = Returns (ChatCompletionRequest.zero, Some err)) ∧
  (∀ msg,
     Ptr.toOpenAIChatCompletionMessage json_Marshal base64_EncodeToString content =
       Panics msg →
     Ptr.toOpenAIChatCompletionRequest json_Marshal base64_EncodeToString
       (Some req) modelName = Panics msg).
Proof.
  intros Hcontents Hall. unfold Ptr.toOpenAIChatCompletionRequest.
  rewrite Hcontents, (Ptr_convertContents_first before content after [] Hall).
  split; [intros msg err ->|intros msg ->]; done.
Qed.

(** X21. The outcomes of the request builder, nil pointers included. It
    panics with the nil dereference of the Go runtime on a nil request,
    on the first content that is nil or reaches a nil part when every
    content before it converts, and on a nil part of the system
    instruction when every content converts and no declaration is nil. It
    panics with "funcDecl is nil" exactly when every content converts and
    a non-nil tool lists a nil declaration. It returns an error exactly
    when the first content that does not convert returns that error. It
    returns a request exactly in the remaining case. A content converter
    panics exactly on a nil content and on a nil part met before any
    encoding fails. On a request without nil pointers the builder is the
    one of the embedding over values. *)
Theorem toOpenAIChatCompletionRequest_outcomes
    (req : option Ptr.LLMRequest.t) (modelName : string) :
  let result :=
    Ptr.toOpenAIChatCompletionRequest json_Marshal base64_EncodeToString req modelName in
  let convert := Ptr.toOpenAIChatCompletionMessage json_Marshal base64_EncodeToString in
  let converts := Ptr.converts json_Marshal base64_EncodeToString in
  ((∃ openaiReq, result = Returns (openaiReq, None)) ↔
   ∃ r, req = Some r ∧ Forall converts (Ptr.LLMRequest.Contents r) ∧
        (None ∉ Ptr.declarations r) ∧ (None ∉ Ptr.instructionParts r)) ∧
  (result = Panics "funcDecl is nil" ↔
   ∃ r, req = Some r ∧ Forall converts (Ptr.LLMRequest.Contents r) ∧
        None ∈ Ptr.declarations r) ∧
  (∀ err,
     (∃ openaiReq, result = Returns (openaiReq, Some err)) ↔
     ∃ r before content after msg,
       req = Some r ∧ Ptr.LLMRequest.Contents r = before ++ content :: after ∧
       Forall converts before ∧ convert content = Returns (msg, Some err)) ∧
  (result = Panics nilDereference ↔
   req = None ∨
   (∃ r before content after,
      req = Some r ∧ Ptr.LLMRequest.Contents r = before ++ content :: after ∧
      Forall converts before ∧ convert content = Panics nilDereference) ∨
   (∃ r, req = Some r ∧ Forall converts (Ptr.LLMRequest.Contents r) ∧
         (None ∉ Ptr.declarations r) ∧ None ∈ Ptr.instructionParts r)) ∧
  (result = Panics nilDereference ∨ result = Panics "funcDecl is nil" ∨
   ∃ openaiReq err, result = Returns (openaiReq, err)) ∧
  (∀ content,
     convert content = Panics nilDereference ↔
     content = None ∨
     ∃ role before after,
       content = Some (Ptr.Content.mk role (map Some before ++ None :: after)) ∧
       Forall (marshals json_Marshal) before) ∧
  (∀ r,
     Ptr.toOpenAIChatCompletionRequest json_Marshal base64_EncodeToString
       (requestPointer r) modelName =
     toOpenAIChatCompletionRequest json_Marshal base64_EncodeToString r modelName).
Proof.
  intros result convert converts. subst result convert converts.
  assert (nilDereference ≠ "funcDecl is nil") as Hne by done.
  split_and!.
  - (* a request is returned *)
    split.
    + intros [openaiReq Hres]. destruct req as [r|]; [|done]. exists r. split; [done|].
      destruct (Ptr_first_failure (Ptr.LLMRequest.Contents r))
        as [Hall|(before & content & after & Hc & Hall & [(msg & err & Hf)|Hf])].
      * split; [done|].
        destruct (Ptr_request_cases r modelName Hall)
          as [[_ Hp]|[(_ & _ & Hp)|(Hd & Hi & _)]]; cbv zeta in *; [congruence..|done].
      * destruct (Ptr_request_first r modelName _ _ _ Hc Hall) as [He _].
        rewrite (He _ _ Hf) in Hres. congruence.
      * destruct (Ptr_request_first r modelName _ _ _ Hc Hall) as [_ Hp].
        rewrite (Hp _ Hf) in Hres. congruence.
    + intros (r & -> & Hall & Hd & Hi).
      destruct (Ptr_request_cases r modelName Hall)
        as [[? _]|[(_ & ? & _)|(_ & _ & Hres)]]; done.
  - (* the declared panic *)
    split.
    + intros Hres. destruct req as [r|]; [|cbn in Hres; congruence]. exists r. split; [done|].
      destruct (Ptr_first_failure (Ptr.LLMRequest.Contents r))
        as [Hall|(before & content & after & Hc & Hall & [(msg & err & Hf)|Hf])].
      * split; [done|].
        destruct (Ptr_request_cases r modelName Hall)
          as [[Hd _]|[(_ & _ & Hp)|(_ & _ & [? Hp])]]; cbv zeta in *; [done|congruence..].
      * destruct (Ptr_request_first r modelName _ _ _ Hc Hall) as [He _].
        rewrite (He _ _ Hf) in Hres. congruence.
      * destruct (Ptr_request_first r modelName _ _ _ Hc Hall) as [_ Hp].
        rewrite (Hp _ Hf) in Hres. congruence.
    + intros (r & -> & Hall & Hd).
      destruct (Ptr_request_cases r modelName Hall)
        as [[_ Hres]|[(? & _)|(? & _)]]; done.
  - (* an error is returned *)
    intros err. split.
    + intros [openaiReq Hres]. destruct req as [r|]; [|done]. exists r.
      destruct (Ptr_first_failure (Ptr.LLMRequest.Contents r))
        as [Hall|(before & content & after & Hc & Hall & [(msg & err' & Hf)|Hf])].
      * destruct (Ptr_request_cases r modelName Hall)
          as [[_ Hp]|[(_ & _ & Hp)|(_ & _ & [? Hp])]]; cbv zeta in *; congruence.
      * destruct (Ptr_request_first r modelName _ _ _ Hc Hall) as [He _].
        rewrite (He _ _ Hf) in Hres. injection Hres as _ <-.
        by exists before, content, after, msg.
      * destruct (Ptr_request_first r modelName _ _ _ Hc Hall) as [_ Hp].
        rewrite (Hp _ Hf) in Hres. congruence.
    + intros (r & before & content & after & msg & -> & Hc & Hall & Hf).
      destruct (Ptr_request_first r modelName _ _ _ Hc Hall) as [He _].
      rewrite (He _ _ Hf). by eexists.
  - (* the nil dereference *)
    split.
    + intros Hres. destruct req as [r|]; [|by left]. right.
      destruct (Ptr_first_failure (Ptr.LLMRequest.Contents r))
        as [Hall|(before & content & after & Hc & Hall & [(msg & err & Hf)|Hf])].
      * right. exists r. split; [done|]. split; [done|].
        destruct (Ptr_request_cases r modelName Hall)
          as [[_ Hp]|[(Hd & Hi & _)|(_ & _ & [? Hp])]]; cbv zeta in *; [congruence|done|congruence].
      * destruct (Ptr_request_first r modelName _ _ _ Hc Hall) as [He _].
        rewrite (He _ _ Hf) in Hres. congruence.
      * left. by exists r, before, content, after.
    + intros [->|[(r & before & content & after & -> & Hc & Hall & Hf)|(r & -> & Hall & Hd & Hi)]].
      * done.
      * destruct (Ptr_request_first r modelName _ _ _ Hc Hall) as [_ Hp]. by apply Hp.
      * destruct (Ptr_request_cases r modelName Hall)
          as [[? _]|[(_ & _ & Hres)|(_ & ? & _)]]; done.
  - (* nothing else happens *)
    destruct req as [r|]; [|by left].
    destruct (Ptr_first_failure (Ptr.LLMRequest.Contents r))
      as [Hall|(before & content & after & Hc & Hall & [(msg & err & Hf)|Hf])].
    + destruct (Ptr_request_cases r modelName Hall)
        as [[_ Hp]|[(_ & _ & Hp)|(_ & _ & [openaiReq Hp])]]; cbv zeta in *.
      * by right; left.
      * by left.
      * right; right. by exists openaiReq, None.
    + destruct (Ptr_request_first r modelName _ _ _ Hc Hall) as [He _].
      right; right. rewrite (He _ _ Hf). by eexists _, _.
    + destruct (Ptr_request_first r modelName _ _ _ Hc Hall) as [_ Hp].
      left. by apply Hp.
  - (* the panic of the content converter *)
    intros content. split.
    + intros Hp. destruct content as [[role parts]|]; [right|by left].
      destruct (first_nil parts) as [[values ->]|(before & after & ->)].
      * change (Some (Ptr.Content.mk role (map Some values)))
          with (Some (contentPointer (genai.Content.mk role values))) in Hp.
        by rewrite Ptr_message_values in Hp.
      * exists role, before, after. split; [done|].
        rewrite Ptr_message_nil in Hp.
        destruct (messageParts _ _ _ _ before) as [b'|err] eqn:Hparts; [|done].
        eapply messageParts_inl_marshals. by eexists.
    + intros [->|(role & before & after & -> & Hm)]; [done|].
      rewrite Ptr_message_nil.
      eapply messageParts_inl_marshals in Hm as [b' ->]. done.
  - intros r. apply Ptr_request_values.
Qed.

End PointerBuilder.

(** ** The entry point *)

Section EntryPoint.

Variable json_Marshal : gmap string Go.any → res string.
Variable base64_EncodeToString : list Byte.byte → string.
Variable json_Unmarshal : string → option (gmap string Go.any).
Variable rangeKeys : gmap Z toolCallBuilder.t → list Z.
Variable yield : list emission → bool.

Implicit Types (o : OpenAIModel.t) (req : LLMRequest.t).

(** X22. The non-streaming call yields exactly one element whenever it
    returns: a response alone, complete and not partial, or an error
    alone. An error of the client is passed on as it is, and a response
    of the client without choices gives the no-choices error. *)
Theorem generate_one_element o req :
  (∀ out,
     generate json_Marshal base64_EncodeToString json_Unmarshal o req = Returns out →
     ∃ e, out = [e] ∧
          ((∃ resp, e = (Some resp, None) ∧
                    model.LLMResponse.TurnComplete resp = true ∧
                    model.LLMResponse.Partial resp = false) ∨
           (∃ err, e = (None, Some err)))) ∧
  (∀ openaiReq err,
     toOpenAIChatCompletionRequest json_Marshal base64_EncodeToString req
       (OpenAIModel.ModelName o) = Returns (openaiReq, None) →
     Client.CreateChatCompletion (OpenAIModel.Client o) openaiReq = inr err →
     generate json_Marshal base64_EncodeToString json_Unmarshal o req =
     Returns [(None, Some err)]) ∧
  (∀ openaiReq usage,
     toOpenAIChatCompletionRequest json_Marshal base64_EncodeToString req
       (OpenAIModel.ModelName o) = Returns (openaiReq, None) →
     Client.CreateChatCompletion (OpenAIModel.Client o) openaiReq =
       inl (openai.ChatCompletionResponse.mk [] usage) →
     generate json_Marshal base64_EncodeToString json_Unmarshal o req =
     Returns [(None, Some Go.ErrNoChoicesInResponse)]).
Proof.
  unfold generate. split; [|split].
  - intros out.
    destruct (toOpenAIChatCompletionRequest _ _ req _) as [[openaiReq [err|]]|msg];
      [intros [= <-]; eexists; split; [done|]; right; by eexists| |done].
    destruct (Client.CreateChatCompletion _ openaiReq) as [resp|err];
      [|intros [= <-]; eexists; split; [done|]; right; by eexists].
    unfold convertChatCompletionResponse.
    destruct (openai.ChatCompletionResponse.Choices resp) as [|choice ?].
    + intros [= <-]. eexists. split; [done|]. right. by eexists.
    + intros [= <-]. eexists. split; [done|]. left. by eexists.
  - intros openaiReq err -> ->. done.
  - intros openaiReq usage -> ->. done.
Qed.

(** X23. Both modes report a failure before the call in the same way. When
    the request cannot be built, [GenerateContent] yields the builder's
    error as its only element, streaming or not; when the builder panics,
    so does the call; when the client cannot open the stream, the
    streaming mode yields that error as its only element. *)
Theorem GenerateContent_failures_before_the_call o req (stream : bool) :
  (∀ openaiReq err,
     toOpenAIChatCompletionRequest json_Marshal base64_EncodeToString req
       (OpenAIModel.ModelName o) = Returns (openaiReq, Some err) →
     GenerateContent json_Marshal base64_EncodeToString json_Unmarshal rangeKeys yield
       o req stream = Returns [(None, Some err)]) ∧
  (∀ msg,
     toOpenAIChatCompletionRequest json_Marshal base64_EncodeToString req
       (OpenAIModel.ModelName o) = Panics msg →
     GenerateContent json_Marshal base64_EncodeToString json_Unmarshal rangeKeys yield
       o req stream = Panics msg) ∧
  (∀ openaiReq err,
     toOpenAIChatCompletionRequest json_Marshal base64_EncodeToString req
       (OpenAIModel.ModelName o) = Returns (openaiReq, None) →
     Client.CreateChatCompletionStream (OpenAIModel.Client o) (setStream openaiReq) =
       inr err →
     GenerateContent json_Marshal base64_EncodeToString json_Unmarshal rangeKeys yield
       o req true = Returns [(None, Some err)]).
Proof.
  unfold GenerateContent, openStream, generate. split; [|split].
  - intros openaiReq err ->. by destruct stream.
  - intros msg ->. by destruct stream.
  - by intros openaiReq err -> ->.
Qed.

(** X24. The streaming mode end to end. When the request is built, the
    client is handed that request marked as a stream; when the stream it
    opens ends in end-of-stream, a consumer that goes on receives the
    partial responses of the chunks and then one final response, the only
    element that is not partial. *)
Theorem GenerateContent_stream_complete o req openaiReq chunks last :
  (∀ m, rangeKeys m ≡ₚ elements (dom m)) →
  (∀ out, yield out = true) →
  toOpenAIChatCompletionRequest json_Marshal base64_EncodeToString req
    (OpenAIModel.ModelName o) = Returns (openaiReq, None) →
  Client.CreateChatCompletionStream (OpenAIModel.Client o) (setStream openaiReq) =
    inl (chunks, last) →
  Go.is_EOF last = true →
  ∃ final,
    GenerateContent json_Marshal base64_EncodeToString json_Unmarshal rangeKeys yield
      o req true = Returns (partials chunks ++ [(Some final, None)]) ∧
    isFinal (Some final, None) = true ∧
    filter isFinal (partials chunks) = [] ∧
    ChatCompletionRequest.Stream (setStream openaiReq) = true ∧
    ChatCompletionRequest.Messages (setStream openaiReq) =
      ChatCompletionRequest.Messages openaiReq.
Proof.
  intros Hkeys Hy Hreq Hopen HEOF.
  unfold GenerateContent, openStream. rewrite Hreq, Hopen.
  rewrite generateStream_trace by done.
  eexists. split; [done|]. split; [done|]. split; [apply isFinal_partials|done].
Qed.

End EntryPoint.

(** ** Witnesses of the further properties *)

(** Witness of X8: the sample stream cut by a connection reset. *)
Lemma generateStream_transport_error_ends_witness :
  generateStream json.Unmarshal Examples.rangeKeys Examples.consumeAll
    (Opened Examples.chunks (Go.Other "connection reset")) =
    partials Examples.chunks ++ [(None, Some (Go.Other "connection reset"))] ∧
  filter isFinal
    (generateStream json.Unmarshal Examples.rangeKeys Examples.consumeAll
       (Opened Examples.chunks (Go.Other "connection reset"))) = [].
Proof.
  apply (generateStream_transport_error_ends
           json.Unmarshal Examples.rangeKeys Examples.consumeAll).
  - intros out. reflexivity.
  - reflexivity.
Defined.

(** Witness of X10: the keys in the order of the map and in the reverse. *)
Lemma generateStream_any_map_order_witness :
  Examples.run =
  generateStream json.Unmarshal (λ m, reverse (elements (dom m))) Examples.consumeAll
    (Opened Examples.chunks Go.EOF).
Proof.
  apply (generateStream_any_map_order json.Unmarshal Examples.rangeKeys
           (λ m, reverse (elements (dom m)))).
  - intros m. reflexivity.
  - intros m. apply reverse_Permutation.
Defined.

(** Witness of X11: a text and an image. *)
Lemma toOpenAIChatCompletionMessage_entries_and_calls_witness :
  ∃ m,
    toOpenAIChatCompletionMessage Samples.marshal Samples.base64 Samples.question =
      (m, None) ∧
    openai.ChatCompletionMessage.MultiContent m =
      concat (map (partEntries Samples.base64) (genai.Content.Parts Samples.question)) ∧
    openai.ChatCompletionMessage.ToolCalls m =
      omap (partToolCall Samples.marshal) (genai.Content.Parts Samples.question).
Proof.
  apply (toOpenAIChatCompletionMessage_entries_and_calls Samples.marshal Samples.base64
           "user" (genai.Content.Parts Samples.question)).
  - reflexivity.
  - repeat constructor; intros ? ?; discriminate.
Defined.

(** Witness of X12: the answer of the weather tool. *)
Lemma toOpenAIChatCompletionMessage_function_response_witness :
  ∃ m,
    toOpenAIChatCompletionMessage Samples.marshal Samples.base64 Samples.answer =
      (m, None) ∧
    match last (omap genai.Part.FunctionResponse (genai.Content.Parts Samples.answer)) with
    | Some fr =>
      openai.ChatCompletionMessage.Role m = "tool" ∧
      openai.ChatCompletionMessage.Content m =
        marshalled Samples.marshal (genai.FunctionResponse.Response fr) ∧
      openai.ChatCompletionMessage.ToolCallID m = genai.FunctionResponse.ID fr
    | None =>
      openai.ChatCompletionMessage.Role m = convertRoleToOpenAI "user" ∧
      openai.ChatCompletionMessage.Content m = "" ∧
      openai.ChatCompletionMessage.ToolCallID m = ""
    end.
Proof.
  apply (toOpenAIChatCompletionMessage_function_response Samples.marshal Samples.base64
           "user" (genai.Content.Parts Samples.answer)).
  - reflexivity.
  - repeat constructor.
    + intros ? ?; discriminate.
    + intros fr [= <-]. eexists. vm_compute. reflexivity.
Defined.

(** Witness of X13: arguments that the encoder refuses. *)
Lemma toOpenAIChatCompletionMessage_marshal_failure_witness :
  ∃ msg err m,
    toOpenAIChatCompletionMessage Samples.marshal Samples.base64 Samples.unencodable =
      (openai.ChatCompletionMessage.zero, Some (Go.Wrap msg err)) ∧
    Samples.marshal m = inr err ∧
    (msg = "failed to marshal function args" ∨
     msg = "failed to marshal function response").
Proof.
  apply (toOpenAIChatCompletionMessage_marshal_failure Samples.marshal Samples.base64
           "model" (genai.Content.Parts Samples.unencodable)).
  - reflexivity.
  - intros Hall. apply Forall_cons in Hall as [[Hcall _] _].
    destruct (Hcall _ eq_refl) as [text Htext]. vm_compute in Htext. discriminate.
Defined.

(** Witness of X15: the two calls of the sample stream. *)
Lemma function_call_round_trip_witness :
  ∃ message,
    toOpenAIChatCompletionMessage Samples.marshal Samples.base64
      (genai.Content.mk "model"
         (map functionCallPart [Examples.weatherCall; Examples.timeCall])) =
      (message, None) ∧
    length (openai.ChatCompletionMessage.ToolCalls message) = 2%nat ∧
    ∀ idx reason choices usage,
      ∃ resp,
        convertChatCompletionResponse json.Unmarshal
          (openai.ChatCompletionResponse.mk
             (openai.ChatCompletionChoice.mk idx message reason :: choices) usage) =
          (Some resp, None) ∧
        model.LLMResponse.Content resp =
          genai.Content.mk "model"
            (map functionCallPart [Examples.weatherCall; Examples.timeCall]).
Proof.
  apply (function_call_round_trip Samples.marshal Samples.base64 json.Unmarshal "model"
           [Examples.weatherCall; Examples.timeCall]).
  repeat constructor; eexists; (split; [vm_compute; reflexivity|by vm_compute]).
Defined.

(** Witness of X18: the second content cannot be encoded, and the tools of
    the configuration, with their nil declaration, are not reached. *)
Lemma toOpenAIChatCompletionRequest_first_error_witness :
  toOpenAIChatCompletionRequest Samples.marshal Samples.base64 Samples.badRequest "gpt-4" =
  Returns (ChatCompletionRequest.zero,
           Some (Go.Wrap "failed to marshal function args"
                   (Go.Other "json: unsupported type"))).
Proof.
  apply (toOpenAIChatCompletionRequest_first_error Samples.marshal Samples.base64
           Samples.badRequest "gpt-4" [Samples.question] Samples.unencodable
           [Samples.answer]).
  - reflexivity.
  - repeat constructor.
  - by vm_compute.
Defined.

(** Witness of X19: the sample request, with its system instruction. *)
Lemma toOpenAIChatCompletionRequest_messages_witness :
  ∃ openaiReq,
    toOpenAIChatCompletionRequest Samples.marshal Samples.base64 Samples.request "gpt-4" =
      Returns (openaiReq, None) ∧
    ChatCompletionRequest.Model openaiReq = "gpt-4" ∧
    ChatCompletionRequest.Stream openaiReq = false ∧
    ChatCompletionRequest.Messages openaiReq =
      [openai.ChatCompletionMessage.mk "system"
         (String.concat newline
            (filter (λ s, s ≠ "")
               (map genai.Part.Text (genai.Content.Parts Samples.instruction)))) [] [] ""] ++
      map (λ c, (toOpenAIChatCompletionMessage Samples.marshal Samples.base64 c).1)
        [Samples.question; Samples.call; Samples.answer].
Proof.
  eexists. split; [by vm_compute|].
  eapply (toOpenAIChatCompletionRequest_messages Samples.marshal Samples.base64
            Samples.request "gpt-4").
  by vm_compute.
Defined.

(** Witness of X20: the settings of the sample request. *)
Lemma toOpenAIChatCompletionRequest_settings_witness :
  ∃ openaiReq,
    toOpenAIChatCompletionRequest Samples.marshal Samples.base64 Samples.request "gpt-4" =
      Returns (openaiReq, None) ∧
    ChatCompletionRequest.MaxTokens openaiReq = 256 ∧
    ChatCompletionRequest.Stop openaiReq = ["END"] ∧
    ChatCompletionRequest.Temperature openaiReq = 0 ∧
    length (Go.elems (ChatCompletionRequest.Tools openaiReq)) = 3%nat.
Proof.
  eexists. split; [by vm_compute|].
  destruct (toOpenAIChatCompletionRequest_settings Samples.marshal Samples.base64
              Samples.request "gpt-4" _ ltac:(by vm_compute))
    as ((decls & Hdecls & Helems & _) & Htemperature & Hmax & _ & Hstop & _).
  split; [exact Hmax|]. split; [exact Hstop|]. split; [exact Htemperature|].
  rewrite Helems, length_map.
  apply (f_equal length) in Hdecls. rewrite length_map in Hdecls. by rewrite <- Hdecls.
Defined.

(** Witness of X24: the sample model on the sample stream. *)
Lemma GenerateContent_stream_complete_witness :
  ∃ final,
    GenerateContent Samples.marshal Samples.base64 json.Unmarshal
      Examples.rangeKeys Examples.consumeAll Samples.llm Samples.request true =
      Returns (partials Examples.chunks ++ [(Some final, None)]) ∧
    isFinal (Some final, None) = true ∧
    filter isFinal (partials Examples.chunks) = [].
Proof.
  assert (∃ openaiReq,
            toOpenAIChatCompletionRequest Samples.marshal Samples.base64
              Samples.request (OpenAIModel.ModelName Samples.llm) =
            Returns (openaiReq, None)) as [openaiReq Hreq].
  { eexists. by vm_compute. }
  destruct (GenerateContent_stream_complete Samples.marshal Samples.base64 json.Unmarshal
              Examples.rangeKeys Examples.consumeAll Samples.llm Samples.request
              openaiReq Examples.chunks Go.EOF)
    as (final & Hrun & Hfinal & Hpartials & _).
  - intros m. reflexivity.
  - intros out. reflexivity.
  - exact Hreq.
  - reflexivity.
  - reflexivity.
  - exists final. exact (conj Hrun (conj Hfinal Hpartials)).
Defined.

(** The non-streaming call on the sample model, and on a client whose
    calls fail. *)
Example generate_example :
  generate Samples.marshal Samples.base64 json.Unmarshal Samples.llm Samples.request =
  Returns
    [(Some (model.LLMResponse.mk
              (genai.Content.mk "model" [textPart "It is sunny."])
              (Some (genai.GenerateContentResponseUsageMetadata.mk 7 5 12 0))
              genai.FinishReasonStop false true), None)].
Proof. by vm_compute. Qed.

Example generate_offline :
  generate Samples.marshal Samples.base64 json.Unmarshal Samples.offline Samples.request =
  Returns [(None, Some (Go.Other "connection refused"))].
Proof. by vm_compute. Qed.

(** The request builder on nil pointers: a nil request, a nil content and
    a nil part panic; an encoding that fails before the nil part, or a
    content that fails before the nil content, gives the error instead;
    a nil declaration is met before the system instruction is read. *)
Example toOpenAIChatCompletionRequest_nil_pointers :
  let build := Ptr.toOpenAIChatCompletionRequest Samples.marshal Samples.base64 in
  let refused :=
    Go.Wrap "failed to marshal function args" (Go.Other "json: unsupported type") in
  build None "gpt-4" = Panics nilDereference ∧
  build (PtrSamples.request [Some (contentPointer Samples.question); None] None) "gpt-4" =
    Panics nilDereference ∧
  build (PtrSamples.request [Some PtrSamples.nilPart] None) "gpt-4" =
    Panics nilDereference ∧
  build (PtrSamples.request [Some PtrSamples.failsBeforeNil] None) "gpt-4" =
    Returns (ChatCompletionRequest.zero, Some refused) ∧
  build (PtrSamples.request [Some (contentPointer Samples.unencodable); None] None)
    "gpt-4" = Returns (ChatCompletionRequest.zero, Some refused) ∧
  build (PtrSamples.request [] (Some PtrSamples.config)) "gpt-4" =
    Panics "funcDecl is nil" ∧
  build (PtrSamples.request [] (Some PtrSamples.instructionOnly)) "gpt-4" =
    Panics nilDereference ∧
  build (requestPointer Samples.request) "gpt-4" =
    toOpenAIChatCompletionRequest Samples.marshal Samples.base64 Samples.request "gpt-4".
Proof. by vm_compute. Qed.
